(** * d3net_depth_estimation: the DenseUNet architecture of [model/d3_net.py]

    A shallow embedding of the module tree built by the constructors of
    [model/d3_net.py] and of the [forward] methods that route tensors
    through it.  The tensor library itself (torch) is external: its
    operations appear here through their documented effect on the shape
    of a 4-d tensor, through the contents of a nested-list tensor where a
    property is about contents, and as abstract callables where a
    property is only about the routing of values. *)

From Stdlib Require Import ZArith List String Ascii Bool Lia QArith.
From Stdlib Require Import Decimal DecimalString DecimalZ.
From Stdlib Require Import Reals Lra.
Import ListNotations.

Local Open Scope string_scope.
Local Open Scope list_scope.
Local Open Scope Z_scope.

(** ** Failure: a raised exception is [None] *)

Definition bind {A B : Type} (c : option A) (k : A -> option B) : option B :=
  match c with
  | Some a => k a
  | None => None
  end.

Notation "x <- c ;; k" := (bind c (fun x => k))
  (at level 61, c at next level, right associativity).

(** ** Python integers, formatting and slices *)

Module Py.

(** [a // b] on Python ints is floor division. *)
Definition floordiv (a b : Z) : Z := a / b.

(** [int(a / 2)]: true division followed by truncation toward zero.
    The division goes through a float: it is exact, and the result is
    the quotient below, when [a] is below 2^53 in absolute value.  A
    statement that depends on the value carries that bound,
    [exact_float a], as a hypothesis. *)
Definition int_truediv2 (a : Z) : Z := Z.quot a 2.

Definition exact_float (a : Z) : Prop := Z.abs a < 2 ^ 53.

(** ['%d' % n] and ['{}'.format(n)] on an int. *)
Definition str (n : Z) : string := NilZero.string_of_int (Z.to_int n).

(** [range(n)] *)
Definition range (n : Z) : list Z := map Z.of_nat (seq 0 (Z.to_nat n)).

(** [range(a, b)] *)
Definition range2 (a b : Z) : list Z := map (fun k => a + k) (range (b - a)).

(** [enumerate(l)] *)
Definition enumerate {A : Type} (l : list A) : list (Z * A) :=
  combine (range (Z.of_nat (List.length l))) l.

(** A slice bound against a sequence of length [n]: a negative bound
    counts from the end, and bounds are clamped to [0 .. n]. *)
Definition slice_bound (n i : Z) : Z :=
  if i <? 0 then Z.max (i + n) 0 else Z.min i n.

(** Number of elements of [s[start:stop]] for [len(s) = n]. *)
Definition slice_len (n start stop : Z) : Z :=
  Z.max 0 (slice_bound n stop - slice_bound n start).

(** [s[start:stop]] *)
Definition slice {A : Type} (start stop : Z) (s : list A) : list A :=
  let n := Z.of_nat (List.length s) in
  let a := slice_bound n start in
  let b := slice_bound n stop in
  firstn (Z.to_nat (b - a)) (skipn (Z.to_nat a) s).

End Py.

(** ** The module tree

    One constructor per class of module that [d3_net.py] instantiates.
    [conv3x3], [UpsampleBlock] and the decoder block class are
    imported from [conv_blocks], whose source is not available: they
    are [Foreign] nodes carrying the class name and the constructor
    arguments.  [_DenseBlock] and [_Transition] subclass [nn.Sequential]
    without overriding [forward], so they are [Sequential] nodes;
    [_DenseLayer] overrides it and has a node of its own.  Arguments
    without effect on shapes or routing ([bias], [inplace], the
    interpolation mode) are not recorded. *)

Module nn.

#[warnings="-register-all"]
Inductive module : Type :=
| BatchNorm2d (num_features : Z)
| ReLU
| LeakyReLU (negative_slope : Q)
| Tanh
| Conv2d (in_channels out_channels kernel_size stride padding : Z)
| AvgPool2d (kernel_size stride : Z)
| Upsample (size : Z * Z)
| Foreign (cls : string) (args : list Z) (flags : list bool)
| Sequential (children : list (string * module))
| DenseLayer (children : list (string * module)) (drop_rate : Q).

End nn.

(** The classes imported from [conv_blocks]. *)
Definition conv3x3 (inplanes outplanes : Z) : nn.module :=
  nn.Foreign "conv3x3" [inplanes; outplanes] [].

Definition UpsampleBlock (inplanes outplanes : Z) : nn.module :=
  nn.Foreign "UpsampleBlock" [inplanes; outplanes] [].

(** [get_decoder_block(d_block_type)] returns a class; calling it as
    [block(inplanes, outplanes, upsample=..., use_dropout=...)] builds
    the block. *)
Definition get_decoder_block (d_block_type : string)
  : Z -> Z -> bool -> bool -> nn.module :=
  fun inplanes outplanes upsample use_dropout =>
    nn.Foreign d_block_type [inplanes; outplanes] [upsample; use_dropout].

(** [nn.Module.add_module] on the ordered dictionary of children: an
    existing name keeps its position and gets the new module, a new name
    is appended. *)
Fixpoint add_module {M : Type} (children : list (string * M))
         (name : string) (m : M) : list (string * M) :=
  match children with
  | [] => [(name, m)]
  | (n, m') :: rest =>
      if String.eqb n name then (n, m) :: rest
      else (n, m') :: add_module rest name m
  end.

(** Attribute access [container.name] on the children of a container;
    [None] is the [AttributeError]. *)
Fixpoint getattr {M : Type} (children : list (string * M)) (name : string)
  : option M :=
  match children with
  | [] => None
  | (n, m) :: rest => if String.eqb n name then Some m else getattr rest name
  end.

(** *** [_DenseLayer.__init__] *)
Definition _DenseLayer (num_input_features growth_rate bn_size : Z)
           (drop_rate : Q) : nn.module :=
  let s := [] in
  let s := add_module s "norm1" (nn.BatchNorm2d num_input_features) in
  let s := add_module s "relu1" nn.ReLU in
  let s := add_module s "conv1"
             (nn.Conv2d num_input_features (bn_size * growth_rate) 1 1 0) in
  let s := add_module s "norm2" (nn.BatchNorm2d (bn_size * growth_rate)) in
  let s := add_module s "relu2" nn.ReLU in
  let s := add_module s "conv2"
             (nn.Conv2d (bn_size * growth_rate) growth_rate 3 1 1) in
  nn.DenseLayer s drop_rate.

(** *** [_DenseBlock.__init__]: the loop body, then the loop *)
Definition _DenseBlock_step (num_input_features bn_size growth_rate : Z)
           (drop_rate : Q) (s : list (string * nn.module)) (i : Z)
  : list (string * nn.module) :=
  let layer := _DenseLayer (num_input_features + i * growth_rate)
                           growth_rate bn_size drop_rate in
  add_module s ("denselayer" ++ Py.str (i + 1))%string layer.

Definition _DenseBlock_children (num_layers num_input_features bn_size
                                 growth_rate : Z) (drop_rate : Q)
  : list (string * nn.module) :=
  fold_left (_DenseBlock_step num_input_features bn_size growth_rate drop_rate)
            (Py.range num_layers) [].

Definition _DenseBlock (num_layers num_input_features bn_size growth_rate : Z)
           (drop_rate : Q) : nn.module :=
  nn.Sequential (_DenseBlock_children num_layers num_input_features bn_size
                                      growth_rate drop_rate).

(** What the loop of [_DenseBlock.__init__] adds for index [i]: the
    layer named [denselayer(i+1)], built over
    [num_input_features + i * growth_rate] channels. *)
Definition dense_child (num_input_features bn_size growth_rate : Z)
           (drop_rate : Q) (i : Z) : string * nn.module :=
  (("denselayer" ++ Py.str (i + 1))%string,
   _DenseLayer (num_input_features + i * growth_rate) growth_rate bn_size
               drop_rate).

(** *** [_Transition.__init__] (the pooling line is commented out there) *)
Definition _Transition (num_input_features num_output_features : Z)
  : nn.module :=
  let s := [] in
  let s := add_module s "norm" (nn.BatchNorm2d num_input_features) in
  let s := add_module s "relu" nn.ReLU in
  let s := add_module s "conv"
             (nn.Conv2d num_input_features num_output_features 1 1 0) in
  nn.Sequential s.

(** *** [_TransitionUp.__init__]

    The object keeps two [nn.Sequential] attributes; its [forward] takes
    two tensors, so it is a record of its own and not a [module] node. *)
Record TransitionUp (M : Type) : Type := {
  transition_upsample : M;
  last_transition : M
}.
Arguments transition_upsample {M} _.
Arguments last_transition {M} _.

Definition _TransitionUp (num_input_features num_output_features : Z)
  : TransitionUp nn.module :=
  let tu := [] in
  let tu := add_module tu "d_transition1"
              (_Transition num_input_features
                           (Py.floordiv num_input_features 2)) in
  let num_features := Py.floordiv num_input_features 2 in
  let tu := add_module tu "upsample"
              (UpsampleBlock num_features num_features) in
  let lt := [] in
  let lt := add_module lt "d_transition2"
              (_Transition num_input_features num_output_features) in
  {| transition_upsample := nn.Sequential tu;
     last_transition := nn.Sequential lt |}.

(** *** The [DenseUNet] object

    The attributes that [__init__] sets and [forward] reads.  [M] is the
    type of a callable module: [nn.module] for the object that
    [__init__] builds, and any other type of callables when only the
    routing of [forward] matters.  [decoder_sem], [last_conv_sem] and
    [upsample] exist only under their flags. *)
Record DenseUNet (M : Type) : Type := {
  use_skips : bool;
  bilinear_trick : bool;
  use_semantics : bool;
  relu_type : M;
  features : list (string * M);
  decoder : list (string * M);
  decoder_sem : option (list (string * M));
  last_conv : M;
  last_conv_sem : option M;
  upsample : option M;
  Tanh : M
}.
Arguments use_skips {M} _.
Arguments bilinear_trick {M} _.
Arguments use_semantics {M} _.
Arguments relu_type {M} _.
Arguments features {M} _.
Arguments decoder {M} _.
Arguments decoder_sem {M} _.
Arguments last_conv {M} _.
Arguments last_conv_sem {M} _.
Arguments upsample {M} _.
Arguments Tanh {M} _.

(** [DenseUNet._make_decoder_layer]: an [nn.Sequential] built from a
    list of modules names its children by position. *)
Definition _make_decoder_layer (block : Z -> Z -> bool -> bool -> nn.module)
           (inplanes outplanes : Z) (use_dropout : bool) : nn.module :=
  let layers := [block inplanes outplanes true use_dropout] in
  nn.Sequential (combine (map Py.str (Py.range (Z.of_nat (List.length layers))))
                         layers).

(** Body of [for i, num_layers in enumerate(block_config)]; the state is
    [(self.features, num_features)]. *)
Definition encoder_step (len_block_config bn_size growth_rate : Z)
           (drop_rate : Q) (st : list (string * nn.module) * Z) (e : Z * Z)
  : list (string * nn.module) * Z :=
  let '(features, num_features) := st in
  let '(i, num_layers) := e in
  let block := _DenseBlock num_layers num_features bn_size growth_rate
                           drop_rate in
  let features :=
    add_module features ("denseblock" ++ Py.str (i + 1))%string block in
  let num_features := num_features + num_layers * growth_rate in
  if negb (i =? len_block_config - 1) then
    let trans := _Transition num_features (Py.floordiv num_features 2) in
    let features :=
      add_module features ("transition" ++ Py.str (i + 1))%string trans in
    let features :=
      add_module features ("transition" ++ Py.str (i + 1) ++ "pool")%string
                 (nn.AvgPool2d 2 2) in
    (features, Py.floordiv num_features 2)
  else (features, num_features).

(** The variables live across [for i in reversed(range(2, 6))]: [i] and
    [mult] are read again after the loop, which always runs and so
    always sets them. *)
Record decoder_state : Type := {
  st_decoder : list (string * nn.module);
  st_decoder_sem : option (list (string * nn.module));
  st_num_features : Z;
  st_i : Z;
  st_mult : Z
}.

Definition decoder_step (d_block : Z -> Z -> bool -> bool -> nn.module)
           (ngf_mult : Z) (use_dropout use_semantics : bool)
           (st : decoder_state) (i : Z) : decoder_state :=
  let num_features := st_num_features st in
  let mult := if i =? 5 then 1 else ngf_mult in
  let dropout := if 3 <? i then use_dropout else false in
  let decoder :=
    add_module (st_decoder st) ("d_block" ++ Py.str i)%string
      (_make_decoder_layer d_block (num_features * mult)
                           (Py.int_truediv2 num_features) dropout) in
  let decoder_sem :=
    if use_semantics then
      option_map
        (fun ds =>
           add_module ds ("d_block" ++ Py.str i)%string
             (_make_decoder_layer d_block (num_features * mult)
                                  (Py.int_truediv2 num_features) dropout))
        (st_decoder_sem st)
    else st_decoder_sem st in
  {| st_decoder := decoder;
     st_decoder_sem := decoder_sem;
     st_num_features := Py.int_truediv2 num_features;
     st_i := i;
     st_mult := mult |}.

(** *** [DenseUNet.__init__]

    [outputSize] is read at indices 0 and 1 only; it is a pair here. *)
Definition DenseUNet_init (d_block : Z -> Z -> bool -> bool -> nn.module)
           (input_nc output_nc growth_rate : Z) (block_config : list Z)
           (num_init_features bn_size : Z) (drop_rate : Q) (num_classes : Z)
           (use_dropout use_skips bilinear_trick : bool)
           (outputSize : Z * Z) (use_semantics : bool)
  : DenseUNet nn.module :=
  let ngf_mult := if use_skips then 2 else 1 in
  let relu_type := nn.LeakyReLU (2 # 10) in
  (* First convolution *)
  let features :=
    [ ("conv0", nn.Conv2d input_nc num_init_features 7 2 3);
      ("norm0", nn.BatchNorm2d num_init_features);
      ("relu0", relu_type);
      ("downconv0", nn.Conv2d num_init_features num_init_features 4 2 1);
      ("norm1", nn.BatchNorm2d num_init_features);
      ("relu1", relu_type) ] in
  (* Each denseblock *)
  let num_features := num_init_features in
  let '(features, num_features) :=
    fold_left (encoder_step (Z.of_nat (List.length block_config))
                            bn_size growth_rate drop_rate)
              (Py.enumerate block_config) (features, num_features) in
  (* Final batch norm *)
  let features := add_module features "norm5" (nn.BatchNorm2d num_features) in
  (* each decoder block *)
  let st :=
    fold_left (decoder_step d_block ngf_mult use_dropout use_semantics)
              (List.rev (Py.range2 2 6))
              {| st_decoder := [];
                 st_decoder_sem := if use_semantics then Some [] else None;
                 st_num_features := num_features;
                 st_i := Z.of_nat (List.length block_config) - 1;
                 st_mult := ngf_mult |} in
  let num_features := st_num_features st in
  let i := st_i st in
  let mult := st_mult st in
  let decoder :=
    add_module (st_decoder st) ("d_block" ++ Py.str (i - 1))%string
      (_make_decoder_layer d_block (num_features * mult) num_features false) in
  let decoder_sem :=
    if use_semantics then
      option_map
        (fun ds =>
           add_module ds ("d_block" ++ Py.str (i - 1))%string
             (_make_decoder_layer d_block (num_features * mult) num_features
                                  false))
        (st_decoder_sem st)
    else st_decoder_sem st in
  let last_conv := conv3x3 num_features output_nc in
  let last_conv_sem :=
    if use_semantics then Some (conv3x3 num_features num_classes) else None in
  let upsample :=
    if bilinear_trick then
      let outputSize :=
        if snd outputSize <? fst outputSize
        then (snd outputSize, fst outputSize) else outputSize in
      Some (nn.Sequential [ ("up_tranf", nn.Upsample outputSize);
                            ("conv", conv3x3 output_nc output_nc) ])
    else None in
  {| use_skips := use_skips;
     bilinear_trick := bilinear_trick;
     use_semantics := use_semantics;
     relu_type := relu_type;
     features := features;
     decoder := decoder;
     decoder_sem := decoder_sem;
     last_conv := last_conv;
     last_conv_sem := last_conv_sem;
     upsample := upsample;
     Tanh := nn.Tanh |}.

(** [denseUnet121] without pretrained weights: the one configuration the
    file instantiates. *)
Definition denseUnet121 (d_block_type : string)
           (input_nc output_nc : Z) (bn_size : Z) (drop_rate : Q)
           (num_classes : Z) (use_dropout use_skips bilinear_trick : bool)
           (outputSize : Z * Z) (use_semantics : bool) : DenseUNet nn.module :=
  let d_block := get_decoder_block d_block_type in
  DenseUNet_init d_block input_nc output_nc 32 [6; 12; 24; 16] 64 bn_size
                 drop_rate num_classes use_dropout use_skips bilinear_trick
                 outputSize use_semantics.

(** ** Calling modules

    [T] is the type of tensors.  What torch does is a parameter:
    [leaf m x] is the call of a module without children, [cat a b] is
    [torch.cat((a, b), 1)], [dropout p training x] is [F.dropout], [size]
    is [Tensor.size()] of a 4-d tensor and [index_hw x a b c d] is the
    indexing [x[:, :, a:b, c:d]].  Each of the first three may raise. *)

Section Calling.

Variable T : Type.
Variable leaf : nn.module -> T -> option T.
Variable cat : T -> T -> option T.
Variable dropout : Q -> bool -> T -> option T.
Variable size : T -> Z * Z * Z * Z.
Variable index_hw : T -> Z -> Z -> Z -> Z -> T.

(** [self.training], shared by the whole tree. *)
Variable training : bool.

(** [nn.Sequential.forward]: the children in order. *)
Fixpoint Sequential_forward {M : Type} (call : M -> T -> option T)
         (children : list (string * M)) (x : T) : option T :=
  match children with
  | [] => Some x
  | (_, m) :: rest =>
      y <- call m x ;; Sequential_forward call rest y
  end.

(** [module(x)] on the module tree.  The [DenseLayer] case is
    [_DenseLayer.forward]. *)
Fixpoint call (m : nn.module) (x : T) {struct m} : option T :=
  match m with
  | nn.Sequential children =>
      (fix go (cs : list (string * nn.module)) (x : T) : option T :=
         match cs with
         | [] => Some x
         | c :: rest => y <- call (snd c) x ;; go rest y
         end) children x
  | nn.DenseLayer children drop_rate =>
      new_features <-
        (fix go (cs : list (string * nn.module)) (x : T) : option T :=
           match cs with
           | [] => Some x
           | c :: rest => y <- call (snd c) x ;; go rest y
           end) children x ;;
      new_features <-
        (if negb (Qle_bool drop_rate 0)
         then dropout drop_rate training new_features
         else Some new_features) ;;
      cat x new_features
  | _ => leaf m x
  end.

(** [center_crop(layer, max_height, max_width)] *)
Definition center_crop (layer : T) (max_height max_width : Z) : T :=
  let '(batch_size, n_channels, layer_height, layer_width) := size layer in
  let xy1 := Py.floordiv (layer_width - max_width) 2 in
  let xy2 := Py.floordiv (layer_height - max_height) 2 in
  index_hw layer xy2 (xy2 + max_height) xy1 (xy1 + max_width).

(** [x.size(2)] and [x.size(3)] *)
Definition size2 (x : T) : Z := let '(_, _, h, _) := size x in h.
Definition size3 (x : T) : Z := let '(_, _, _, w) := size x in w.

(** [_TransitionUp.forward(x, skip)].  The two [print] calls write the
    heights to standard output; the values printed are returned next
    to the result. *)
Definition TransitionUp_forward (self : TransitionUp nn.module)
           (x skip : T) : option (list Z * T) :=
  out <- call (transition_upsample self) x ;;
  let printed1 := size2 out in
  let out := center_crop out (size2 skip) (size3 skip) in
  let printed2 := size2 skip in
  out <- cat out skip ;;
  out <- call (last_transition self) out ;;
  Some ([printed1; printed2], out).

End Calling.

(** ** [DenseUNet.forward]

    Generic in the type [M] of callables so that the same definition runs
    the module tree of [__init__] and any other assignment of functions
    to the attributes.  The body is cut in two at its comment "Here comes
    the decoder": [forward_encoder] is the statements before it and
    returns the local variables still read afterwards, [forward_decoder]
    is the statements after it.  A call is a function of its argument:
    the in-place activations of this file act on tensors that nothing
    else holds, and a decoder block is taken not to write into its
    input. *)

Inductive output (T : Type) : Type :=
| Single (out_reg : T)
| Pair (out_reg out_sem_last : T).
Arguments Single {T} _.
Arguments Pair {T} _ _.

(** The regression output of either form of result. *)
Definition regression {T : Type} (r : output T) : T :=
  match r with
  | Single out_reg => out_reg
  | Pair out_reg _ => out_reg
  end.

(** The locals of [forward] that are live at the start of the decoder. *)
Record encoded (T : Type) : Type := {
  out_conv1 : T;
  tb_denseblock1 : T;
  tb_denseblock2 : T;
  tb_denseblock3 : T;
  out : T
}.
Arguments out_conv1 {T} _.
Arguments tb_denseblock1 {T} _.
Arguments tb_denseblock2 {T} _.
Arguments tb_denseblock3 {T} _.
Arguments out {T} _.

Section Forward.

Variables M T : Type.
Variable call : M -> T -> option T.
Variable cat : T -> T -> option T.

(** [container.name(x)]: attribute lookup, then the call. *)
Definition call_attr (children : list (string * M)) (name : string)
           (x : T) : option T :=
  m <- getattr children name ;; call m x.

Definition get_decoder_input (self : DenseUNet M) (e_out d_out : T)
  : option T :=
  if use_skips self then cat e_out d_out else Some d_out.

Definition forward_encoder (self : DenseUNet M) (x : T)
  : option (encoded T) :=
  let features := features self in
  out <- call_attr features "conv0" x ;;
  out <- call_attr features "norm0" out ;;
  out_conv1 <- call_attr features "relu0" out ;;
  out <- call_attr features "downconv0" out_conv1 ;;
  out <- call_attr features "norm1" out ;;
  out <- call_attr features "relu1" out ;;
  out <- call_attr features "denseblock1" out ;;
  tb_denseblock1 <- call_attr features "transition1" out ;;
  out <- call_attr features "transition1pool" tb_denseblock1 ;;
  out <- call_attr features "denseblock2" out ;;
  tb_denseblock2 <- call_attr features "transition2" out ;;
  out <- call_attr features "transition2pool" tb_denseblock2 ;;
  out <- call_attr features "denseblock3" out ;;
  tb_denseblock3 <- call_attr features "transition3" out ;;
  out <- call_attr features "transition3pool" tb_denseblock3 ;;
  out <- call_attr features "denseblock4" out ;;
  out <- call_attr features "norm5" out ;;
  out <- call (relu_type self) out ;;
  Some {| out_conv1 := out_conv1;
          tb_denseblock1 := tb_denseblock1;
          tb_denseblock2 := tb_denseblock2;
          tb_denseblock3 := tb_denseblock3;
          out := out |}.

Definition forward_decoder (self : DenseUNet M) (e : encoded T)
  : option (output T) :=
  let decoder := decoder self in
  let out_conv1 := out_conv1 e in
  let tb_denseblock1 := tb_denseblock1 e in
  let tb_denseblock2 := tb_denseblock2 e in
  let tb_denseblock3 := tb_denseblock3 e in
  let out := out e in
  out <- call_attr decoder "d_block5" out ;;
  inp <- get_decoder_input self tb_denseblock3 out ;;
  out <- call_attr decoder "d_block4" inp ;;
  inp <- get_decoder_input self tb_denseblock2 out ;;
  out_d3 <- call_attr decoder "d_block3" inp ;;
  inp <- get_decoder_input self tb_denseblock1 out_d3 ;;
  out_reg_d2 <- call_attr decoder "d_block2" inp ;;
  inp <- get_decoder_input self out_conv1 out_reg_d2 ;;
  out_reg_d1 <- call_attr decoder "d_block1" inp ;;
  out_reg_last <- call (last_conv self) out_reg_d1 ;;
  out <- (if bilinear_trick self
          then up <- upsample self ;; call up out
          else Some out) ;;
  out_reg <- call (Tanh self) out_reg_last ;;
  if use_semantics self then
    decoder_sem <- decoder_sem self ;;
    inp <- get_decoder_input self tb_denseblock1 out_d3 ;;
    out_sem_d2 <- call_attr decoder_sem "d_block2" inp ;;
    inp <- get_decoder_input self out_conv1 out_sem_d2 ;;
    out_sem_d1 <- call_attr decoder_sem "d_block1" inp ;;
    last_conv_sem <- last_conv_sem self ;;
    out_sem_last <- call last_conv_sem out_sem_d1 ;;
    Some (Pair out_reg out_sem_last)
  else
    Some (Single out_reg).

Definition forward (self : DenseUNet M) (x : T) : option (output T) :=
  e <- forward_encoder self x ;; forward_decoder self e.

End Forward.

Arguments call_attr {M T} call children name x.
Arguments get_decoder_input {M T} cat self e_out d_out.
Arguments forward_encoder {M T} call self x.
Arguments forward_decoder {M T} call cat self e.
Arguments forward {M T} call cat self x.

(** ** Shapes

    What torch does to the shape [(B, C, H, W)] of a 4-d tensor.  A
    shape mismatch raises.  [training] is [self.training]: a module is
    in training mode when it is built and in inference mode after
    [eval()]. *)

Module Shape.

Definition t : Type := Z * Z * Z * Z.

(** Output length of a convolution or pooling window along one axis;
    the window must fit into the padded input. *)
Definition window_out (n kernel_size stride padding : Z) : option Z :=
  if (0 <? stride) && (kernel_size <=? n + 2 * padding)
  then Some ((n + 2 * padding - kernel_size) / stride + 1)
  else None.

(** [nn.Conv2d(in_channels, out_channels, kernel_size, stride, padding)] *)
Definition conv2d (in_channels out_channels kernel_size stride padding : Z)
           (x : t) : option t :=
  let '(b, c, h, w) := x in
  if c =? in_channels then
    h' <- window_out h kernel_size stride padding ;;
    w' <- window_out w kernel_size stride padding ;;
    Some (b, out_channels, h', w')
  else None.

(** [nn.BatchNorm2d(num_features)].  In training mode the batch
    statistics need more than one value per channel: torch raises
    "Expected more than 1 value per channel when training" when
    [B * H * W = 1]. *)
Definition batch_norm (training : bool) (num_features : Z) (x : t)
  : option t :=
  let '(b, c, h, w) := x in
  if c =? num_features then
    if training && (b * h * w =? 1) then None else Some x
  else None.

Section Leaf.

Variable training : bool.

(** Shape behaviour of the classes of [conv_blocks]. *)
Variable foreign : string -> list Z -> list bool -> t -> option t.

Definition leaf (m : nn.module) (x : t) : option t :=
  let '(b, c, h, w) := x in
  match m with
  | nn.BatchNorm2d num_features => batch_norm training num_features x
  | nn.ReLU => Some x
  | nn.LeakyReLU _ => Some x
  | nn.Tanh => Some x
  | nn.Conv2d in_channels out_channels kernel_size stride padding =>
      conv2d in_channels out_channels kernel_size stride padding x
  | nn.AvgPool2d kernel_size stride =>
      h' <- window_out h kernel_size stride 0 ;;
      w' <- window_out w kernel_size stride 0 ;;
      Some (b, c, h', w')
  | nn.Upsample size =>
      (* input and output sizes must be greater than 0 *)
      if (0 <? c) && (0 <? h) && (0 <? w)
         && (0 <? fst size) && (0 <? snd size)
      then Some (b, c, fst size, snd size)
      else None
  | nn.Foreign cls args flags => foreign cls args flags x
  | nn.Sequential _ => None
  | nn.DenseLayer _ _ => None
  end.

End Leaf.

(** [torch.cat((a, b), 1)]: all axes but the channel axis must agree. *)
Definition cat (a b : t) : option t :=
  let '(ba, ca, ha, wa) := a in
  let '(bb, cb, hb, wb) := b in
  if (ba =? bb) && (ha =? hb) && (wa =? wb)
  then Some (ba, ca + cb, ha, wa)
  else None.

(** [F.dropout(x, p, training)] keeps the shape; a probability outside
    [0, 1] raises a [ValueError], in either mode. *)
Definition dropout (p : Q) (training : bool) (x : t) : option t :=
  if Qle_bool 0 p && Qle_bool p 1 then Some x else None.

Definition size (x : t) : Z * Z * Z * Z := x.

(** [x[:, :, a:b, c:d]] *)
Definition index_hw (x : t) (a b c d : Z) : t :=
  let '(n, ch, h, w) := x in
  (n, ch, Py.slice_len h a b, Py.slice_len w c d).

(** Modelled from the spec: the classes of [conv_blocks], whose source
    is missing.  [conv3x3] is the "final 3x3 convolution" and keeps
    the resolution; a decoder block built with [upsample=True] and an
    [UpsampleBlock] map [inplanes] channels to [outplanes] channels
    and "upsample spatially" by the factor two of the resolution
    comments in [forward]. *)
Definition conv_blocks (cls : string) (args : list Z) (flags : list bool)
           (x : t) : option t :=
  let '(b, c, h, w) := x in
  match args with
  | [inplanes; outplanes] =>
      if String.eqb cls "conv3x3" then conv2d inplanes outplanes 3 1 1 x
      else if c =? inplanes then
        match flags with
        | false :: _ => Some (b, outplanes, h, w)
        | _ => Some (b, outplanes, 2 * h, 2 * w)
        end
      else None
  | _ => None
  end.

Definition call (training : bool)
           (foreign : string -> list Z -> list bool -> t -> option t)
  : nn.module -> t -> option t :=
  call t (leaf training foreign) cat dropout training.

(** A batch norm in training mode is given one value per channel. *)
Definition single_value (training : bool) (b h w : Z) : bool :=
  training && (b * h * w =? 1).

(** What decides whether the encoder of a four-block model runs on an
    input of the right channel count and at least 31 by 31 pixels: the
    bottleneck of [h] by [w] values must leave the batch norms more
    than one value per channel in training mode, and the dropout rate
    must be at most one unless no dense block has a layer. *)
Definition encoder_runs (training : bool) (drop_rate : Q)
           (n1 n2 n3 n4 b h w : Z) : bool :=
  negb (single_value training b h w)
  && (Qle_bool drop_rate 1
      || ((n1 =? 0) && (n2 =? 0) && (n3 =? 0) && (n4 =? 0))).

Definition center_crop : t -> Z -> Z -> t := center_crop t size index_hw.

Definition TransitionUp_forward (training : bool)
           (foreign : string -> list Z -> list bool -> t -> option t)
  : TransitionUp nn.module -> t -> t -> option (list Z * t) :=
  TransitionUp_forward t (leaf training foreign) cat dropout size index_hw
                       training.

Definition forward (training : bool)
           (foreign : string -> list Z -> list bool -> t -> option t)
  : DenseUNet nn.module -> t -> option (output t) :=
  forward (call training foreign) cat.

End Shape.

(** ** Tensors with contents

    A 4-d tensor as its size and its entries, batch by batch, channel by
    channel, row by row.  Only what [center_crop] touches is given: the
    size and the indexing of the two spatial axes. *)

Module Tensor.

Record t (A : Type) : Type := {
  size : Z * Z * Z * Z;
  data : list (list (list (list A)))
}.
Arguments size {A} _.
Arguments data {A} _.

Definition has_len {X : Type} (n : Z) (l : list X) : Prop :=
  Z.of_nat (List.length l) = n.

(** The entries agree with the size. *)
Definition wf {A : Type} (x : t A) : Prop :=
  let '(b, c, h, w) := size x in
  has_len b (data x) /\
  Forall (fun img =>
    has_len c img /\
    Forall (fun plane =>
      has_len h plane /\ Forall (has_len w) plane) img) (data x).

Definition nth_z {X : Type} (l : list X) (i : Z) : option X :=
  if i <? 0 then None else nth_error l (Z.to_nat i).

(** The entry at batch [n], channel [c], row [i], column [j]. *)
Definition entry {A : Type} (x : t A) (n c i j : Z) : option A :=
  img <- nth_z (data x) n ;;
  plane <- nth_z img c ;;
  row <- nth_z plane i ;;
  nth_z row j.

(** [x[:, :, a:b, c:d]] *)
Definition index_hw {A : Type} (x : t A) (a b c d : Z) : t A :=
  let '(n, ch, h, w) := size x in
  {| size := (n, ch, Py.slice_len h a b, Py.slice_len w c d);
     data := map (map (fun plane => map (Py.slice c d) (Py.slice a b plane)))
                 (data x) |}.

Definition center_crop {A : Type} : t A -> Z -> Z -> t A :=
  center_crop (t A) size index_hw.

(** [torch.cat((a, b), 1)]: the channels of [b] after those of [a],
    batch by batch. *)
Definition cat {A : Type} (a b : t A) : option (t A) :=
  let '(ba, ca, ha, wa) := size a in
  let '(bb, cb, hb, wb) := size b in
  if (ba =? bb) && (ha =? hb) && (wa =? wb)
  then Some {| size := (ba, ca + cb, ha, wa);
               data := map (fun p => fst p ++ snd p)
                           (combine (data a) (data b)) |}
  else None.

(** An element-wise function, as [nn.Tanh] applies one. *)
Definition map_entries {A B : Type} (f : A -> B) (x : t A) : t B :=
  {| size := size x; data := map (map (map (map f))) (data x) |}.

Definition entries {A : Type} (x : t A) : list A :=
  List.concat (List.concat (List.concat (data x))).

End Tensor.

(** ** Functions as modules

    Each attribute is the function that the module computes with its
    current weights. *)

Module Fn.

Definition call {T : Type} (f : T -> option T) (x : T) : option T := f x.

Definition forward {T : Type} (cat : T -> T -> option T)
  : DenseUNet (T -> option T) -> T -> option (output T) :=
  forward call cat.

End Fn.

(** ** Data flow

    Running [forward] on terms: a call of the module at [path] and a
    concatenation build a node, so the result spells out which module
    was fed what. *)

Module Dataflow.

Inductive term : Type :=
| Var (name : string)
| Mod (path : string) (arg : term)
| Cat (e_out d_out : term).

Definition call (path : string) (x : term) : option term :=
  Some (Mod path x).

Definition cat (a b : term) : option term := Some (Cat a b).

Definition qualify {X : Type} (prefix : string)
           (children : list (string * X)) : list (string * string) :=
  map (fun c => (fst c, (prefix ++ "." ++ fst c)%string)) children.

(** The object with every attribute replaced by its dotted name. *)
Definition paths {X : Type} (self : DenseUNet X) : DenseUNet string :=
  {| use_skips := use_skips self;
     bilinear_trick := bilinear_trick self;
     use_semantics := use_semantics self;
     relu_type := "relu_type";
     features := qualify "features" (features self);
     decoder := qualify "decoder" (decoder self);
     decoder_sem := option_map (qualify "decoder_sem") (decoder_sem self);
     last_conv := "last_conv";
     last_conv_sem := option_map (fun _ => "last_conv_sem")
                                 (last_conv_sem self);
     upsample := option_map (fun _ => "upsample") (upsample self);
     Tanh := "Tanh" |}.

(** The encoder half on the input [x], and the decoder half on the
    locals it receives, each under its own name. *)
Definition encoder {X : Type} (self : DenseUNet X) : option (encoded term) :=
  forward_encoder call (paths self) (Var "x").

Definition locals : encoded term :=
  {| out_conv1 := Var "out_conv1";
     tb_denseblock1 := Var "tb_denseblock1";
     tb_denseblock2 := Var "tb_denseblock2";
     tb_denseblock3 := Var "tb_denseblock3";
     out := Var "out" |}.

Definition decoder {X : Type} (self : DenseUNet X) : option (output term) :=
  forward_decoder call cat (paths self) locals.

(** The arguments with which the module at [path] is called in [t]. *)
Fixpoint inputs_of (path : string) (t : term) : list term :=
  match t with
  | Var _ => []
  | Mod p arg =>
      (if String.eqb p path then [arg] else []) ++ inputs_of path arg
  | Cat a b => inputs_of path a ++ inputs_of path b
  end.

(** The encoder tensors that enter a concatenation in [t]. *)
Fixpoint skips (t : term) : list term :=
  match t with
  | Var _ => []
  | Mod _ arg => skips arg
  | Cat a b => a :: skips a ++ skips b
  end.

End Dataflow.

(** ** Sample values *)

(** A 1x1x4x5 tensor of integers. *)
Definition sample_layer : Tensor.t Z :=
  {| Tensor.size := (1, 1, 4, 5);
     Tensor.data := [[[ [ 1;  2;  3;  4;  5];
                        [ 6;  7;  8;  9; 10];
                        [11; 12; 13; 14; 15];
                        [16; 17; 18; 19; 20] ]]] |}.

(** [denseUnet121] with the decoder block type ["basic"], three input
    channels and the defaults of [DenseUNet.__init__] for the rest. *)
Definition unet121 (output_nc : Z)
           (use_skips bilinear_trick use_semantics : bool)
  : DenseUNet nn.module :=
  denseUnet121 "basic" 3 output_nc 4 0 1000 false use_skips bilinear_trick
               (427, 571) use_semantics.


(** An entry of a float tensor, as far as [tanh] tells entries apart: a
    finite value, an infinity, or NaN. *)
Inductive float : Type :=
| Finite (r : R)
| Infinity (negative : bool)
| NaN.

(** [tanh] on a float.  [round] rounds the exact result to a float. *)
Definition tanh_float (round : R -> R) (v : float) : float :=
  match v with
  | Finite y => Finite (round (tanh y))
  | Infinity false => Finite 1
  | Infinity true => Finite (-1)
  | NaN => NaN
  end.

(** [nn.Tanh] on a float tensor. *)
Definition Tanh_forward (round : R -> R) (x : Tensor.t float)
  : Tensor.t float :=
  Tensor.map_entries (tanh_float round) x.

(** The value lies in the interval [-1, 1]. *)
Definition in_unit_interval (v : float) : Prop :=
  match v with
  | Finite y => (-1 <= y <= 1)%R
  | Infinity _ => False
  | NaN => False
  end.

(** Two 1x1x1x2 float tensors, the second with a NaN entry. *)
Definition sample_floats : Tensor.t float :=
  {| Tensor.size := (1, 1, 1, 2);
     Tensor.data := [[[ [Finite 0; Finite 1] ]]] |}.

Definition sample_nan : Tensor.t float :=
  {| Tensor.size := (1, 1, 1, 2);
     Tensor.data := [[[ [NaN; Finite 1] ]]] |}.

(** Modules on float tensors with [nn.Tanh] as it is (without rounding
    error) and every other module computing the identity. *)
Definition call_identity (m : nn.module) (x : Tensor.t float)
  : option (Tensor.t float) :=
  match m with
  | nn.Tanh => Some (Tanh_forward (fun y => y) x)
  | _ => Some x
  end.

(** Every entry of the regression output lies in [-1, 1]. *)
Definition regression_bounded (r : output (Tensor.t float)) : Prop :=
  Forall in_unit_interval (Tensor.entries (regression r)).



(** The statements of [forward] after the encoder on which
    [out_sem_last] depends, in their order. *)
Definition semantic_slice {M T : Type} (call : M -> T -> option T)
           (cat : T -> T -> option T) (self : DenseUNet M) (e : encoded T)
  : option T :=
  out <- call_attr call (decoder self) "d_block5" (out e) ;;
  inp <- get_decoder_input cat self (tb_denseblock3 e) out ;;
  out <- call_attr call (decoder self) "d_block4" inp ;;
  inp <- get_decoder_input cat self (tb_denseblock2 e) out ;;
  out_d3 <- call_attr call (decoder self) "d_block3" inp ;;
  decoder_sem <- decoder_sem self ;;
  inp <- get_decoder_input cat self (tb_denseblock1 e) out_d3 ;;
  out_sem_d2 <- call_attr call decoder_sem "d_block2" inp ;;
  inp <- get_decoder_input cat self (out_conv1 e) out_sem_d2 ;;
  out_sem_d1 <- call_attr call decoder_sem "d_block1" inp ;;
  last_conv_sem <- last_conv_sem self ;;
  call last_conv_sem out_sem_d1.

(** ** A model small enough to run by hand

    A tensor of size 1xCx1x1 is the list of its [C] entries;
    concatenation along the channel axis appends.  [conv1x1 w] is a 1x1
    convolution to one channel without bias whose weights all equal
    [w].  The encoder modules, [relu_type] and [Tanh] are taken as the
    identity: they play no part in what the model is used to show. *)

Module Toy.

Definition T : Type := list Z.

Definition conv1x1 (w : Z) : T -> option T :=
  fun x => Some [w * fold_right Z.add 0 x].

Definition identity : T -> option T := fun x => Some x.

Definition cat (a b : T) : option T := Some (a ++ b).

Definition encoder_modules : list (string * (T -> option T)) :=
  map (fun name => (name, identity))
      [ "conv0"; "norm0"; "relu0"; "downconv0"; "norm1"; "relu1";
        "denseblock1"; "transition1"; "transition1pool";
        "denseblock2"; "transition2"; "transition2pool";
        "denseblock3"; "transition3"; "transition3pool";
        "denseblock4"; "norm5" ].

(** Five decoder blocks with the given weights. *)
Definition blocks (w5 w4 w3 w2 w1 : Z) : list (string * (T -> option T)) :=
  [ ("d_block5", conv1x1 w5); ("d_block4", conv1x1 w4);
    ("d_block3", conv1x1 w3); ("d_block2", conv1x1 w2);
    ("d_block1", conv1x1 w1) ].

(** A model with both heads whose regression decoder is
    [regression_decoder] and whose other parameters are fixed. *)
Definition net (regression_decoder : list (string * (T -> option T)))
  : DenseUNet (T -> option T) :=
  {| use_skips := true;
     bilinear_trick := false;
     use_semantics := true;
     relu_type := identity;
     features := encoder_modules;
     decoder := regression_decoder;
     decoder_sem := Some (blocks 1 1 1 1 1);
     last_conv := conv1x1 1;
     last_conv_sem := Some (conv1x1 1);
     upsample := None;
     Tanh := identity |}.

(** The semantic output does not depend on the regression decoder:
    whatever two decoders are put into [net], the semantic outputs on
    the same input agree. *)
Definition semantic_output_ignores_decoder : Prop :=
  forall (d1 d2 : list (string * (T -> option T))) (x r1 s1 r2 s2 : T),
    Fn.forward cat (net d1) x = Some (Pair r1 s1) ->
    Fn.forward cat (net d2) x = Some (Pair r2 s2) ->
    s1 = s2.

End Toy.

(** Exactly three encoder tensors enter the decoder's concatenations. *)
Definition retains_three_skips (t : Dataflow.term) : Prop :=
  List.length (Dataflow.skips t) = 3%nat.

(** The same object with [self.bilinear_trick] set to [b]. *)
Definition set_bilinear_trick {M : Type} (b : bool) (self : DenseUNet M)
  : DenseUNet M :=
  {| use_skips := use_skips self;
     bilinear_trick := b;
     use_semantics := use_semantics self;
     relu_type := relu_type self;
     features := features self;
     decoder := decoder self;
     decoder_sem := decoder_sem self;
     last_conv := last_conv self;
     last_conv_sem := last_conv_sem self;
     upsample := upsample self;
     Tanh := Tanh self |}.

(** ** Further definitions *)

(** Of [n] rows (or columns), how many [center_crop] keeps when asked
    for [m >= 0], and the index of the first one kept.  A request that
    exceeds [n] makes the first slice bound negative, and a negative
    bound counts from the end. *)
Definition crop_kept (n m : Z) : Z :=
  if m <=? n then m else Z.min n ((m - n + 1) / 2).

Definition crop_start (n m : Z) : Z :=
  if m <=? n then (n - m) / 2 else n - Z.min n ((m - n + 1) / 2).

(** The entries that [__init__] is to add to [self.features] for the
    dense blocks from index [i] on, when [num_features] channels come
    in: every block, and after every block but the last a transition to
    half the channels and a pooling.  With them, the channels going
    out of the last block. *)
Fixpoint encoder_plan (bn_size growth_rate : Z) (drop_rate : Q) (i : Z)
         (num_features : Z) (block_config : list Z)
  : list (string * nn.module) * Z :=
  match block_config with
  | [] => ([], num_features)
  | num_layers :: rest =>
      let block :=
        (("denseblock" ++ Py.str (i + 1))%string,
         _DenseBlock num_layers num_features bn_size growth_rate drop_rate) in
      let num_features := num_features + num_layers * growth_rate in
      match rest with
      | [] => ([block], num_features)
      | _ :: _ =>
          let '(more, out) :=
            encoder_plan bn_size growth_rate drop_rate (i + 1)
                         (num_features / 2) rest in
          (block
             :: (("transition" ++ Py.str (i + 1))%string,
                 _Transition num_features (num_features / 2))
             :: (("transition" ++ Py.str (i + 1) ++ "pool")%string,
                 nn.AvgPool2d 2 2)
             :: more,
           out)
      end
  end.

(** The stem that [__init__] puts into [self.features] first. *)
Definition stem (input_nc num_init_features : Z) : list (string * nn.module) :=
  [ ("conv0", nn.Conv2d input_nc num_init_features 7 2 3);
    ("norm0", nn.BatchNorm2d num_init_features);
    ("relu0", nn.LeakyReLU (2 # 10));
    ("downconv0", nn.Conv2d num_init_features num_init_features 4 2 1);
    ("norm1", nn.BatchNorm2d num_init_features);
    ("relu1", nn.LeakyReLU (2 # 10)) ].

(** Every character of [s] satisfies [p]. *)
Fixpoint string_forall (p : ascii -> bool) (s : string) : bool :=
  match s with
  | EmptyString => true
  | String c rest => p c && string_forall p rest
  end.

(** A decimal digit or the minus sign. *)
Definition is_digit_or_minus (c : ascii) : bool :=
  let n := nat_of_ascii c in
  ((48 <=? n)%nat && (n <=? 57)%nat) || (n =? 45)%nat.

(** The names that the encoder loop has used up to block index [k]. *)
Definition encoder_name_below (k : Z) (name : string) : Prop :=
  In name ["conv0"; "norm0"; "relu0"; "downconv0"; "norm1"; "relu1"]
  \/ exists j : Z,
       0 <= j < k
       /\ (name = ("denseblock" ++ Py.str (j + 1))%string
           \/ name = ("transition" ++ Py.str (j + 1))%string
           \/ name = ("transition" ++ Py.str (j + 1) ++ "pool")%string).

(** The same object with [self.decoder_sem] replaced. *)
Definition set_decoder_sem {M : Type} (ds : option (list (string * M)))
           (self : DenseUNet M) : DenseUNet M :=
  {| use_skips := use_skips self;
     bilinear_trick := bilinear_trick self;
     use_semantics := use_semantics self;
     relu_type := relu_type self;
     features := features self;
     decoder := decoder self;
     decoder_sem := ds;
     last_conv := last_conv self;
     last_conv_sem := last_conv_sem self;
     upsample := upsample self;
     Tanh := Tanh self |}.

(** ** Loading pretrained weights: the [pretrained] branch of [denseUnet121]

    The state dictionaries come from torch and torchvision and are
    inputs here.  What [denseUnet121] itself does with them is plain
    Python: a filter by shape, a loop that renames keys matching a
    regular expression, and a [dict.update]. *)

(** *** Python's [re], as far as the key pattern uses it

    Keys are Rocq strings, i.e. Python strings over the code points
    below 256; on these [\d] is [0-9]. *)

Module re.

(** What matches exactly one character. *)
Inductive item : Type :=
| Dot                   (* [.]: any character except a newline *)
| Digit                 (* [\d] *)
| OneOf (cs : string).  (* [[...]] *)

Inductive regex : Type :=
| Bol                           (* [^] *)
| Eol                           (* [$] *)
| Lit (s : string)              (* literal text *)
| One (i : item)
| Star (i : item)               (* greedy [i*] *)
| Plus (i : item)               (* greedy [i+] *)
| Seq (p q : regex)
| Alt (p q : regex)             (* [p|q] *)
| Group (n : nat) (p : regex).  (* the [n]-th capturing group *)

Definition newline : ascii := "010"%char.

Definition is_digit (c : ascii) : bool :=
  let n := nat_of_ascii c in ((48 <=? n)%nat && (n <=? 57)%nat).

Fixpoint mem_char (c : ascii) (cs : string) : bool :=
  match cs with
  | EmptyString => false
  | String c' rest => Ascii.eqb c c' || mem_char c rest
  end.

Definition item_ok (i : item) (c : ascii) : bool :=
  match i with
  | Dot => negb (Ascii.eqb c newline)
  | Digit => is_digit c
  | OneOf cs => mem_char c cs
  end.

(** [s] without its prefix [t], if it starts with [t]. *)
Fixpoint strip (t s : string) : option string :=
  match t, s with
  | EmptyString, _ => Some s
  | String a t', String b s' => if Ascii.eqb a b then strip t' s' else None
  | String _ _, EmptyString => None
  end.

(** The text between position [s] and the later position [s'], both
    given by what is left of the subject. *)
Definition consumed (s s' : string) : string :=
  substring 0 (String.length s - String.length s') s.

(** A match object: the captured groups, the latest first. *)
Definition Match : Type := list (nat * string).

(** [res.group(n)]; [None] is Python's [None] for a group that did
    not take part. *)
Fixpoint group (res : Match) (n : nat) : option string :=
  match res with
  | [] => None
  | (m, s) :: rest => if Nat.eqb m n then Some s else group rest n
  end.

(** The backtracking matcher, in continuation-passing style: [k] is
    what remains to be matched after the pattern, and a failure of [k]
    makes the pattern try its next alternative.  A greedy repetition
    takes as many characters as it can and gives them back one at a
    time. *)
Fixpoint star (f : ascii -> bool) (s : string)
         (k : string -> option Match) : option Match :=
  match s with
  | String c s' =>
      if f c then
        match star f s' k with
        | Some r => Some r
        | None => k s
        end
      else k s
  | EmptyString => k s
  end.

Fixpoint run (whole : string) (p : regex) (s : string) (g : Match)
         (k : string -> Match -> option Match) : option Match :=
  match p with
  | Bol =>
      if (String.length s =? String.length whole)%nat then k s g else None
  | Eol =>
      if String.eqb s EmptyString || String.eqb s (String newline EmptyString) then k s g
      else None
  | Lit t =>
      match strip t s with
      | Some s' => k s' g
      | None => None
      end
  | One i =>
      match s with
      | String c s' => if item_ok i c then k s' g else None
      | EmptyString => None
      end
  | Star i => star (item_ok i) s (fun s' => k s' g)
  | Plus i =>
      match s with
      | String c s' =>
          if item_ok i c then star (item_ok i) s' (fun s' => k s' g)
          else None
      | EmptyString => None
      end
  | Seq p q => run whole p s g (fun s' g' => run whole q s' g' k)
  | Alt p q =>
      match run whole p s g k with
      | Some r => Some r
      | None => run whole q s g k
      end
  | Group n p =>
      run whole p s g (fun s' g' => k s' ((n, consumed s s') :: g'))
  end.

(** [pattern.match(s)]: a match at the start of [s], not necessarily
    up to its end. *)
Definition match_ (p : regex) (s : string) : option Match :=
  run s p s [] (fun _ g => Some g).

(** What it means for a pattern to match between two positions,
    independently of the order in which the matcher looks. *)
Inductive matches (whole : string)
  : regex -> string -> Match -> string -> Match -> Prop :=
| m_bol s g :
    String.length s = String.length whole -> matches whole Bol s g s g
| m_eol s g :
    s = EmptyString \/ s = String newline EmptyString -> matches whole Eol s g s g
| m_lit t s g : matches whole (Lit t) (t ++ s) g s g
| m_one i c s g :
    item_ok i c = true -> matches whole (One i) (String c s) g s g
| m_star i a s g :
    string_forall (item_ok i) a = true ->
    matches whole (Star i) (a ++ s) g s g
| m_plus i c a s g :
    item_ok i c = true -> string_forall (item_ok i) a = true ->
    matches whole (Plus i) (String c (a ++ s)) g s g
| m_seq p q s g s1 g1 s2 g2 :
    matches whole p s g s1 g1 -> matches whole q s1 g1 s2 g2 ->
    matches whole (Seq p q) s g s2 g2
| m_alt_l p q s g s' g' :
    matches whole p s g s' g' -> matches whole (Alt p q) s g s' g'
| m_alt_r p q s g s' g' :
    matches whole q s g s' g' -> matches whole (Alt p q) s g s' g'
| m_group n p s g s' g' :
    matches whole p s g s' g' ->
    matches whole (Group n p) s g s' ((n, consumed s s') :: g').

End re.

(** The pattern compiled in [denseUnet121]:
    [^(.*denselayer\d+\.(?:norm|relu|conv))\.((?:[12])\.(?:weight|bias|running_mean|running_var))$] *)
Definition pattern : re.regex :=
  re.Seq re.Bol
 (re.Seq (re.Group 1
            (re.Seq (re.Star re.Dot)
            (re.Seq (re.Lit "denselayer")
            (re.Seq (re.Plus re.Digit)
            (re.Seq (re.Lit ".")
                    (re.Alt (re.Lit "norm")
                    (re.Alt (re.Lit "relu") (re.Lit "conv"))))))))
 (re.Seq (re.Lit ".")
 (re.Seq (re.Group 2
            (re.Seq (re.One (re.OneOf "12"))
            (re.Seq (re.Lit ".")
                    (re.Alt (re.Lit "weight")
                    (re.Alt (re.Lit "bias")
                    (re.Alt (re.Lit "running_mean")
                            (re.Lit "running_var")))))))
         re.Eol))).

(** *** Python's [dict], in insertion order *)

Module dict.

Definition t (V : Type) : Type := list (string * V).

(** [d[k]]; [None] is the [KeyError]. *)
Fixpoint getitem {V : Type} (d : t V) (k : string) : option V :=
  match d with
  | [] => None
  | (n, v) :: rest => if String.eqb n k then Some v else getitem rest k
  end.

(** [k in d] *)
Definition contains {V : Type} (d : t V) (k : string) : bool :=
  match getitem d k with
  | Some _ => true
  | None => false
  end.

(** [d[k] = v]: an existing key keeps its place. *)
Fixpoint setitem {V : Type} (d : t V) (k : string) (v : V) : t V :=
  match d with
  | [] => [(k, v)]
  | (n, v') :: rest =>
      if String.eqb n k then (n, v) :: rest
      else (n, v') :: setitem rest k v
  end.

(** [del d[k]]; [None] is the [KeyError]. *)
Fixpoint delitem {V : Type} (d : t V) (k : string) : option (t V) :=
  match d with
  | [] => None
  | (n, v) :: rest =>
      if String.eqb n k then Some rest
      else rest' <- delitem rest k ;; Some ((n, v) :: rest')
  end.

(** [list(d.keys())] *)
Definition keys {V : Type} (d : t V) : list string := map fst d.

(** [d.update(other)] *)
Definition update {V : Type} (d other : t V) : t V :=
  fold_left (fun d kv => setitem d (fst kv) (snd kv)) other d.

(** The representation invariant of a [dict]: no key twice. *)
Definition wf {V : Type} (d : t V) : Prop := NoDup (keys d).

End dict.

(** *** The branch itself *)

(** The keys that the pattern is written for: [g1] ends with the name
    of a layer's sub-module, [g2] is an index and a tensor name, and
    the key has a dot between them and possibly a newline at its end. *)
Definition old_format (key g1 g2 : string) : Prop :=
  exists p ds kind n name nl,
    string_forall (re.item_ok re.Dot) p = true
    /\ ds <> EmptyString
    /\ string_forall re.is_digit ds = true
    /\ In kind ["norm"; "relu"; "conv"]
    /\ In n ["1"; "2"]
    /\ In name ["weight"; "bias"; "running_mean"; "running_var"]
    /\ In nl [EmptyString; String re.newline EmptyString]
    /\ g1 = (p ++ "denselayer" ++ ds ++ "." ++ kind)%string
    /\ g2 = (n ++ "." ++ name)%string
    /\ key = (g1 ++ "." ++ g2 ++ nl)%string.

(** [t] is a suffix of [s]. *)
Fixpoint suffixb (t s : string) : bool :=
  String.eqb t s
  || match s with
     | String _ rest => suffixb t rest
     | EmptyString => false
     end.

(** The possible second groups, and the possible ends of a key from
    the dot on: second group and final newline. *)
Definition second_groups : list string :=
  flat_map (fun n =>
              map (fun name => (n ++ "." ++ name)%string)
                  ["weight"; "bias"; "running_mean"; "running_var"])
           ["1"; "2"].

Definition key_ends : list (string * string) :=
  flat_map (fun g2 =>
              map (fun nl => (g2, nl))
                  [EmptyString; String re.newline EmptyString])
           second_groups.

Definition key_end (x : string * string) : string :=
  ("." ++ fst x ++ snd x)%string.

(** The possible ends of a new key: sub-module name and second group. *)
Definition new_key_ends : list string :=
  flat_map (fun kind => map (fun g2 => (kind ++ g2)%string) second_groups)
           ["norm"; "relu"; "conv"].

Definition pair_eqb (x y : string * string) : bool :=
  String.eqb (fst x) (fst y) && String.eqb (snd x) (snd y).

(** The new key of a key that the pattern matches:
    [res.group(1) + res.group(2)]. *)
Definition new_key_of (key : string) : option string :=
  res <- re.match_ pattern key ;;
  g1 <- re.group res 1 ;;
  g2 <- re.group res 2 ;;
  Some (g1 ++ g2)%string.

(** *** The branch itself *)

Section Pretrained.

Context {V : Type}.

(** [v.shape] of a tensor in a state dictionary. *)
Variable shape : V -> list Z.

(** [s in shapes] for a list of shapes. *)
Definition shape_in (s : list Z) (shapes : list (list Z)) : bool :=
  existsb (fun s' => if list_eq_dec Z.eq_dec s s' then true else false)
          shapes.

(** One turn of the loop over [list(pretrained_dict.keys())]. *)
Definition rename_step (pretrained_dict : dict.t V) (key : string)
  : option (dict.t V) :=
  match re.match_ pattern key with
  | Some res =>
      g1 <- re.group res 1 ;;
      g2 <- re.group res 2 ;;
      let new_key := (g1 ++ g2)%string in
      v <- dict.getitem pretrained_dict key ;;
      let pretrained_dict := dict.setitem pretrained_dict new_key v in
      dict.delitem pretrained_dict key
  | None => Some pretrained_dict
  end.

(** The loop: the keys are listed once, before the first turn. *)
Definition rename_keys (pretrained_dict : dict.t V) : option (dict.t V) :=
  fold_left (fun d key => d <- d ;; rename_step d key)
            (dict.keys pretrained_dict) (Some pretrained_dict).

(** From the two state dictionaries to the dictionary that is handed to
    [model.load_state_dict]. *)
Definition pretrained_state_dict (model_dict pretrained_dict : dict.t V)
  : option (dict.t V) :=
  let model_shapes := map (fun kv => shape (snd kv)) model_dict in
  let exclude_model_dict :=
    map fst (filter (fun kv => negb (shape_in (shape (snd kv)) model_shapes))
                    pretrained_dict) in
  let pretrained_dict :=
    filter (fun kv =>
              dict.contains model_dict (fst kv)
              && negb (existsb (String.eqb (fst kv)) exclude_model_dict))
           pretrained_dict in
  pretrained_dict <- rename_keys pretrained_dict ;;
  Some (dict.update model_dict pretrained_dict).

End Pretrained.

(** The last of [keys] whose new key is [q]. *)
Fixpoint last_source (keys : list string) (q : string) : option string :=
  match keys with
  | [] => None
  | k :: rest =>
      match last_source rest q with
      | Some k' => Some k'
      | None =>
          match new_key_of k with
          | Some k' => if String.eqb k' q then Some k else None
          | None => None
          end
      end
  end.

(** What a key holds after the renaming loop has gone over [done]. *)
Definition renamed {V : Type} (d : dict.t V) (done : list string)
           (q : string) : option V :=
  match last_source done q with
  | Some k => dict.getitem d k
  | None =>
      match new_key_of q with
      | Some _ => if existsb (String.eqb q) done then None
                  else dict.getitem d q
      | None => dict.getitem d q
      end
  end.

(** The dictionary without the key [k]. *)
Definition without {V : Type} (d : dict.t V) (k : string) : dict.t V :=
  filter (fun kv => negb (String.eqb (fst kv) k)) d.

(** * Properties *)

(** ** Python helpers *)

Lemma to_uint_not_Nil (p : positive) : Pos.to_uint p <> Nil.
Proof.
  intro H.
  assert (E : Pos.of_uint (Pos.to_uint p) = N.pos p)
    by apply DecimalPos.Unsigned.of_to.
  rewrite H in E. discriminate E.
Qed.

Lemma str_inj (a b : Z) : Py.str a = Py.str b -> a = b.
Proof.
  unfold Py.str. intro H.
  assert (I : forall z,
             NilZero.int_of_string (NilZero.string_of_int (Z.to_int z))
             = Some (Z.to_int z)).
  { intro z. apply NilZero.isi; destruct z; simpl; try discriminate;
      intro E; injection E; apply to_uint_not_Nil. }
  apply (f_equal NilZero.int_of_string) in H.
  rewrite !I in H. injection H as H.
  apply (f_equal Z.of_int) in H. now rewrite !DecimalZ.of_to in H.
Qed.

Lemma range_succ (n : nat) :
  Py.range (Z.of_nat (S n)) = Py.range (Z.of_nat n) ++ [Z.of_nat n].
Proof.
  unfold Py.range. rewrite !Nat2Z.id, seq_S, map_app. reflexivity.
Qed.

Lemma range_length (n : Z) : List.length (Py.range n) = Z.to_nat n.
Proof. unfold Py.range. now rewrite length_map, length_seq. Qed.

Lemma In_range (n i : Z) : In i (Py.range n) <-> 0 <= i < n.
Proof.
  unfold Py.range. rewrite in_map_iff. split.
  - intros (k & <- & Hk). apply in_seq in Hk. lia.
  - intros Hi. exists (Z.to_nat i). split; [lia|]. apply in_seq. lia.
Qed.

Lemma nth_error_range (n i : Z) :
  0 <= i < n -> nth_error (Py.range n) (Z.to_nat i) = Some i.
Proof.
  intros Hi. unfold Py.range.
  rewrite nth_error_map, nth_error_seq.
  destruct (Nat.ltb_spec (Z.to_nat i) (Z.to_nat n)); simpl; [f_equal; lia|lia].
Qed.

(** ** Containers of modules *)

Lemma getattr_None_not_In {M : Type} (s : list (string * M)) (name : string) :
  getattr s name = None <-> ~ In name (map fst s).
Proof.
  induction s as [|[n m] s IH]; simpl.
  - tauto.
  - destruct (String.eqb_spec n name) as [->|Hne].
    + split; [discriminate | intros H; exfalso; auto].
    + rewrite IH. tauto.
Qed.

Lemma add_module_fresh {M : Type} (s : list (string * M)) (name : string)
      (m : M) :
  ~ In name (map fst s) -> add_module s name m = s ++ [(name, m)].
Proof.
  induction s as [|[n m'] s IH]; simpl; intros Hfresh.
  - reflexivity.
  - destruct (String.eqb_spec n name) as [->|Hne].
    + exfalso; auto.
    + rewrite IH; auto.
Qed.

Lemma getattr_app_fresh {M : Type} (s : list (string * M)) (name : string)
      (m : M) :
  ~ In name (map fst s) -> getattr (s ++ [(name, m)]) name = Some m.
Proof.
  induction s as [|[n m'] s IH]; simpl; intros Hfresh.
  - now rewrite String.eqb_refl.
  - destruct (String.eqb_spec n name) as [->|Hne].
    + exfalso; auto.
    + apply IH; auto.
Qed.

Lemma dense_child_name_inj C0 bn g dr C0' bn' g' dr' (i j : Z) :
  fst (dense_child C0 bn g dr i) = fst (dense_child C0' bn' g' dr' j) -> i = j.
Proof.
  simpl. intro H. injection H as H. apply str_inj in H. lia.
Qed.

Lemma DenseBlock_children_spec (num_layers C0 bn g : Z) (dr : Q) :
  _DenseBlock_children num_layers C0 bn g dr
  = map (dense_child C0 bn g dr) (Py.range num_layers).
Proof.
  unfold _DenseBlock_children.
  destruct (Z.le_gt_cases 0 num_layers) as [Hn|Hn].
  2:{ unfold Py.range. now replace (Z.to_nat num_layers) with 0%nat by lia. }
  rewrite <- (Z2Nat.id num_layers Hn).
  induction (Z.to_nat num_layers) as [|n IH].
  - reflexivity.
  - rewrite range_succ, fold_left_app, IH, map_app. simpl.
    unfold _DenseBlock_step at 1.
    apply (add_module_fresh _ _
             (_DenseLayer (C0 + Z.of_nat n * g) g bn dr)).
    rewrite map_map, in_map_iff. intros (j & Hname & Hj).
    apply (dense_child_name_inj C0 bn g dr C0 bn g dr) in Hname.
    apply In_range in Hj. lia.
Qed.

(** ** Calling containers *)

Section CallingFacts.

Variable T : Type.
Variable leaf : nn.module -> T -> option T.
Variable cat : T -> T -> option T.
Variable dropout : Q -> bool -> T -> option T.
Variable training : bool.

Let call := call T leaf cat dropout training.

Lemma call_Sequential (children : list (string * nn.module)) (x : T) :
  call (nn.Sequential children) x
  = Sequential_forward T call children x.
Proof.
  revert x. induction children as [|[n m] cs IH]; intro x; simpl.
  - reflexivity.
  - unfold bind. fold call. destruct (call m x) as [y|]; [apply IH|reflexivity].
Qed.

Lemma call_DenseLayer (children : list (string * nn.module)) (p : Q)
      (x : T) :
  call (nn.DenseLayer children p) x
  = (new_features <- Sequential_forward T call children x ;;
     new_features <- (if negb (Qle_bool p 0)
                      then dropout p training new_features
                      else Some new_features) ;;
     cat x new_features).
Proof.
  rewrite <- call_Sequential. reflexivity.
Qed.

Lemma Sequential_forward_app (a b : list (string * nn.module)) (x : T) :
  Sequential_forward T call (a ++ b) x
  = (y <- Sequential_forward T call a x ;; Sequential_forward T call b y).
Proof.
  revert x. induction a as [|[n m] a IH]; intro x; simpl.
  - reflexivity.
  - unfold bind at 1 3. destruct (call m x); [apply IH|reflexivity].
Qed.

End CallingFacts.

(** ** Shapes through the building blocks *)

Lemma window_same_1 (n : Z) : 1 <= n -> Shape.window_out n 1 1 0 = Some n.
Proof.
  intro H. unfold Shape.window_out.
  replace (1 <=? n + 2 * 0) with true by lia. simpl.
  f_equal. rewrite Z.div_1_r. lia.
Qed.

Lemma window_same_3 (n : Z) : 1 <= n -> Shape.window_out n 3 1 1 = Some n.
Proof.
  intro H. unfold Shape.window_out.
  replace (3 <=? n + 2 * 1) with true by lia. simpl.
  f_equal. rewrite Z.div_1_r. lia.
Qed.

Lemma window_pool (n : Z) : 2 <= n -> Shape.window_out n 2 2 0 = Some (n / 2).
Proof.
  intro H. unfold Shape.window_out.
  replace (2 <=? n + 2 * 0) with true by lia. simpl.
  f_equal. replace (n + 0 - 2) with (n + (-1) * 2) by lia.
  rewrite Z.div_add by lia. lia.
Qed.

Ltac shape_simpl :=
  repeat (rewrite ?Z.eqb_refl, ?window_same_1, ?window_same_3, ?window_pool
            by assumption;
          cbn [bind Shape.leaf Shape.conv2d negb andb fst snd]).

(** More than one row leaves more than one value per channel. *)
Lemma single_value_big (training : bool) (B H W : Z) :
  2 <= H -> 1 <= W -> Shape.single_value training B H W = false.
Proof.
  intros HH HW. unfold Shape.single_value.
  destruct (Z.eqb_spec (B * H * W) 1) as [E|_]; [|apply andb_false_r].
  exfalso. replace (B * H * W) with (H * (B * W)) in E by ring.
  apply Z.eq_mul_1_nonneg in E; lia.
Qed.

Lemma single_value_false (training : bool) (B H W : Z) :
  Shape.single_value training B H W = false
  <-> (training = true -> B * H * W <> 1).
Proof.
  unfold Shape.single_value.
  destruct training, (Z.eqb_spec (B * H * W) 1); simpl; split;
    auto; try discriminate; try congruence.
  intro K. now elim K.
Qed.

Lemma Qle_bool_0_1 (p : Q) : Qle_bool p 0 = true -> Qle_bool p 1 = true.
Proof.
  rewrite !Qle_bool_iff. intro H. apply (Qle_trans _ 0); [exact H|].
  discriminate.
Qed.

Lemma Qle_bool_pos (p : Q) : Qle_bool p 0 = false -> Qle_bool 0 p = true.
Proof.
  intro H. apply Qle_bool_iff.
  destruct (Qlt_le_dec 0 p) as [L|L]; [now apply Qlt_le_weak|].
  apply Qle_bool_iff in L. congruence.
Qed.

Section ShapeFacts.

Variable training : bool.
Variable foreign : string -> list Z -> list bool -> Shape.t -> option Shape.t.

Lemma batch_norm_shape (n B H W : Z) :
  Shape.batch_norm training n (B, n, H, W)
  = if Shape.single_value training B H W then None else Some (B, n, H, W).
Proof. unfold Shape.batch_norm. now rewrite Z.eqb_refl. Qed.

(** A dense layer on an input of the right shape: it runs unless a
    batch norm is given a single value or the dropout rate is above
    one. *)
Lemma DenseLayer_shape_exact (C g bn : Z) (dr : Q) (B H W : Z) :
  1 <= H -> 1 <= W ->
  Shape.call training foreign (_DenseLayer C g bn dr) (B, C, H, W)
  = if negb (Shape.single_value training B H W) && Qle_bool dr 1
    then Some (B, C + g, H, W) else None.
Proof.
  intros HH HW. unfold Shape.call, _DenseLayer.
  rewrite call_DenseLayer. simpl.
  change (training && (B * H * W =? 1))
    with (Shape.single_value training B H W).
  rewrite Z.eqb_refl.
  destruct (Shape.single_value training B H W) eqn:S; [reflexivity|].
  shape_simpl. unfold Shape.batch_norm. rewrite Z.eqb_refl.
  change (training && (B * H * W =? 1))
    with (Shape.single_value training B H W).
  rewrite S. shape_simpl.
  unfold Shape.dropout.
  destruct (Qle_bool dr 0) eqn:D0; simpl.
  - rewrite (Qle_bool_0_1 _ D0). now rewrite !Z.eqb_refl.
  - rewrite (Qle_bool_pos _ D0). simpl.
    destruct (Qle_bool dr 1); simpl; [now rewrite !Z.eqb_refl | reflexivity].
Qed.

Lemma DenseLayer_shape (C g bn : Z) (dr : Q) (B H W : Z) :
  1 <= H -> 1 <= W -> (training = true -> B * H * W <> 1) -> (dr <= 1)%Q ->
  Shape.call training foreign (_DenseLayer C g bn dr) (B, C, H, W)
  = Some (B, C + g, H, W).
Proof.
  intros HH HW HS HD. rewrite DenseLayer_shape_exact by assumption.
  apply single_value_false in HS. apply Qle_bool_iff in HD.
  now rewrite HS, HD.
Qed.

Lemma dense_children_shape_exact (C0 g bn : Z) (dr : Q) (B H W : Z)
      (k a : nat) :
  1 <= H -> 1 <= W ->
  Sequential_forward Shape.t (Shape.call training foreign)
    (map (dense_child C0 bn g dr) (map Z.of_nat (seq a k)))
    (B, C0 + Z.of_nat a * g, H, W)
  = if (k =? 0)%nat
       || (negb (Shape.single_value training B H W) && Qle_bool dr 1)
    then Some (B, C0 + Z.of_nat (a + k) * g, H, W) else None.
Proof.
  intros HH HW. revert a. induction k as [|k IH]; intro a.
  - simpl. now rewrite Nat.add_0_r.
  - simpl map. unfold dense_child at 1. cbn [Sequential_forward].
    rewrite DenseLayer_shape_exact by assumption.
    cbn [Nat.eqb orb].
    destruct (negb (Shape.single_value training B H W) && Qle_bool dr 1);
      [|reflexivity].
    cbn [bind].
    replace (C0 + Z.of_nat a * g + g) with (C0 + Z.of_nat (S a) * g) by lia.
    rewrite IH. rewrite orb_true_r.
    now replace (S a + k)%nat with (a + S k)%nat by lia.
Qed.

Lemma dense_children_shape (C0 g bn : Z) (dr : Q) (B H W : Z) (k a : nat) :
  1 <= H -> 1 <= W -> (training = true -> B * H * W <> 1) -> (dr <= 1)%Q ->
  Sequential_forward Shape.t (Shape.call training foreign)
    (map (dense_child C0 bn g dr) (map Z.of_nat (seq a k)))
    (B, C0 + Z.of_nat a * g, H, W)
  = Some (B, C0 + Z.of_nat (a + k) * g, H, W).
Proof.
  intros HH HW HS HD. rewrite dense_children_shape_exact by assumption.
  apply single_value_false in HS. apply Qle_bool_iff in HD.
  rewrite HS, HD. now rewrite orb_true_r.
Qed.

Lemma DenseBlock_shape_exact (N C0 g bn : Z) (dr : Q) (B H W : Z) :
  0 <= N -> 1 <= H -> 1 <= W ->
  Shape.call training foreign (_DenseBlock N C0 bn g dr) (B, C0, H, W)
  = if (N =? 0)
       || (negb (Shape.single_value training B H W) && Qle_bool dr 1)
    then Some (B, C0 + N * g, H, W) else None.
Proof.
  intros HN HH HW. unfold Shape.call, _DenseBlock.
  rewrite call_Sequential, DenseBlock_children_spec. unfold Py.range.
  replace (B, C0, H, W) with (B, C0 + Z.of_nat 0 * g, H, W)
    by (f_equal; f_equal; f_equal; lia).
  fold (Shape.call training foreign).
  rewrite dense_children_shape_exact by assumption.
  replace (Z.of_nat (0 + Z.to_nat N)) with N by lia.
  replace (Z.to_nat N =? 0)%nat with (N =? 0); [reflexivity|].
  destruct (Z.eqb_spec N 0) as [->|Hne]; [reflexivity|].
  symmetry. apply Nat.eqb_neq. lia.
Qed.

Lemma DenseBlock_shape (N C0 g bn : Z) (dr : Q) (B H W : Z) :
  0 <= N -> 1 <= H -> 1 <= W ->
  (training = true -> B * H * W <> 1) -> (dr <= 1)%Q ->
  Shape.call training foreign (_DenseBlock N C0 bn g dr) (B, C0, H, W)
  = Some (B, C0 + N * g, H, W).
Proof.
  intros HN HH HW HS HD. rewrite DenseBlock_shape_exact by assumption.
  apply single_value_false in HS. apply Qle_bool_iff in HD.
  rewrite HS, HD. now rewrite orb_true_r.
Qed.

Lemma Transition_shape_exact (n m B H W : Z) :
  1 <= H -> 1 <= W ->
  Shape.call training foreign (_Transition n m) (B, n, H, W)
  = if Shape.single_value training B H W then None else Some (B, m, H, W).
Proof.
  intros HH HW. unfold Shape.call, _Transition. simpl.
  change (training && (B * H * W =? 1))
    with (Shape.single_value training B H W).
  rewrite Z.eqb_refl.
  destruct (Shape.single_value training B H W); [reflexivity|].
  now shape_simpl.
Qed.

Lemma Transition_shape (n m B H W : Z) :
  1 <= H -> 1 <= W -> (training = true -> B * H * W <> 1) ->
  Shape.call training foreign (_Transition n m) (B, n, H, W)
  = Some (B, m, H, W).
Proof.
  intros HH HW HS. rewrite Transition_shape_exact by assumption.
  apply single_value_false in HS. now rewrite HS.
Qed.

Lemma AvgPool_shape (B C H W : Z) :
  2 <= H -> 2 <= W ->
  Shape.call training foreign (nn.AvgPool2d 2 2) (B, C, H, W)
  = Some (B, C, H / 2, W / 2).
Proof.
  intros HH HW. unfold Shape.call. simpl.
  now shape_simpl.
Qed.

End ShapeFacts.

Lemma firstn_seq_le (i n a : nat) :
  (i <= n)%nat -> firstn i (seq a n) = seq a i.
Proof.
  revert n a. induction i as [|i IH]; intros [|n] a Hi; simpl;
    try reflexivity; try lia.
  f_equal. apply IH. lia.
Qed.

Lemma firstn_range (n i : Z) :
  0 <= i <= n -> firstn (Z.to_nat i) (Py.range n) = Py.range i.
Proof.
  intro Hi. unfold Py.range.
  rewrite firstn_map, firstn_seq_le by lia. reflexivity.
Qed.

(** ** Dense layers and dense blocks *)

(** C1. A dense layer over [C] channels with growth rate [g] is the
    pipeline batch-norm, activation, 1x1 bottleneck convolution,
    batch-norm, activation, 3x3 convolution; its forward pass runs that
    pipeline, applies dropout when the rate is positive and concatenates
    the input with the result along the channel axis, so that a
    [(B, C, H, W)] input gives a [(B, C + g, H, W)] output.  In a dense
    block of [N] layers over [C0] channels, layer [i] is built over
    [C0 + i * g] channels and receives that many, and the block's output
    has [C0 + N * g] channels.  The shapes hold in inference mode and
    in training mode, there for an input with more than one value per
    channel, and for a dropout rate of at most one. *)
Theorem C1_dense_layer_and_block_channels
        (training : bool)
        (foreign : string -> list Z -> list bool -> Shape.t -> option Shape.t)
        (N C0 C g bn : Z) (dr : Q) (B H W : Z) :
  0 <= N -> 1 <= H -> 1 <= W ->
  (training = true -> B * H * W <> 1) -> (dr <= 1)%Q ->
  _DenseLayer C g bn dr
  = nn.DenseLayer
      [ ("norm1", nn.BatchNorm2d C);
        ("relu1", nn.ReLU);
        ("conv1", nn.Conv2d C (bn * g) 1 1 0);
        ("norm2", nn.BatchNorm2d (bn * g));
        ("relu2", nn.ReLU);
        ("conv2", nn.Conv2d (bn * g) g 3 1 1) ] dr
  /\ (forall (T : Type) leaf cat dropout training (x : T),
         call T leaf cat dropout training (_DenseLayer C g bn dr) x
         = (n1 <- leaf (nn.BatchNorm2d C) x ;;
            r1 <- leaf nn.ReLU n1 ;;
            c1 <- leaf (nn.Conv2d C (bn * g) 1 1 0) r1 ;;
            n2 <- leaf (nn.BatchNorm2d (bn * g)) c1 ;;
            r2 <- leaf nn.ReLU n2 ;;
            c2 <- leaf (nn.Conv2d (bn * g) g 3 1 1) r2 ;;
            new_features <- (if negb (Qle_bool dr 0)
                             then dropout dr training c2 else Some c2) ;;
            cat x new_features))
  /\ Shape.call training foreign (_DenseLayer C g bn dr) (B, C, H, W)
     = Some (B, C + g, H, W)
  /\ List.length (_DenseBlock_children N C0 bn g dr) = Z.to_nat N
  /\ (forall i : Z, 0 <= i < N ->
        nth_error (_DenseBlock_children N C0 bn g dr) (Z.to_nat i)
        = Some (("denselayer" ++ Py.str (i + 1))%string,
                _DenseLayer (C0 + i * g) g bn dr)
        /\ Sequential_forward Shape.t (Shape.call training foreign)
             (firstn (Z.to_nat i) (_DenseBlock_children N C0 bn g dr))
             (B, C0, H, W)
           = Some (B, C0 + i * g, H, W))
  /\ Shape.call training foreign (_DenseBlock N C0 bn g dr) (B, C0, H, W)
     = Some (B, C0 + N * g, H, W).
Proof.
  intros HN HH HW HS HD. repeat split.
  - intros T leaf cat dropout training' x. simpl. unfold bind.
    repeat match goal with
           | |- context [match leaf ?m ?y with _ => _ end] =>
               destruct (leaf m y); try reflexivity
           end.
  - now apply DenseLayer_shape.
  - now rewrite DenseBlock_children_spec, length_map, range_length.
  - rewrite DenseBlock_children_spec, nth_error_map, nth_error_range by lia.
    reflexivity.
  - rewrite DenseBlock_children_spec, firstn_map, firstn_range by lia.
    unfold Py.range.
    replace (B, C0, H, W) with (B, C0 + Z.of_nat 0 * g, H, W)
      by (now replace (C0 + Z.of_nat 0 * g) with C0 by lia).
    rewrite dense_children_shape by assumption.
    now replace (Z.of_nat (0 + Z.to_nat i)) with i by lia.
  - now apply DenseBlock_shape.
Qed.

Lemma C1_witness :
  (0 <= 6 /\ 1 <= 64 /\ 1 <= 48 /\ (true = true -> 2 * 64 * 48 <> 1)
   /\ (0 <= 1)%Q) /\
  Shape.call true Shape.conv_blocks (_DenseBlock 6 64 4 32 0) (2, 64, 64, 48)
  = Some (2, 64 + 6 * 32, 64, 48).
Proof.
  split; [repeat split; try lia; discriminate|].
  apply (C1_dense_layer_and_block_channels
           true Shape.conv_blocks 6 64 64 32 4 0 2 64 48);
    try lia; discriminate.
Defined.

(** ** The encoder that [__init__] builds *)

(** With four dense blocks, [self.features] is the stem, then the
    blocks with a transition and a pooling after each of the first
    three, then the final batch norm. *)
Lemma features_four_blocks
      (d_block : Z -> Z -> bool -> bool -> nn.module)
      (input_nc output_nc g n1 n2 n3 n4 nif bn : Z) (dr : Q) (num_classes : Z)
      (use_dropout use_skips bilinear_trick : bool) (outputSize : Z * Z)
      (use_semantics : bool) :
  let f1 := nif + n1 * g in
  let f2 := f1 / 2 + n2 * g in
  let f3 := f2 / 2 + n3 * g in
  let f4 := f3 / 2 + n4 * g in
  features (DenseUNet_init d_block input_nc output_nc g [n1; n2; n3; n4] nif
                           bn dr num_classes use_dropout use_skips
                           bilinear_trick outputSize use_semantics)
  = [ ("conv0", nn.Conv2d input_nc nif 7 2 3);
      ("norm0", nn.BatchNorm2d nif);
      ("relu0", nn.LeakyReLU (2 # 10));
      ("downconv0", nn.Conv2d nif nif 4 2 1);
      ("norm1", nn.BatchNorm2d nif);
      ("relu1", nn.LeakyReLU (2 # 10));
      ("denseblock1", _DenseBlock n1 nif bn g dr);
      ("transition1", _Transition f1 (f1 / 2));
      ("transition1pool", nn.AvgPool2d 2 2);
      ("denseblock2", _DenseBlock n2 (f1 / 2) bn g dr);
      ("transition2", _Transition f2 (f2 / 2));
      ("transition2pool", nn.AvgPool2d 2 2);
      ("denseblock3", _DenseBlock n3 (f2 / 2) bn g dr);
      ("transition3", _Transition f3 (f3 / 2));
      ("transition3pool", nn.AvgPool2d 2 2);
      ("denseblock4", _DenseBlock n4 (f3 / 2) bn g dr);
      ("norm5", nn.BatchNorm2d f4) ].
Proof. reflexivity. Qed.

(** C2. Each transition of the encoder is batch-norm, activation and a
    1x1 convolution from [f] to [f // 2] channels; a 2x2 average pooling
    of stride 2 follows it and halves height and width (rounding down),
    in training mode as in inference mode.
    The pair stands after the first, second and third dense block and
    not after the fourth, both in the module list and in the order in
    which [forward] calls the modules. *)
Theorem C2_encoder_transitions
        (d_block : Z -> Z -> bool -> bool -> nn.module)
        (training : bool)
        (foreign : string -> list Z -> list bool -> Shape.t -> option Shape.t)
        (input_nc output_nc g n1 n2 n3 n4 nif bn : Z) (dr : Q)
        (num_classes : Z) (use_dropout use_skips bilinear_trick : bool)
        (outputSize : Z * Z) (use_semantics : bool) (f B C H W : Z) :
  2 <= H -> 2 <= W ->
  let self := DenseUNet_init d_block input_nc output_nc g [n1; n2; n3; n4] nif
                             bn dr num_classes use_dropout use_skips
                             bilinear_trick outputSize use_semantics in
  let f1 := nif + n1 * g in
  let f2 := f1 / 2 + n2 * g in
  let f3 := f2 / 2 + n3 * g in
  let f4 := f3 / 2 + n4 * g in
  skipn 6 (features self)
  = [ ("denseblock1", _DenseBlock n1 nif bn g dr);
      ("transition1", _Transition f1 (f1 / 2));
      ("transition1pool", nn.AvgPool2d 2 2);
      ("denseblock2", _DenseBlock n2 (f1 / 2) bn g dr);
      ("transition2", _Transition f2 (f2 / 2));
      ("transition2pool", nn.AvgPool2d 2 2);
      ("denseblock3", _DenseBlock n3 (f2 / 2) bn g dr);
      ("transition3", _Transition f3 (f3 / 2));
      ("transition3pool", nn.AvgPool2d 2 2);
      ("denseblock4", _DenseBlock n4 (f3 / 2) bn g dr);
      ("norm5", nn.BatchNorm2d f4) ]
  /\ _Transition f (f / 2)
     = nn.Sequential [ ("norm", nn.BatchNorm2d f);
                       ("relu", nn.ReLU);
                       ("conv", nn.Conv2d f (f / 2) 1 1 0) ]
  /\ Shape.call training foreign (_Transition f (f / 2)) (B, f, H, W)
     = Some (B, f / 2, H, W)
  /\ Shape.call training foreign (nn.AvgPool2d 2 2) (B, C, H, W)
     = Some (B, C, H / 2, W / 2)
  /\ option_map out (Dataflow.encoder self)
     = Some
         (Dataflow.Mod "relu_type"
         (Dataflow.Mod "features.norm5"
         (Dataflow.Mod "features.denseblock4"
         (Dataflow.Mod "features.transition3pool"
         (Dataflow.Mod "features.transition3"
         (Dataflow.Mod "features.denseblock3"
         (Dataflow.Mod "features.transition2pool"
         (Dataflow.Mod "features.transition2"
         (Dataflow.Mod "features.denseblock2"
         (Dataflow.Mod "features.transition1pool"
         (Dataflow.Mod "features.transition1"
         (Dataflow.Mod "features.denseblock1"
         (Dataflow.Mod "features.relu1"
         (Dataflow.Mod "features.norm1"
         (Dataflow.Mod "features.downconv0"
         (Dataflow.Mod "features.relu0"
         (Dataflow.Mod "features.norm0"
         (Dataflow.Mod "features.conv0" (Dataflow.Var "x"))))))))))))))))))).
Proof.
  intros HH HW self f1 f2 f3 f4.
  split; [unfold self; now rewrite features_four_blocks|].
  split; [reflexivity|].
  split; [apply Transition_shape; try lia;
          apply single_value_false, single_value_big; lia|].
  split; [now apply AvgPool_shape | reflexivity].
Qed.

Lemma C2_witness :
  (2 <= 64 /\ 2 <= 48) /\
  Shape.call true Shape.conv_blocks (_Transition 256 (256 / 2)) (1, 256, 64, 48)
  = Some (1, 256 / 2, 64, 48) /\
  Shape.call true Shape.conv_blocks (nn.AvgPool2d 2 2) (1, 128, 64, 48)
  = Some (1, 128, 64 / 2, 48 / 2).
Proof.
  split; [lia|].
  pose proof (C2_encoder_transitions
                (get_decoder_block "basic") true Shape.conv_blocks
                3 1 32 6 12 24 16 64 4 0 1000 false true false (427, 571)
                false 256 1 128 64 48 ltac:(lia) ltac:(lia)) as H.
  cbv zeta in H.
  destruct H as (_ & _ & Ht & Hp & _). split; [exact Ht | exact Hp].
Defined.

(** ** Slices and [center_crop] *)

Lemma slice_bound_range (n i : Z) : 0 <= n -> 0 <= Py.slice_bound n i <= n.
Proof. unfold Py.slice_bound. destruct (i <? 0) eqn:E; lia. Qed.

Lemma slice_bound_id (n i : Z) : 0 <= i <= n -> Py.slice_bound n i = i.
Proof. unfold Py.slice_bound. destruct (Z.ltb_spec i 0); lia. Qed.

Lemma slice_length {A : Type} (a b : Z) (s : list A) :
  Z.of_nat (List.length (Py.slice a b s))
  = Py.slice_len (Z.of_nat (List.length s)) a b.
Proof.
  unfold Py.slice, Py.slice_len.
  set (n := Z.of_nat (List.length s)).
  assert (Hn : 0 <= n) by lia.
  pose proof (slice_bound_range n a Hn).
  pose proof (slice_bound_range n b Hn).
  rewrite length_firstn, length_skipn. lia.
Qed.

Lemma slice_len_window (n a k : Z) :
  0 <= a -> 0 <= k -> a + k <= n -> Py.slice_len n a (a + k) = k.
Proof.
  intros Ha Hk Hn. unfold Py.slice_len.
  rewrite !slice_bound_id by lia. lia.
Qed.

Lemma nth_z_map {A B : Type} (f : A -> B) (l : list A) (i : Z) :
  Tensor.nth_z (map f l) i = option_map f (Tensor.nth_z l i).
Proof.
  unfold Tensor.nth_z. destruct (i <? 0); [reflexivity|].
  apply nth_error_map.
Qed.

Lemma nth_z_slice {A : Type} (s : list A) (a k i : Z) :
  0 <= a -> a + k <= Z.of_nat (List.length s) -> 0 <= i < k ->
  Tensor.nth_z (Py.slice a (a + k) s) i = Tensor.nth_z s (a + i).
Proof.
  intros Ha Hk Hi. unfold Tensor.nth_z, Py.slice.
  rewrite !slice_bound_id by lia.
  replace (i <? 0) with false by lia. replace (a + i <? 0) with false by lia.
  rewrite nth_error_firstn, nth_error_skipn.
  replace (Z.to_nat i <? Z.to_nat (a + k - a))%nat with true
    by (symmetry; apply Nat.ltb_lt; lia).
  f_equal. lia.
Qed.

Lemma nth_z_In {A : Type} (l : list A) (i : Z) (x : A) :
  Tensor.nth_z l i = Some x -> In x l.
Proof.
  unfold Tensor.nth_z. destruct (i <? 0); [discriminate|].
  apply nth_error_In.
Qed.

Lemma In_slice {A : Type} (a b : Z) (s : list A) (x : A) :
  In x (Py.slice a b s) -> In x s.
Proof.
  unfold Py.slice. intro H.
  set (l := skipn _ s) in H.
  assert (Hl : In x l).
  { rewrite <- (firstn_skipn (Z.to_nat
       (Py.slice_bound (Z.of_nat (List.length s)) b
        - Py.slice_bound (Z.of_nat (List.length s)) a)) l).
    apply in_or_app. now left. }
  rewrite <- (firstn_skipn
                (Z.to_nat (Py.slice_bound (Z.of_nat (List.length s)) a)) s).
  apply in_or_app. now right.
Qed.

Lemma center_offset (n m : Z) :
  0 <= m <= n -> 0 <= (n - m) / 2 /\ (n - m) / 2 + m <= n.
Proof.
  intros H. split.
  - apply Z.div_pos; lia.
  - assert ((n - m) / 2 <= n - m) by (apply Z.div_le_upper_bound; lia). lia.
Qed.

Section CenterCrop.

Variable A : Type.
Variable layer : Tensor.t A.
Variables B C H W max_height max_width : Z.
Hypothesis Hsize : Tensor.size layer = (B, C, H, W).
Hypothesis Hwf : Tensor.wf layer.
Hypothesis Hh : 0 <= max_height <= H.
Hypothesis Hw : 0 <= max_width <= W.

Lemma center_crop_unfold :
  Tensor.center_crop layer max_height max_width
  = {| Tensor.size := (B, C, max_height, max_width);
       Tensor.data :=
         map (map (fun plane =>
                map (Py.slice ((W - max_width) / 2)
                              ((W - max_width) / 2 + max_width))
                    (Py.slice ((H - max_height) / 2)
                              ((H - max_height) / 2 + max_height) plane)))
             (Tensor.data layer) |}.
Proof.
  unfold Tensor.center_crop, center_crop, Tensor.index_hw, Py.floordiv.
  rewrite Hsize.
  pose proof (center_offset H max_height Hh) as [? ?].
  pose proof (center_offset W max_width Hw) as [? ?].
  now rewrite !slice_len_window by lia.
Qed.

Lemma center_crop_wf :
  Tensor.wf (Tensor.center_crop layer max_height max_width).
Proof.
  rewrite center_crop_unfold.
  pose proof (center_offset H max_height Hh) as [? ?].
  pose proof (center_offset W max_width Hw) as [? ?].
  unfold Tensor.wf in *. rewrite Hsize in Hwf. simpl.
  destruct Hwf as [Hb Himgs]. split.
  - unfold Tensor.has_len in *. now rewrite length_map.
  - apply Forall_map. eapply Forall_impl; [|exact Himgs].
    intros img [Hc Hplanes]. split.
    + unfold Tensor.has_len in *. now rewrite length_map.
    + apply Forall_map. eapply Forall_impl; [|exact Hplanes].
      intros plane [Hrows Hcols]. unfold Tensor.has_len in *. split.
      * rewrite length_map, slice_length, Hrows.
        apply slice_len_window; lia.
      * apply Forall_map. apply Forall_forall. intros row Hrow.
        assert (Hin : In row plane) by (eapply In_slice; exact Hrow).
        rewrite Forall_forall in Hcols. specialize (Hcols row Hin).
        rewrite slice_length, Hcols. apply slice_len_window; lia.
Qed.

Lemma center_crop_entry (n c i j : Z) :
  0 <= i < max_height -> 0 <= j < max_width ->
  Tensor.entry (Tensor.center_crop layer max_height max_width) n c i j
  = Tensor.entry layer n c ((H - max_height) / 2 + i)
                           ((W - max_width) / 2 + j).
Proof.
  intros Hi Hj. rewrite center_crop_unfold.
  pose proof (center_offset H max_height Hh) as [? ?].
  pose proof (center_offset W max_width Hw) as [? ?].
  unfold Tensor.wf in Hwf. rewrite Hsize in Hwf.
  destruct Hwf as [_ Himgs]. rewrite Forall_forall in Himgs.
  unfold Tensor.entry. simpl. rewrite nth_z_map.
  destruct (Tensor.nth_z (Tensor.data layer) n) as [img|] eqn:Eimg;
    [|reflexivity].
  simpl. rewrite nth_z_map.
  destruct (Himgs img (nth_z_In _ _ _ Eimg)) as [_ Hplanes].
  rewrite Forall_forall in Hplanes.
  destruct (Tensor.nth_z img c) as [plane|] eqn:Eplane; [|reflexivity].
  simpl. rewrite nth_z_map.
  destruct (Hplanes plane (nth_z_In _ _ _ Eplane)) as [Hrows Hcols].
  rewrite Forall_forall in Hcols. unfold Tensor.has_len in *.
  rewrite nth_z_slice by lia.
  destruct (Tensor.nth_z plane ((H - max_height) / 2 + i)) as [row|] eqn:Erow;
    [|reflexivity].
  simpl. specialize (Hcols row (nth_z_In _ _ _ Erow)).
  apply nth_z_slice; lia.
Qed.

End CenterCrop.

(** C9. On a 4-d tensor of size [(B, C, H, W)] and targets
    [max_height <= H], [max_width <= W], [center_crop] returns a tensor of
    size [(B, C, max_height, max_width)] whose entry at row [i] and
    column [j] of any batch and channel is the entry of the input at row
    [(H - max_height) // 2 + i] and column [(W - max_width) // 2 + j] of
    the same batch and channel. *)
Theorem C9_center_crop_window
        (A : Type) (layer : Tensor.t A) (B C H W max_height max_width : Z) :
  Tensor.size layer = (B, C, H, W) ->
  Tensor.wf layer ->
  0 <= max_height <= H ->
  0 <= max_width <= W ->
  let cropped := Tensor.center_crop layer max_height max_width in
  Tensor.size cropped = (B, C, max_height, max_width)
  /\ Tensor.wf cropped
  /\ forall n c i j : Z,
       0 <= i < max_height -> 0 <= j < max_width ->
       Tensor.entry cropped n c i j
       = Tensor.entry layer n c ((H - max_height) / 2 + i)
                                ((W - max_width) / 2 + j).
Proof.
  intros Hsize Hwf Hh Hw cropped. split; [|split].
  - unfold cropped.
    now rewrite (center_crop_unfold A layer B C H W _ _ Hsize Hh Hw).
  - now apply (center_crop_wf A layer B C H W).
  - intros n c i j Hi Hj.
    now apply (center_crop_entry A layer B C H W).
Qed.

Lemma C9_witness :
  (Tensor.size sample_layer = (1, 1, 4, 5) /\ 0 <= 2 <= 4 /\ 0 <= 3 <= 5) /\
  Tensor.center_crop sample_layer 2 3
  = {| Tensor.size := (1, 1, 2, 3);
       Tensor.data := [[[ [7; 8; 9]; [12; 13; 14] ]]] |} /\
  Tensor.entry (Tensor.center_crop sample_layer 2 3) 0 0 1 2
  = Tensor.entry sample_layer 0 0 ((4 - 2) / 2 + 1) ((5 - 3) / 2 + 2).
Proof.
  split; [repeat split; lia|]. split; [reflexivity|].
  apply (C9_center_crop_window Z sample_layer 1 1 4 5 2 3 eq_refl);
    [unfold Tensor.wf, Tensor.has_len; simpl; repeat (split || constructor)
    | lia ..].
Defined.

(** ** Transition-up *)




(** ** Reading [forward] backwards *)

Lemma bind_Some {A B : Type} (c : option A) (k : A -> option B) (b : B) :
  bind c k = Some b -> exists a, c = Some a /\ k a = Some b.
Proof. destruct c as [a|]; [eauto | discriminate]. Qed.

(** Split a successful run of binds into its successful steps. *)
Ltac split_run H :=
  repeat match type of H with
         | bind ?c _ = Some _ =>
             let a := fresh "v" in
             let E := fresh "E" in
             apply bind_Some in H; destruct H as (a & E & H)
         end.

(** C10. Whenever [forward] returns, it returns the pair of the
    regression output and the semantic logits if the model was built
    with [use_semantics=True], and the regression output alone
    otherwise. *)
Theorem C10_forward_result_form
        (M T : Type) (call : M -> T -> option T) (cat : T -> T -> option T)
        (self : DenseUNet M) (x : T) (r : output T) :
  forward call cat self x = Some r ->
  ((exists out_reg out_sem_last, r = Pair out_reg out_sem_last)
   <-> use_semantics self = true)
  /\ ((exists out_reg, r = Single out_reg) <-> use_semantics self = false).
Proof.
  unfold forward, forward_decoder. intro H. split_run H.
  destruct (use_semantics self).
  - split_run H. injection H as <-. split; split; eauto.
    + intros [? ?]; discriminate.
    + discriminate.
  - injection H as <-. split; split; eauto.
    + intros (? & ? & ?); discriminate.
    + discriminate.
Qed.

Lemma C10_witness :
  Shape.forward true Shape.conv_blocks (unet121 1 true false true)
                (2, 3, 256, 512)
  = Some (Pair (2, 1, 256, 512) (2, 1000, 256, 512))
  /\ Shape.forward true Shape.conv_blocks (unet121 1 true false false)
                   (2, 3, 256, 512)
     = Some (Single (2, 1, 256, 512))
  /\ ((exists out_reg out_sem_last : Shape.t,
          Pair (2, 1, 256, 512) (2, 1000, 256, 512)
          = Pair out_reg out_sem_last)
      <-> use_semantics (unet121 1 true false true) = true).
Proof.
  split; [vm_compute; reflexivity|]. split; [vm_compute; reflexivity|].
  apply (C10_forward_result_form
           nn.module Shape.t (Shape.call true Shape.conv_blocks) Shape.cat
           (unet121 1 true false true) (2, 3, 256, 512)).
  vm_compute. reflexivity.
Defined.

(** The regression output is [Tanh] of [last_conv] of the last decoder
    block's output. *)
Lemma forward_decoder_regression
      (M T : Type) (call : M -> T -> option T) (cat : T -> T -> option T)
      (self : DenseUNet M) (e : encoded T) (r : output T) :
  forward_decoder call cat self e = Some r ->
  exists inp out_reg_d1 out_reg_last,
    call_attr call (decoder self) "d_block1" inp = Some out_reg_d1
    /\ call (last_conv self) out_reg_d1 = Some out_reg_last
    /\ call (Tanh self) out_reg_last = Some (regression r).
Proof.
  unfold forward_decoder. intro H. split_run H.
  do 3 eexists. split; [eassumption|]. split; [eassumption|].
  destruct (use_semantics self).
  - split_run H. now injection H as <-.
  - now injection H as <-.
Qed.

(** ** The regression head *)

Lemma tanh_bounds (x : R) : (-1 < tanh x < 1)%R.
Proof.
  pose proof (exp_pos x) as Ha. pose proof (exp_pos (- x)) as Hb.
  assert (Hc : (0 < cosh x)%R) by (unfold cosh; lra).
  assert (Hs : (- cosh x < sinh x < cosh x)%R) by (unfold sinh, cosh; lra).
  assert (E : (tanh x * cosh x = sinh x)%R) by (unfold tanh; field; lra).
  split.
  - apply (Rmult_lt_reg_r (cosh x)); [exact Hc|]. rewrite E. lra.
  - apply (Rmult_lt_reg_r (cosh x)); [exact Hc|]. rewrite E. lra.
Qed.

Lemma entry_map_entries {A B : Type} (f : A -> B) (x : Tensor.t A)
      (n c i j : Z) :
  Tensor.entry (Tensor.map_entries f x) n c i j
  = option_map f (Tensor.entry x n c i j).
Proof.
  unfold Tensor.entry, Tensor.map_entries. cbn [Tensor.data].
  rewrite nth_z_map. destruct (Tensor.nth_z (Tensor.data x) n) as [img|];
    [|reflexivity].
  cbn [option_map bind]. rewrite nth_z_map.
  destruct (Tensor.nth_z img c) as [plane|]; [|reflexivity].
  cbn [option_map bind]. rewrite nth_z_map.
  destruct (Tensor.nth_z plane i) as [row|]; [|reflexivity].
  cbn [option_map bind]. apply nth_z_map.
Qed.

Lemma tanh_float_bounded (round : R -> R) (v : float) :
  (forall y, (-1 <= y <= 1)%R -> (-1 <= round y <= 1)%R) ->
  v <> NaN -> in_unit_interval (tanh_float round v).
Proof.
  intros Hround Hv. destruct v as [y|[|]|]; simpl; try lra.
  - apply Hround. pose proof (tanh_bounds y). lra.
  - now elim Hv.
Qed.

(** C5 as stated fails: a NaN in the output of the last convolution is a
    NaN in the regression output, which then has an entry outside
    [-1, 1].  Here every module but [Tanh] hands its input on, and the
    input has a NaN entry. *)
Lemma C5_counterexample :
  exists r : output (Tensor.t float),
    forward call_identity Tensor.cat (unet121 1 true false false) sample_nan
    = Some r
    /\ Tensor.entry (regression r) 0 0 0 0 = Some NaN
    /\ ~ regression_bounded r.
Proof.
  eexists. split; [reflexivity|]. split; [reflexivity|].
  unfold regression_bounded. intro H.
  cbv [regression Tensor.entries Tensor.data Tanh_forward Tensor.map_entries
       sample_nan map List.concat app tanh_float] in H.
  inversion H as [|v l Hv _]. exact Hv.
Qed.

(** C5, amended. For a model that [__init__] built, whatever the other
    modules compute: the regression output that [forward] returns has
    the size of the output of [last_conv], the 3x3 convolution to
    [output_nc] channels, and each of its entries is the hyperbolic
    tangent of the entry of that output at the same place: the rounded
    [tanh y] for a finite [y], 1 and -1 for the infinities, NaN for
    NaN.  So an entry is NaN exactly where the convolution's output is
    NaN, and every other entry lies in [-1, 1]. *)
Theorem C5_regression_is_tanh_of_last_conv
        (d_block : Z -> Z -> bool -> bool -> nn.module)
        (input_nc output_nc growth_rate : Z) (block_config : list Z)
        (num_init_features bn_size : Z) (drop_rate : Q) (num_classes : Z)
        (use_dropout use_skips bilinear_trick : bool) (outputSize : Z * Z)
        (use_semantics : bool) (round : R -> R)
        (call : nn.module -> Tensor.t float -> option (Tensor.t float))
        (cat : Tensor.t float -> Tensor.t float -> option (Tensor.t float))
        (x : Tensor.t float) (r : output (Tensor.t float)) :
  (forall y, (-1 <= y <= 1)%R -> (-1 <= round y <= 1)%R) ->
  (forall t, call nn.Tanh t = Some (Tanh_forward round t)) ->
  let self := DenseUNet_init d_block input_nc output_nc growth_rate
                             block_config num_init_features bn_size drop_rate
                             num_classes use_dropout use_skips bilinear_trick
                             outputSize use_semantics in
  forward call cat self x = Some r ->
  exists num_features out_reg_d1 out_reg_last,
    last_conv self = conv3x3 num_features output_nc
    /\ call (conv3x3 num_features output_nc) out_reg_d1 = Some out_reg_last
    /\ Tensor.size (regression r) = Tensor.size out_reg_last
    /\ forall n c i j : Z,
         (Tensor.entry out_reg_last n c i j = None ->
          Tensor.entry (regression r) n c i j = None)
         /\ (forall y : R,
               Tensor.entry out_reg_last n c i j = Some (Finite y) ->
               Tensor.entry (regression r) n c i j
               = Some (Finite (round (tanh y))))
         /\ (Tensor.entry out_reg_last n c i j = Some (Infinity false) ->
             Tensor.entry (regression r) n c i j = Some (Finite 1))
         /\ (Tensor.entry out_reg_last n c i j = Some (Infinity true) ->
             Tensor.entry (regression r) n c i j = Some (Finite (-1)))
         /\ (Tensor.entry (regression r) n c i j = Some NaN
             <-> Tensor.entry out_reg_last n c i j = Some NaN)
         /\ (forall v : float,
               Tensor.entry (regression r) n c i j = Some v ->
               v <> NaN -> in_unit_interval v).
Proof.
  intros Hround HTanh self H. unfold forward in H. split_run H.
  apply forward_decoder_regression in H.
  destruct H as (inp & out_reg_d1 & out_reg_last & _ & Hconv & Hreg).
  assert (ETanh : Tanh self = nn.Tanh).
  { unfold self, DenseUNet_init.
    now destruct (fold_left _ (Py.enumerate block_config) _). }
  assert (Elast : exists nf, last_conv self = conv3x3 nf output_nc).
  { unfold self, DenseUNet_init.
    destruct (fold_left _ (Py.enumerate block_config) _). cbn [last_conv].
    eauto. }
  destruct Elast as [nf Elast].
  rewrite ETanh, HTanh in Hreg. injection Hreg as Hreg.
  rewrite Elast in Hconv.
  exists nf, out_reg_d1, out_reg_last.
  split; [exact Elast|]. split; [exact Hconv|].
  rewrite <- Hreg. split; [reflexivity|].
  intros n c i j. unfold Tanh_forward. rewrite entry_map_entries.
  destruct (Tensor.entry out_reg_last n c i j) as [[y|[|]|]|];
    cbn [option_map tanh_float];
    repeat split; try discriminate; try reflexivity;
    try (intros ? Ew; injection Ew as <-; reflexivity);
    try (intros w Ew Hw; injection Ew as <-; simpl;
         try lra; try (now elim Hw));
    try (intros w Ew; discriminate Ew).
  apply Hround. pose proof (tanh_bounds y). lra.
Qed.

Lemma C5_witness :
  exists r : output (Tensor.t float),
    forward call_identity Tensor.cat (unet121 1 true false false) sample_floats
    = Some r
    /\ Tensor.entry (regression r) 0 0 0 1 = Some (Finite (tanh 1))
    /\ forall v : float,
         Tensor.entry (regression r) 0 0 0 1 = Some v ->
         v <> NaN -> in_unit_interval v.
Proof.
  eexists. split; [reflexivity|].
  destruct (C5_regression_is_tanh_of_last_conv
              (get_decoder_block "basic") 3 1 32 [6; 12; 24; 16] 64 4 0 1000
              false true false (427, 571) false (fun y => y)
              call_identity Tensor.cat sample_floats _
              (fun y Hy => Hy) (fun t => eq_refl) eq_refl)
    as (nf & d1 & l & _ & _ & _ & Hb).
  destruct (Hb 0 0 0 1) as (_ & _ & _ & _ & _ & Hv).
  split; [reflexivity | exact Hv].
Defined.

(** ** The decoder *)

(** The five decoder blocks that [__init__] builds over a four-block
    encoder: all with [upsample=True], the first over the encoder's
    channels, the others over [mult] times the previous block's. *)
Lemma decoder_four_blocks
      (d_block : Z -> Z -> bool -> bool -> nn.module)
      (input_nc output_nc g n1 n2 n3 n4 nif bn : Z) (dr : Q) (num_classes : Z)
      (dropout skips trick : bool) (outputSize : Z * Z)
      (semantics : bool) :
  let f4 := ((nif + n1 * g) / 2 + n2 * g) / 2 in
  let f4 := (f4 + n3 * g) / 2 + n4 * g in
  let c5 := Py.int_truediv2 f4 in
  let c4 := Py.int_truediv2 c5 in
  let c3 := Py.int_truediv2 c4 in
  let c2 := Py.int_truediv2 c3 in
  let mult := if skips then 2 else 1 in
  let block i o d := nn.Sequential [("0", d_block i o true d)] in
  let self := DenseUNet_init d_block input_nc output_nc g [n1; n2; n3; n4] nif
                             bn dr num_classes dropout skips trick
                             outputSize semantics in
  decoder self
  = [ ("d_block5", block (f4 * 1) c5 dropout);
      ("d_block4", block (c5 * mult) c4 dropout);
      ("d_block3", block (c4 * mult) c3 false);
      ("d_block2", block (c3 * mult) c2 false);
      ("d_block1", block (c2 * mult) c2 false) ]
  /\ decoder_sem self = (if semantics then Some (decoder self) else None)
  /\ last_conv self = conv3x3 c2 output_nc
  /\ last_conv_sem self
     = (if semantics then Some (conv3x3 c2 num_classes) else None)
  /\ Tanh self = nn.Tanh
  /\ use_skips self = skips.
Proof.
  destruct semantics; repeat split; reflexivity.
Qed.

(** ** The semantic head *)

Lemma forward_decoder_semantic
      (M T : Type) (call : M -> T -> option T) (cat : T -> T -> option T)
      (self : DenseUNet M) (e : encoded T) (out_reg out_sem_last : T) :
  forward_decoder call cat self e = Some (Pair out_reg out_sem_last) ->
  semantic_slice call cat self e = Some out_sem_last.
Proof.
  unfold forward_decoder, semantic_slice. intro H. split_run H.
  destruct (use_semantics self); [|discriminate H].
  split_run H. injection H as _ <-.
  repeat match goal with
         | E : ?c = Some _ |- context [?c] => rewrite E; cbn [bind]
         end.
  reflexivity.
Qed.

Lemma forward_encoder_ext
      (M T : Type) (call : M -> T -> option T) (self1 self2 : DenseUNet M)
      (x : T) :
  features self1 = features self2 -> relu_type self1 = relu_type self2 ->
  forward_encoder call self1 x = forward_encoder call self2 x.
Proof. unfold forward_encoder. now intros -> ->. Qed.

Lemma semantic_slice_ext
      (M T : Type) (call : M -> T -> option T) (cat : T -> T -> option T)
      (self1 self2 : DenseUNet M) (e : encoded T) :
  use_skips self1 = use_skips self2 ->
  getattr (decoder self1) "d_block5" = getattr (decoder self2) "d_block5" ->
  getattr (decoder self1) "d_block4" = getattr (decoder self2) "d_block4" ->
  getattr (decoder self1) "d_block3" = getattr (decoder self2) "d_block3" ->
  decoder_sem self1 = decoder_sem self2 ->
  last_conv_sem self1 = last_conv_sem self2 ->
  semantic_slice call cat self1 e = semantic_slice call cat self2 e.
Proof.
  unfold semantic_slice, get_decoder_input, call_attr.
  now intros -> -> -> -> -> ->.
Qed.

(** C7 as stated fails: two models that differ in nothing but the weight
    of the regression decoder's [d_block3] give different semantic
    outputs on the same input. *)
Lemma C7_counterexample :
  Fn.forward Toy.cat (Toy.net (Toy.blocks 1 1 1 1 1)) [1]
  = Some (Pair [5] [5])
  /\ Fn.forward Toy.cat (Toy.net (Toy.blocks 1 1 2 1 1)) [1]
     = Some (Pair [8] [8])
  /\ ~ Toy.semantic_output_ignores_decoder.
Proof.
  split; [reflexivity|]. split; [reflexivity|].
  intro H.
  specialize (H (Toy.blocks 1 1 1 1 1) (Toy.blocks 1 1 2 1 1)
                [1] [5] [5] [8] [8] eq_refl eq_refl).
  discriminate H.
Qed.

(** C7, amended. The semantic logits share with the regression head the
    encoder and the first three decoder blocks ([decoder.d_block5],
    [d_block4], [d_block3]); from there on they are computed by
    [decoder_sem.d_block2], [decoder_sem.d_block1] and [last_conv_sem].
    For fixed encoder, fixed first three decoder blocks and fixed
    semantic branch, changing the rest of the regression head
    ([decoder.d_block2], [decoder.d_block1], [last_conv], [Tanh],
    [upsample]) leaves the semantic output unchanged whenever [forward]
    returns. *)
Theorem C7_semantic_branch_shares_three_blocks
        (M T : Type) (call : M -> T -> option T) (cat : T -> T -> option T)
        (self1 self2 : DenseUNet M) (x r1 s1 r2 s2 : T) :
  features self1 = features self2 ->
  relu_type self1 = relu_type self2 ->
  use_skips self1 = use_skips self2 ->
  getattr (decoder self1) "d_block5" = getattr (decoder self2) "d_block5" ->
  getattr (decoder self1) "d_block4" = getattr (decoder self2) "d_block4" ->
  getattr (decoder self1) "d_block3" = getattr (decoder self2) "d_block3" ->
  decoder_sem self1 = decoder_sem self2 ->
  last_conv_sem self1 = last_conv_sem self2 ->
  forward call cat self1 x = Some (Pair r1 s1) ->
  forward call cat self2 x = Some (Pair r2 s2) ->
  s1 = s2.
Proof.
  intros Hf Hr Hs H5 H4 H3 Hd Hl H1 H2. unfold forward in H1, H2.
  rewrite (forward_encoder_ext M T call self1 self2 x Hf Hr) in H1.
  destruct (forward_encoder call self2 x) as [e|]; [|discriminate H1].
  cbn [bind] in H1, H2.
  apply forward_decoder_semantic in H1, H2.
  rewrite (semantic_slice_ext M T call cat self1 self2 e Hs H5 H4 H3 Hd Hl)
    in H1.
  congruence.
Qed.

Lemma C7_witness :
  Fn.forward Toy.cat (Toy.net (Toy.blocks 1 1 1 1 1)) [1]
  = Some (Pair [5] [5])
  /\ Fn.forward Toy.cat (Toy.net (Toy.blocks 1 1 1 7 9)) [1]
     = Some (Pair [261] [5])
  /\ [5] = [5].
Proof.
  split; [reflexivity|]. split; [reflexivity|].
  apply (C7_semantic_branch_shares_three_blocks
           (Toy.T -> option Toy.T) Toy.T Fn.call Toy.cat
           (Toy.net (Toy.blocks 1 1 1 1 1)) (Toy.net (Toy.blocks 1 1 1 7 9))
           [1] [5] [5] [261] [5]); reflexivity.
Defined.

(** ** The encoder at run time *)

Lemma window_conv0 (n : Z) :
  1 <= n -> Shape.window_out n 7 2 3 = Some ((n - 1) / 2 + 1).
Proof.
  intro H. unfold Shape.window_out.
  replace (7 <=? n + 2 * 3) with true by lia. simpl.
  now replace (n + 6 - 7) with (n - 1) by lia.
Qed.

Lemma window_downconv0 (n : Z) :
  2 <= n -> Shape.window_out n 4 2 1 = Some ((n - 2) / 2 + 1).
Proof.
  intro H. unfold Shape.window_out.
  replace (4 <=? n + 2 * 1) with true by lia. simpl.
  now replace (n + 2 - 4) with (n - 2) by lia.
Qed.

(** The resolutions along the encoder: strictly decreasing, and never
    below one for an input of at least 31 pixels. *)
Lemma encoder_resolutions (n : Z) :
  31 <= n ->
  let n1 := (n - 1) / 2 + 1 in
  let n2 := (n1 - 2) / 2 + 1 in
  n > n1 /\ n1 > n2 /\ n2 > n2 / 2 /\ n2 / 2 > n2 / 2 / 2
  /\ n2 / 2 / 2 > n2 / 2 / 2 / 2 /\ n2 / 2 / 2 / 2 >= 1.
Proof.
  intros H n1 n2. subst n1 n2.
  Z.to_euclidean_division_equations. lia.
Qed.

Lemma BatchNorm_shape training foreign (n B H W : Z) :
  Shape.call training foreign (nn.BatchNorm2d n) (B, n, H, W)
  = if Shape.single_value training B H W then None else Some (B, n, H, W).
Proof. unfold Shape.call. simpl. apply batch_norm_shape. Qed.

Lemma LeakyReLU_shape training foreign (slope : Q) (x : Shape.t) :
  Shape.call training foreign (nn.LeakyReLU slope) x = Some x.
Proof. now destruct x as [[[b c] h] w]. Qed.

Lemma conv0_shape training foreign (cin cout B H W : Z) :
  1 <= H -> 1 <= W ->
  Shape.call training foreign (nn.Conv2d cin cout 7 2 3) (B, cin, H, W)
  = Some (B, cout, (H - 1) / 2 + 1, (W - 1) / 2 + 1).
Proof.
  intros HH HW. unfold Shape.call. simpl.
  now rewrite Z.eqb_refl, !window_conv0 by assumption.
Qed.

Lemma downconv0_shape training foreign (cin cout B H W : Z) :
  2 <= H -> 2 <= W ->
  Shape.call training foreign (nn.Conv2d cin cout 4 2 1) (B, cin, H, W)
  = Some (B, cout, (H - 2) / 2 + 1, (W - 2) / 2 + 1).
Proof.
  intros HH HW. unfold Shape.call. simpl.
  now rewrite Z.eqb_refl, !window_downconv0 by assumption.
Qed.

(** The encoder on an input of at least 31 by 31 pixels: it returns
    exactly when [encoder_runs] holds, and then these shapes. *)
Lemma forward_encoder_exact
      (d_block : Z -> Z -> bool -> bool -> nn.module) (training : bool)
      (foreign : string -> list Z -> list bool -> Shape.t -> option Shape.t)
      (input_nc output_nc g n1 n2 n3 n4 nif bn : Z) (dr : Q) (num_classes : Z)
      (dropout skips trick : bool) (outputSize : Z * Z) (semantics : bool)
      (B H W : Z) :
  0 <= n1 -> 0 <= n2 -> 0 <= n3 -> 0 <= n4 -> 31 <= H -> 31 <= W ->
  let self := DenseUNet_init d_block input_nc output_nc g [n1; n2; n3; n4] nif
                             bn dr num_classes dropout skips trick
                             outputSize semantics in
  let f1 := nif + n1 * g in
  let f2 := f1 / 2 + n2 * g in
  let f3 := f2 / 2 + n3 * g in
  let f4 := f3 / 2 + n4 * g in
  let h1 := (H - 1) / 2 + 1 in
  let h2 := (h1 - 2) / 2 + 1 in
  let w1 := (W - 1) / 2 + 1 in
  let w2 := (w1 - 2) / 2 + 1 in
  forward_encoder (Shape.call training foreign) self (B, input_nc, H, W)
  = if Shape.encoder_runs training dr n1 n2 n3 n4 B
                          (h2 / 2 / 2 / 2) (w2 / 2 / 2 / 2)
    then Some {| out_conv1 := (B, nif, h1, w1);
                 tb_denseblock1 := (B, f1 / 2, h2, w2);
                 tb_denseblock2 := (B, f2 / 2, h2 / 2, w2 / 2);
                 tb_denseblock3 := (B, f3 / 2, h2 / 2 / 2, w2 / 2 / 2);
                 out := (B, f4, h2 / 2 / 2 / 2, w2 / 2 / 2 / 2) |}
    else None.
Proof.
  intros Hn1 Hn2 Hn3 Hn4 HH HW self f1 f2 f3 f4 h1 h2 w1 w2.
  pose proof (encoder_resolutions H HH) as HrH.
  pose proof (encoder_resolutions W HW) as HrW.
  cbv zeta in HrH, HrW. fold h1 h2 in HrH. fold w1 w2 in HrW.
  unfold forward_encoder, call_attr.
  change (relu_type self) with (nn.LeakyReLU (2 # 10)).
  unfold self. rewrite features_four_blocks.
  fold f1. fold f2. fold f3. fold f4.
  cbn [getattr String.eqb Ascii.eqb Bool.eqb bind].
  rewrite conv0_shape by lia. cbn [bind]. fold h1 w1.
  rewrite BatchNorm_shape, single_value_big by lia. cbn [bind].
  rewrite LeakyReLU_shape. cbn [bind].
  rewrite downconv0_shape by lia. cbn [bind]. fold h2 w2.
  rewrite BatchNorm_shape, single_value_big by lia. cbn [bind].
  rewrite LeakyReLU_shape. cbn [bind].
  unfold Shape.encoder_runs.
  set (S5 := Shape.single_value training B (h2 / 2 / 2 / 2) (w2 / 2 / 2 / 2)).
  destruct (Qle_bool dr 1) eqn:D.
  - (* a valid dropout rate *)
    rewrite DenseBlock_shape_exact, single_value_big, D by lia.
    rewrite orb_true_r. cbn [bind]. fold f1.
    rewrite Transition_shape_exact, single_value_big by lia. cbn [bind].
    rewrite AvgPool_shape by lia. cbn [bind].
    rewrite DenseBlock_shape_exact, single_value_big, D by lia.
    rewrite orb_true_r. cbn [bind]. fold f2.
    rewrite Transition_shape_exact, single_value_big by lia. cbn [bind].
    rewrite AvgPool_shape by lia. cbn [bind].
    rewrite DenseBlock_shape_exact, single_value_big, D by lia.
    rewrite orb_true_r. cbn [bind]. fold f3.
    rewrite Transition_shape_exact, single_value_big by lia. cbn [bind].
    rewrite AvgPool_shape by lia. cbn [bind].
    rewrite DenseBlock_shape_exact, D by lia. fold S5.
    destruct S5 eqn:ES5; cbn [negb andb orb].
    + destruct (n4 =? 0); cbn [bind negb andb orb]; [|reflexivity].
      fold f4. rewrite BatchNorm_shape. fold S5. now rewrite ES5.
    + rewrite orb_true_r. cbn [bind]. fold f4.
      rewrite BatchNorm_shape. fold S5. rewrite ES5. cbn [bind].
      now rewrite LeakyReLU_shape.
  - (* a dropout rate above one: any dense layer raises *)
    rewrite DenseBlock_shape_exact, single_value_big, D by lia.
    cbn [negb andb]. rewrite orb_false_r.
    destruct (n1 =? 0); cbn [bind andb orb];
      [|now rewrite andb_false_r].
    fold f1.
    rewrite Transition_shape_exact, single_value_big by lia. cbn [bind].
    rewrite AvgPool_shape by lia. cbn [bind].
    rewrite DenseBlock_shape_exact, single_value_big, D by lia.
    cbn [negb andb]. rewrite orb_false_r.
    destruct (n2 =? 0); cbn [bind andb orb];
      [|now rewrite andb_false_r].
    fold f2.
    rewrite Transition_shape_exact, single_value_big by lia. cbn [bind].
    rewrite AvgPool_shape by lia. cbn [bind].
    rewrite DenseBlock_shape_exact, single_value_big, D by lia.
    cbn [negb andb]. rewrite orb_false_r.
    destruct (n3 =? 0); cbn [bind andb orb];
      [|now rewrite andb_false_r].
    fold f3.
    rewrite Transition_shape_exact, single_value_big by lia. cbn [bind].
    rewrite AvgPool_shape by lia. cbn [bind].
    rewrite DenseBlock_shape_exact, D by lia. fold S5.
    rewrite andb_false_r, orb_false_r.
    destruct (n4 =? 0); cbn [bind andb orb];
      [|now rewrite andb_false_r].
    fold f4. rewrite BatchNorm_shape. fold S5.
    destruct S5; cbn [negb andb bind]; [reflexivity|].
    now rewrite LeakyReLU_shape.
Qed.

Lemma encoder_runs_true (training : bool) (dr : Q) (n1 n2 n3 n4 B h w : Z) :
  (training = true -> B * h * w <> 1) -> (dr <= 1)%Q ->
  Shape.encoder_runs training dr n1 n2 n3 n4 B h w = true.
Proof.
  intros HS HD. unfold Shape.encoder_runs.
  apply single_value_false in HS. apply Qle_bool_iff in HD.
  now rewrite HS, HD.
Qed.

Lemma forward_encoder_shapes
      (d_block : Z -> Z -> bool -> bool -> nn.module) (training : bool)
      (foreign : string -> list Z -> list bool -> Shape.t -> option Shape.t)
      (input_nc output_nc g n1 n2 n3 n4 nif bn : Z) (dr : Q) (num_classes : Z)
      (dropout skips trick : bool) (outputSize : Z * Z) (semantics : bool)
      (B H W : Z) :
  0 <= n1 -> 0 <= n2 -> 0 <= n3 -> 0 <= n4 -> 31 <= H -> 31 <= W ->
  let self := DenseUNet_init d_block input_nc output_nc g [n1; n2; n3; n4] nif
                             bn dr num_classes dropout skips trick
                             outputSize semantics in
  let f1 := nif + n1 * g in
  let f2 := f1 / 2 + n2 * g in
  let f3 := f2 / 2 + n3 * g in
  let f4 := f3 / 2 + n4 * g in
  let h1 := (H - 1) / 2 + 1 in
  let h2 := (h1 - 2) / 2 + 1 in
  let w1 := (W - 1) / 2 + 1 in
  let w2 := (w1 - 2) / 2 + 1 in
  (training = true -> B * (h2 / 2 / 2 / 2) * (w2 / 2 / 2 / 2) <> 1) ->
  (dr <= 1)%Q ->
  forward_encoder (Shape.call training foreign) self (B, input_nc, H, W)
  = Some {| out_conv1 := (B, nif, h1, w1);
            tb_denseblock1 := (B, f1 / 2, h2, w2);
            tb_denseblock2 := (B, f2 / 2, h2 / 2, w2 / 2);
            tb_denseblock3 := (B, f3 / 2, h2 / 2 / 2, w2 / 2 / 2);
            out := (B, f4, h2 / 2 / 2 / 2, w2 / 2 / 2 / 2) |}.
Proof.
  intros Hn1 Hn2 Hn3 Hn4 HH HW self f1 f2 f3 f4 h1 h2 w1 w2 HS HD.
  unfold self. rewrite forward_encoder_exact by assumption.
  fold h1 h2 w1 w2. now rewrite encoder_runs_true.
Qed.

(** ** The decoder at run time *)

Lemma cat_shape_inv (a b c : Shape.t) :
  Shape.cat a b = Some c ->
  let '(ba, ca, ha, wa) := a in
  let '(bb, cb, hb, wb) := b in
  ba = bb /\ ha = hb /\ wa = wb /\ c = (ba, ca + cb, ha, wa).
Proof.
  destruct a as [[[ba ca] ha] wa], b as [[[bb cb] hb] wb]. unfold Shape.cat.
  destruct (Z.eqb_spec ba bb); [|discriminate].
  destruct (Z.eqb_spec ha hb); [|discriminate].
  destruct (Z.eqb_spec wa wb); [|discriminate].
  cbn [andb]. intro E. injection E as <-. auto.
Qed.

Lemma encoder_bottleneck (n : Z) :
  31 <= n -> ((n - 1) / 2 + 1 - 2) / 2 + 1 = (n + 1) / 4
             /\ (n + 1) / 4 / 2 / 2 / 2 = (n + 1) / 32
             /\ 1 <= (n + 1) / 32.
Proof.
  intro H.
  assert (E1 : (n - 1) / 2 + 1 = (n + 1) / 2)
    by (Z.to_euclidean_division_equations; lia).
  assert (E2 : ((n + 1) / 2 - 2) / 2 + 1 = (n + 1) / 2 / 2)
    by (Z.to_euclidean_division_equations; lia).
  replace ((n - 1) / 2 + 1 - 2) with ((n + 1) / 2 - 2) by lia.
  rewrite E2. rewrite !Z.div_div by lia. cbn [Z.mul Pos.mul].
  split; [reflexivity|]. split; [reflexivity|].
  Z.to_euclidean_division_equations; lia.
Qed.

Lemma encoder_heights (n : Z) :
  31 <= n ->
  (n - 1) / 2 + 1 = (n + 1) / 2
  /\ ((n - 1) / 2 + 1 - 2) / 2 + 1 = (n + 1) / 4
  /\ (n + 1) / 4 / 2 = (n + 1) / 8
  /\ (n + 1) / 4 / 2 / 2 = (n + 1) / 16
  /\ (n + 1) / 4 / 2 / 2 / 2 = (n + 1) / 32
  /\ 1 <= (n + 1) / 32.
Proof.
  intro H. destruct (encoder_bottleneck n H) as (E2 & E5 & H5).
  assert (E1 : (n - 1) / 2 + 1 = (n + 1) / 2)
    by (Z.to_euclidean_division_equations; lia).
  rewrite !Z.div_div by lia. cbn [Z.mul Pos.mul].
  repeat split; auto.
Qed.

(** The classes of [conv_blocks] in what is proved about whole runs: a
    decoder block built with [upsample=True] maps [inplanes] channels
    to [outplanes] channels at twice the height and width and rejects
    any other channel count, and [conv3x3] is a 3x3 convolution of
    stride 1 and padding 1. *)
Section DecoderBlocks.

Variable training : bool.
Variable foreign : string -> list Z -> list bool -> Shape.t -> option Shape.t.
Variable kind : string.

Hypothesis Hblock :
  forall (i o : Z) (d : bool) (B C H W : Z),
    foreign kind [i; o] [true; d] (B, C, H, W)
    = if C =? i then Some (B, o, 2 * H, 2 * W) else None.

Hypothesis Hconv :
  forall (i o : Z) (x : Shape.t),
    foreign "conv3x3" [i; o] [] x = Shape.conv2d i o 3 1 1 x.

Lemma block_call (i o : Z) (d : bool) (B C H W : Z) :
  Shape.call training foreign
    (nn.Sequential [("0", get_decoder_block kind i o true d)]) (B, C, H, W)
  = if C =? i then Some (B, o, 2 * H, 2 * W) else None.
Proof.
  unfold Shape.call, get_decoder_block. cbn [call snd Shape.leaf].
  rewrite Hblock. now destruct (C =? i).
Qed.

Lemma conv3x3_call (i o B C H W : Z) :
  1 <= H -> 1 <= W ->
  Shape.call training foreign (conv3x3 i o) (B, C, H, W)
  = if C =? i then Some (B, o, H, W) else None.
Proof.
  intros HH HW. unfold Shape.call, conv3x3. cbn [call Shape.leaf].
  rewrite Hconv. cbn [Shape.conv2d].
  destruct (C =? i); [|reflexivity].
  now rewrite !window_same_3 by assumption.
Qed.

Lemma conv3x3_rejects (i o B C H W : Z) :
  C <> i -> Shape.call training foreign (conv3x3 i o) (B, C, H, W) = None.
Proof.
  intro Hne. unfold Shape.call, conv3x3. cbn [call Shape.leaf].
  rewrite Hconv. cbn [Shape.conv2d].
  now replace (C =? i) with false by lia.
Qed.

End DecoderBlocks.

Lemma conv_blocks_block (kind : string) (i o : Z) (d : bool) (B C H W : Z) :
  String.eqb kind "conv3x3" = false ->
  Shape.conv_blocks kind [i; o] [true; d] (B, C, H, W)
  = if C =? i then Some (B, o, 2 * H, 2 * W) else None.
Proof. intro Hk. unfold Shape.conv_blocks. now rewrite Hk. Qed.

Lemma conv_blocks_conv3x3 (i o : Z) (x : Shape.t) :
  Shape.conv_blocks "conv3x3" [i; o] [] x = Shape.conv2d i o 3 1 1 x.
Proof. now destruct x as [[[b c] h] w]. Qed.







(** C8 as stated fails: four encoder tensors, not three, enter the
    decoder's concatenations. *)
Lemma C8_counterexample :
  exists t : Dataflow.term,
    Dataflow.decoder (unet121 1 true false false) = Some (Single t)
    /\ Dataflow.skips t
       = [ Dataflow.Var "out_conv1"; Dataflow.Var "tb_denseblock1";
           Dataflow.Var "tb_denseblock2"; Dataflow.Var "tb_denseblock3" ]
    /\ ~ retains_three_skips t.
Proof.
  eexists. split; [reflexivity|]. split; [reflexivity|].
  unfold retains_three_skips. simpl. discriminate.
Qed.

(** C8, amended. The encoder is the stem (two convolutions, each with
    batch norm and activation), then four dense blocks with a transition
    and a pooling after each of the first three, then a batch norm and
    an activation.  On an input of at least 31 by 31 pixels the stem
    activation [out_conv1], the three transition outputs and the
    encoder output have strictly decreasing heights and widths; the
    encoder returns them in inference mode and in training mode, there
    provided the encoder output has more than one value per channel,
    for a dropout rate of at most one.  Four encoder tensors are kept
    for the decoder's skip connections: [out_conv1] and the three
    transition outputs [tb_denseblock1], [tb_denseblock2],
    [tb_denseblock3]. *)
Theorem C8_encoder_stack_and_skips
        (d_block : Z -> Z -> bool -> bool -> nn.module)
        (training : bool)
        (foreign : string -> list Z -> list bool -> Shape.t -> option Shape.t)
        (input_nc output_nc g n1 n2 n3 n4 nif bn : Z) (dr : Q) (num_classes : Z)
        (dropout trick : bool) (outputSize : Z * Z) (semantics : bool)
        (B H W : Z) :
  0 <= n1 -> 0 <= n2 -> 0 <= n3 -> 0 <= n4 -> 31 <= H -> 31 <= W ->
  (training = true -> B * ((H + 1) / 32) * ((W + 1) / 32) <> 1) ->
  (dr <= 1)%Q ->
  let self := DenseUNet_init d_block input_nc output_nc g [n1; n2; n3; n4] nif
                             bn dr num_classes dropout true trick
                             outputSize semantics in
  map fst (features self)
  = [ "conv0"; "norm0"; "relu0"; "downconv0"; "norm1"; "relu1";
      "denseblock1"; "transition1"; "transition1pool";
      "denseblock2"; "transition2"; "transition2pool";
      "denseblock3"; "transition3"; "transition3pool";
      "denseblock4"; "norm5" ]
  /\ (exists e : encoded Shape.t,
        let height := size2 Shape.t Shape.size in
        let width := size3 Shape.t Shape.size in
        forward_encoder (Shape.call training foreign) self (B, input_nc, H, W)
        = Some e
        /\ height (out e) = (H + 1) / 32 /\ width (out e) = (W + 1) / 32
        /\ 1 <= height (out e) < height (tb_denseblock3 e)
        /\ height (tb_denseblock3 e) < height (tb_denseblock2 e)
        /\ height (tb_denseblock2 e) < height (tb_denseblock1 e)
        /\ height (tb_denseblock1 e) < height (out_conv1 e) < H
        /\ 1 <= width (out e) < width (tb_denseblock3 e)
        /\ width (tb_denseblock3 e) < width (tb_denseblock2 e)
        /\ width (tb_denseblock2 e) < width (tb_denseblock1 e)
        /\ width (tb_denseblock1 e) < width (out_conv1 e) < W)
  /\ (exists r : output Dataflow.term,
        Dataflow.decoder self = Some r
        /\ Dataflow.skips (regression r)
           = [ Dataflow.Var "out_conv1"; Dataflow.Var "tb_denseblock1";
               Dataflow.Var "tb_denseblock2"; Dataflow.Var "tb_denseblock3" ]).
Proof.
  intros Hn1 Hn2 Hn3 Hn4 HH HW HS HD self.
  destruct (encoder_heights H HH) as (Eh1 & Eh2 & Eh3 & Eh4 & Eh5 & Hh5).
  destruct (encoder_heights W HW) as (Ew1 & Ew2 & Ew3 & Ew4 & Ew5 & Hw5).
  split; [reflexivity|]. split.
  - eexists. cbv zeta. split.
    + apply forward_encoder_shapes; try assumption.
      now rewrite Eh2, Ew2, Eh5, Ew5.
    + pose proof (encoder_resolutions H HH) as HrH.
      pose proof (encoder_resolutions W HW) as HrW.
      cbv zeta in HrH, HrW. cbn [out_conv1 tb_denseblock1 tb_denseblock2
                                 tb_denseblock3 out size2 size3 Shape.size].
      split; [now rewrite Eh2, Eh5|].
      split; [now rewrite Ew2, Ew5|].
      intuition lia.
  - subst self.
    destruct semantics, trick; eexists; (split; [vm_compute; reflexivity|]);
      reflexivity.
Qed.

Lemma C8_witness :
  (0 <= 6 /\ 0 <= 12 /\ 0 <= 24 /\ 0 <= 16 /\ 31 <= 256 /\ 31 <= 512
   /\ (true = true -> 1 * ((256 + 1) / 32) * ((512 + 1) / 32) <> 1)
   /\ (0 <= 1)%Q) /\
  exists e : encoded Shape.t,
    forward_encoder (Shape.call true Shape.conv_blocks)
                    (unet121 1 true false false) (1, 3, 256, 512) = Some e
    /\ 1 <= size2 Shape.t Shape.size (out e)
          < size2 Shape.t Shape.size (tb_denseblock3 e).
Proof.
  split; [repeat split; try lia; try discriminate;
          intros _; vm_compute; discriminate|].
  destruct (C8_encoder_stack_and_skips
              (get_decoder_block "basic") true Shape.conv_blocks
              3 1 32 6 12 24 16 64 4 0 1000 false false (427, 571) false
              1 256 512) as (_ & (e & He & _ & _ & Hh & _) & _);
    try lia; try discriminate.
  exists e. split; [exact He | exact Hh].
Defined.

(** ** The fixed-size resampling *)

(** Whatever [forward] returns with [bilinear_trick] set, it returns
    with the flag cleared: the result of [self.upsample] is stored in
    [out], which is not read again. *)
Lemma bilinear_trick_changes_no_output
      (M T : Type) (call : M -> T -> option T) (cat : T -> T -> option T)
      (self : DenseUNet M) (x : T) (r : output T) :
  forward call cat self x = Some r ->
  forward call cat (set_bilinear_trick false self) x = Some r.
Proof.
  unfold forward. intro H. apply bind_Some in H. destruct H as (e & He & H).
  change (forward_encoder call (set_bilinear_trick false self) x)
    with (forward_encoder call self x).
  rewrite He. cbn [bind]. revert H.
  unfold forward_decoder, get_decoder_input.
  cbn [set_bilinear_trick use_skips bilinear_trick use_semantics decoder
       decoder_sem last_conv last_conv_sem upsample Tanh].
  intro H. split_run H.
  destruct (use_semantics self); [split_run H|];
    repeat match goal with
           | E : ?c = Some _, E' : ?c = Some _ |- _ =>
               rewrite E in E'; injection E' as <-
           end;
    repeat match goal with
           | E : ?c = Some _ |- context [?c] => rewrite E; cbn [bind]
           end;
    congruence.
Qed.

(** C4 on the code.  In the [denseUnet121] model built with
    [bilinear_trick=True] and [outputSize=[427, 571]], [forward] hands
    the output of [d_block4] (256 channels) to [self.upsample] and drops
    the result.  With one output channel the refinement convolution of
    [self.upsample] rejects the 256 channels and [forward] raises; with
    256 output channels it accepts them and the regression output has
    the 256x256 resolution of the input, not 427x571.  In neither case
    does the regression output pass through [self.upsample].  This is
    so in training mode and in inference mode. *)
Theorem C4_bilinear_trick_output_not_resized (training : bool) :
  upsample (unet121 1 true true false)
  = Some (nn.Sequential [ ("up_tranf", nn.Upsample (427, 571));
                          ("conv", conv3x3 1 1) ])
  /\ Shape.forward training Shape.conv_blocks (unet121 1 true true false)
                   (1, 3, 256, 256) = None
  /\ Shape.forward training Shape.conv_blocks (unet121 1 true false false)
                   (1, 3, 256, 256) = Some (Single (1, 1, 256, 256))
  /\ Shape.forward training Shape.conv_blocks (unet121 256 true true false)
                   (1, 3, 256, 256) = Some (Single (1, 256, 256, 256))
  /\ exists t : Dataflow.term,
       Dataflow.decoder (unet121 1 true true false) = Some (Single t)
       /\ Dataflow.inputs_of "upsample" t = [].
Proof.
  split; [reflexivity|].
  split; [destruct training; vm_compute; reflexivity|].
  split; [destruct training; vm_compute; reflexivity|].
  split; [destruct training; vm_compute; reflexivity|].
  eexists. split; [vm_compute; reflexivity | reflexivity].
Qed.

(** * Further properties *)

(** ** Dense layers and blocks: lookup, empty blocks, rejected inputs *)

Lemma getattr_map_inj {A M : Type} (f : A -> string * M) (l : list A) (a : A) :
  (forall b, In b l -> fst (f b) = fst (f a) -> b = a) ->
  In a l -> getattr (map f l) (fst (f a)) = Some (snd (f a)).
Proof.
  induction l as [|b l IH]; simpl; intros Hinj Hin; [contradiction|].
  destruct (f b) as [n m] eqn:Eb. simpl.
  destruct (String.eqb_spec n (fst (f a))) as [E|Hne].
  - assert (b = a) by (apply Hinj; [now left | now rewrite Eb]).
    subst b. now rewrite Eb.
  - destruct Hin as [->|Hin]; [rewrite Eb in Hne; now elim Hne|].
    apply IH; auto.
Qed.

(** X1. Looking a layer up by name in a dense block built over [N]
    layers: [denselayer(i+1)] is the layer over [C0 + i * g] channels
    when [0 <= i < N], and no attribute otherwise. *)
Theorem X1_dense_block_lookup (N C0 bn g : Z) (dr : Q) (i : Z) :
  getattr (_DenseBlock_children N C0 bn g dr)
          ("denselayer" ++ Py.str (i + 1))%string
  = if (0 <=? i) && (i <? N)
    then Some (_DenseLayer (C0 + i * g) g bn dr)
    else None.
Proof.
  rewrite DenseBlock_children_spec.
  destruct ((0 <=? i) && (i <? N)) eqn:E.
  - apply (getattr_map_inj (dense_child C0 bn g dr) (Py.range N) i).
    + intros j _ Hj.
      now apply (dense_child_name_inj C0 bn g dr C0 bn g dr).
    + apply In_range. lia.
  - apply getattr_None_not_In. rewrite map_map, in_map_iff.
    intros (j & Hname & Hj).
    apply (dense_child_name_inj C0 bn g dr C0 bn g dr) in Hname.
    apply In_range in Hj. lia.
Qed.

(** X2. A dense block with no layers ([num_layers <= 0]) hands its input
    back unchanged, for every kind of tensor and whatever the modules
    compute. *)
Theorem X2_empty_dense_block_is_identity
        (T : Type) (leaf : nn.module -> T -> option T)
        (cat : T -> T -> option T) (dropout : Q -> bool -> T -> option T)
        (training : bool) (N C0 bn g : Z) (dr : Q) (x : T) :
  N <= 0 ->
  call T leaf cat dropout training (_DenseBlock N C0 bn g dr) x = Some x.
Proof.
  intro HN. unfold _DenseBlock.
  rewrite call_Sequential, DenseBlock_children_spec. unfold Py.range.
  now replace (Z.to_nat N) with 0%nat by lia.
Qed.

Lemma X2_witness :
  -3 <= 0 /\
  Shape.call true Shape.conv_blocks (_DenseBlock (-3) 64 4 32 0) (1, 7, 5, 5)
  = Some (1, 7, 5, 5).
Proof.
  split; [lia|].
  apply (X2_empty_dense_block_is_identity
           Shape.t (Shape.leaf true Shape.conv_blocks) Shape.cat Shape.dropout
           true (-3) 64 4 32 0 (1, 7, 5, 5)).
  lia.
Defined.

Lemma window_out_Some (n k s p m : Z) :
  Shape.window_out n k s p = Some m ->
  0 < s /\ k <= n + 2 * p /\ m = (n + 2 * p - k) / s + 1.
Proof.
  unfold Shape.window_out.
  destruct (0 <? s) eqn:Es; [|discriminate].
  destruct (k <=? n + 2 * p) eqn:Ek; [|discriminate].
  cbn [andb]. intro E. injection E as <-.
  repeat split; lia.
Qed.

Lemma DenseLayer_shape_inv
      (training : bool)
      (foreign : string -> list Z -> list bool -> Shape.t -> option Shape.t)
      (C g bn : Z) (dr : Q) (B C' H W : Z) (y : Shape.t) :
  Shape.call training foreign (_DenseLayer C g bn dr) (B, C', H, W) = Some y ->
  C' = C /\ 1 <= H /\ 1 <= W
  /\ (training = true -> B * H * W <> 1) /\ (dr <= 1)%Q
  /\ y = (B, C + g, H, W).
Proof.
  intro E.
  assert (Hpre : C' = C /\ 1 <= H /\ 1 <= W).
  { revert E. unfold Shape.call, _DenseLayer. rewrite call_DenseLayer.
    cbn [Sequential_forward add_module String.eqb Ascii.eqb Bool.eqb
         call Shape.leaf Shape.batch_norm].
    destruct (Z.eqb_spec C' C) as [->|Hne]; [|discriminate].
    destruct (training && (B * H * W =? 1)); [discriminate|].
    cbn [bind Shape.leaf Shape.conv2d]. rewrite Z.eqb_refl.
    destruct (Shape.window_out H 1 1 0) as [h|] eqn:Eh; [|discriminate].
    destruct (Shape.window_out W 1 1 0) as [w|] eqn:Ew; [|discriminate].
    apply window_out_Some in Eh, Ew. intros _. lia. }
  destruct Hpre as (-> & HH & HW).
  rewrite DenseLayer_shape_exact in E by assumption.
  destruct (Shape.single_value training B H W) eqn:S; [discriminate E|].
  destruct (Qle_bool dr 1) eqn:D; [|discriminate E].
  injection E as <-.
  pose proof (proj1 (single_value_false _ _ _ _) S) as S'.
  apply Qle_bool_iff in D.
  repeat (split; [solve [reflexivity | assumption]|]). reflexivity.
Qed.

(** X3. On shapes a dense layer built over [C] channels returns exactly
    for the inputs with [C] channels and at least one row and one
    column, provided that the dropout rate is at most one and that, in
    training mode, the input has more than one value per channel; every
    other call raises.  What it returns has [g] more channels and the
    same batch size, height and width. *)
Theorem X3_dense_layer_accepts
        (training : bool)
        (foreign : string -> list Z -> list bool -> Shape.t -> option Shape.t)
        (C g bn : Z) (dr : Q) (B C' H W : Z) (y : Shape.t) :
  Shape.call training foreign (_DenseLayer C g bn dr) (B, C', H, W) = Some y
  <-> C' = C /\ 1 <= H /\ 1 <= W
      /\ (training = true -> B * H * W <> 1) /\ (dr <= 1)%Q
      /\ y = (B, C + g, H, W).
Proof.
  split.
  - apply DenseLayer_shape_inv.
  - intros (-> & HH & HW & HS & HD & ->). now apply DenseLayer_shape.
Qed.

Lemma DenseBlock_shape_inv
      (training : bool)
      (foreign : string -> list Z -> list bool -> Shape.t -> option Shape.t)
      (N C0 g bn : Z) (dr : Q) (B C' H W : Z) (y : Shape.t) :
  1 <= N ->
  Shape.call training foreign (_DenseBlock N C0 bn g dr) (B, C', H, W)
  = Some y ->
  C' = C0 /\ 1 <= H /\ 1 <= W
  /\ (training = true -> B * H * W <> 1) /\ (dr <= 1)%Q
  /\ y = (B, C0 + N * g, H, W).
Proof.
  intros HN E.
  assert (Hpre : C' = C0 /\ 1 <= H /\ 1 <= W
                 /\ (training = true -> B * H * W <> 1) /\ (dr <= 1)%Q).
  { revert E. unfold Shape.call, _DenseBlock.
    rewrite call_Sequential, DenseBlock_children_spec. unfold Py.range.
    destruct (Z.to_nat N) as [|n] eqn:En; [lia|].
    cbn [seq map Sequential_forward dense_child].
    fold (Shape.call training foreign).
    destruct (Shape.call training foreign
                         (_DenseLayer (C0 + Z.of_nat 0 * g) g bn dr)
                         (B, C', H, W)) as [z|] eqn:Ez; [|discriminate].
    apply DenseLayer_shape_inv in Ez. intros _.
    destruct Ez as (-> & HH & HW & HS & HD & _).
    repeat (split; [solve [lia | assumption]|]). assumption. }
  destruct Hpre as (-> & HH & HW & HS & HD).
  rewrite DenseBlock_shape in E by (assumption || lia).
  injection E as <-.
  repeat (split; [solve [reflexivity | assumption]|]). reflexivity.
Qed.

(** X4. On shapes a dense block of at least one layer built over [C0]
    channels returns exactly for the inputs with [C0] channels and at
    least one row and one column, provided that the dropout rate is at
    most one and that, in training mode, the input has more than one
    value per channel; every other call raises.  It returns
    [C0 + N * g] channels at the same batch size, height and width. *)
Theorem X4_dense_block_accepts
        (training : bool)
        (foreign : string -> list Z -> list bool -> Shape.t -> option Shape.t)
        (N C0 g bn : Z) (dr : Q) (B C' H W : Z) (y : Shape.t) :
  1 <= N ->
  (Shape.call training foreign (_DenseBlock N C0 bn g dr) (B, C', H, W)
   = Some y
   <-> C' = C0 /\ 1 <= H /\ 1 <= W
       /\ (training = true -> B * H * W <> 1) /\ (dr <= 1)%Q
       /\ y = (B, C0 + N * g, H, W)).
Proof.
  intro HN. split.
  - now apply DenseBlock_shape_inv.
  - intros (-> & HH & HW & HS & HD & ->). apply DenseBlock_shape; auto; lia.
Qed.

Lemma X4_witness :
  1 <= 16 /\
  (Shape.call true Shape.conv_blocks (_DenseBlock 16 512 4 32 0)
              (1, 512, 1, 1) = Some (1, 1024, 1, 1)
   <-> 512 = 512 /\ 1 <= 1 /\ 1 <= 1
       /\ (true = true -> 1 * 1 * 1 <> 1) /\ (0 <= 1)%Q
       /\ (1, 1024, 1, 1) = (1, 512 + 16 * 32, 1, 1))
  /\ Shape.call true Shape.conv_blocks (_DenseBlock 16 512 4 32 0)
                (1, 512, 1, 1) = None
  /\ Shape.call false Shape.conv_blocks (_DenseBlock 16 512 4 32 0)
                (1, 512, 1, 1) = Some (1, 1024, 1, 1).
Proof.
  split; [lia|].
  split; [|split; vm_compute; reflexivity].
  apply (X4_dense_block_accepts true Shape.conv_blocks 16 512 32 4 0
                                1 512 1 1).
  lia.
Defined.

(** ** Indexing and [center_crop] beyond the in-range case *)

Lemma slice_len_bounds (n a b : Z) :
  0 <= n -> 0 <= Py.slice_len n a b <= n.
Proof.
  intro Hn. unfold Py.slice_len.
  pose proof (slice_bound_range n a Hn). pose proof (slice_bound_range n b Hn).
  lia.
Qed.

Lemma nth_z_slice_any {A : Type} (s : list A) (a b i : Z) :
  0 <= i < Py.slice_len (Z.of_nat (List.length s)) a b ->
  Tensor.nth_z (Py.slice a b s) i
  = Tensor.nth_z s (Py.slice_bound (Z.of_nat (List.length s)) a + i).
Proof.
  intro Hi. unfold Py.slice_len in Hi. unfold Tensor.nth_z, Py.slice.
  set (n := Z.of_nat (List.length s)) in *.
  assert (Hn : 0 <= n) by lia.
  pose proof (slice_bound_range n a Hn). pose proof (slice_bound_range n b Hn).
  replace (i <? 0) with false by lia.
  replace (Py.slice_bound n a + i <? 0) with false by lia.
  rewrite nth_error_firstn, nth_error_skipn.
  replace (Z.to_nat i <? Z.to_nat (Py.slice_bound n b - Py.slice_bound n a))%nat
    with true by (symmetry; apply Nat.ltb_lt; lia).
  f_equal. lia.
Qed.

Section IndexHW.

Variable A : Type.
Variable x : Tensor.t A.
Variables B C H W : Z.
Hypothesis Hsize : Tensor.size x = (B, C, H, W).
Hypothesis Hwf : Tensor.wf x.
Variables a b c d : Z.

Lemma index_hw_size :
  Tensor.size (Tensor.index_hw x a b c d)
  = (B, C, Py.slice_len H a b, Py.slice_len W c d).
Proof. unfold Tensor.index_hw. now rewrite Hsize. Qed.

Lemma index_hw_wf : Tensor.wf (Tensor.index_hw x a b c d).
Proof.
  unfold Tensor.wf. rewrite index_hw_size.
  unfold Tensor.index_hw. rewrite Hsize. cbn [Tensor.data].
  unfold Tensor.wf in Hwf. rewrite Hsize in Hwf.
  destruct Hwf as [Hb Himgs]. unfold Tensor.has_len in *. split.
  - now rewrite length_map.
  - apply Forall_map. eapply Forall_impl; [|exact Himgs].
    intros img [Hc Hplanes]. split; [now rewrite length_map|].
    apply Forall_map. eapply Forall_impl; [|exact Hplanes].
    intros plane [Hrows Hcols]. split.
    + now rewrite length_map, slice_length, Hrows.
    + apply Forall_map, Forall_forall. intros row Hrow.
      apply In_slice in Hrow. rewrite Forall_forall in Hcols.
      now rewrite slice_length, (Hcols row Hrow).
Qed.

Lemma index_hw_entry (n ch i j : Z) :
  0 <= i < Py.slice_len H a b -> 0 <= j < Py.slice_len W c d ->
  Tensor.entry (Tensor.index_hw x a b c d) n ch i j
  = Tensor.entry x n ch (Py.slice_bound H a + i) (Py.slice_bound W c + j).
Proof.
  intros Hi Hj. unfold Tensor.index_hw. rewrite Hsize.
  unfold Tensor.wf in Hwf. rewrite Hsize in Hwf.
  destruct Hwf as [_ Himgs]. rewrite Forall_forall in Himgs.
  unfold Tensor.entry. cbn [Tensor.data]. rewrite nth_z_map.
  destruct (Tensor.nth_z (Tensor.data x) n) as [img|] eqn:Eimg;
    [|reflexivity].
  cbn [option_map bind]. rewrite nth_z_map.
  destruct (Himgs img (nth_z_In _ _ _ Eimg)) as [_ Hplanes].
  rewrite Forall_forall in Hplanes.
  destruct (Tensor.nth_z img ch) as [plane|] eqn:Eplane; [|reflexivity].
  cbn [option_map bind]. rewrite nth_z_map.
  destruct (Hplanes plane (nth_z_In _ _ _ Eplane)) as [Hrows Hcols].
  rewrite Forall_forall in Hcols. unfold Tensor.has_len in *.
  rewrite nth_z_slice_any by (now rewrite Hrows). rewrite Hrows.
  destruct (Tensor.nth_z plane (Py.slice_bound H a + i)) as [row|] eqn:Erow;
    [|reflexivity].
  cbn [option_map bind].
  pose proof (Hcols row (nth_z_In _ _ _ Erow)) as Hlen.
  rewrite nth_z_slice_any by (now rewrite Hlen). now rewrite Hlen.
Qed.

End IndexHW.

Lemma crop_slice (n m : Z) :
  0 <= n -> 0 <= m ->
  Py.slice_len n ((n - m) / 2) ((n - m) / 2 + m) = crop_kept n m
  /\ Py.slice_bound n ((n - m) / 2) = crop_start n m.
Proof.
  intros Hn Hm. unfold Py.slice_len, Py.slice_bound, crop_kept, crop_start.
  destruct (Z.leb_spec m n) as [Hle|Hgt].
  - destruct (center_offset n m) as [H1 H2]; [lia|].
    replace ((n - m) / 2 <? 0) with false by lia.
    replace ((n - m) / 2 + m <? 0) with false by lia. lia.
  - assert (E : (n - m) / 2 = - ((m - n + 1) / 2))
      by (Z.to_euclidean_division_equations; lia).
    assert (Hpos : 1 <= (m - n + 1) / 2 <= m - n)
      by (Z.to_euclidean_division_equations; lia).
    rewrite E.
    replace (- ((m - n + 1) / 2) <? 0) with true by lia.
    replace (- ((m - n + 1) / 2) + m <? 0) with false by lia. lia.
Qed.

(** X5. For any requested height and width that are not negative,
    [center_crop] returns a well-formed tensor that is never larger than
    the layer or the request.  A request within the layer gives the
    centered window.  A requested height above the layer's [H] gives
    the last [min(H, (max_height - H + 1) // 2)] rows instead of the
    whole layer, and likewise for the width. *)
Theorem X5_center_crop_any_request
        (A : Type) (layer : Tensor.t A) (B C H W max_height max_width : Z) :
  Tensor.size layer = (B, C, H, W) ->
  Tensor.wf layer ->
  0 <= H -> 0 <= W -> 0 <= max_height -> 0 <= max_width ->
  let cropped := Tensor.center_crop layer max_height max_width in
  Tensor.size cropped
  = (B, C, crop_kept H max_height, crop_kept W max_width)
  /\ Tensor.wf cropped
  /\ crop_kept H max_height <= Z.min H max_height
  /\ crop_kept W max_width <= Z.min W max_width
  /\ (H < max_height ->
      crop_kept H max_height = Z.min H ((max_height - H + 1) / 2)
      /\ crop_start H max_height + crop_kept H max_height = H)
  /\ forall n c i j : Z,
       0 <= i < crop_kept H max_height ->
       0 <= j < crop_kept W max_width ->
       Tensor.entry cropped n c i j
       = Tensor.entry layer n c (crop_start H max_height + i)
                                (crop_start W max_width + j).
Proof.
  intros Hsize Hwf HH HW Hh Hw cropped.
  destruct (crop_slice H max_height HH Hh) as [Lh Sh].
  destruct (crop_slice W max_width HW Hw) as [Lw Sw].
  assert (E : cropped
              = Tensor.index_hw layer
                  ((H - max_height) / 2) ((H - max_height) / 2 + max_height)
                  ((W - max_width) / 2) ((W - max_width) / 2 + max_width)).
  { unfold cropped, Tensor.center_crop, center_crop, Py.floordiv.
    now rewrite Hsize. }
  rewrite E. split; [|split; [|split; [|split; [|split]]]].
  - rewrite (index_hw_size A layer B C H W Hsize). now rewrite Lh, Lw.
  - now apply (index_hw_wf A layer B C H W).
  - rewrite <- Lh. unfold crop_kept in Lh.
    pose proof (slice_len_bounds H ((H - max_height) / 2)
                  ((H - max_height) / 2 + max_height) HH).
    destruct (Z.leb_spec max_height H); lia.
  - rewrite <- Lw. unfold crop_kept in Lw.
    pose proof (slice_len_bounds W ((W - max_width) / 2)
                  ((W - max_width) / 2 + max_width) HW).
    destruct (Z.leb_spec max_width W); lia.
  - intro Hover. unfold crop_kept, crop_start.
    destruct (Z.leb_spec max_height H); lia.
  - intros n c i j Hi Hj. rewrite <- Sh, <- Sw.
    apply (index_hw_entry A layer B C H W Hsize Hwf); now rewrite ?Lh, ?Lw.
Qed.

Lemma X5_witness :
  (Tensor.size sample_layer = (1, 1, 4, 5)
   /\ 0 <= 4 /\ 0 <= 5 /\ 0 <= 7 /\ 0 <= 3) /\
  Tensor.center_crop sample_layer 7 3
  = {| Tensor.size := (1, 1, 2, 3);
       Tensor.data := [[[ [12; 13; 14]; [17; 18; 19] ]]] |} /\
  Tensor.size (Tensor.center_crop sample_layer 7 3)
  = (1, 1, crop_kept 4 7, crop_kept 5 3).
Proof.
  split; [repeat split; lia|]. split; [reflexivity|].
  apply (X5_center_crop_any_request Z sample_layer 1 1 4 5 7 3 eq_refl);
    [unfold Tensor.wf, Tensor.has_len; simpl; repeat (split || constructor)
    | lia ..].
Defined.

Lemma slice_window {A : Type} (a k : Z) (s : list A) :
  0 <= a -> 0 <= k -> a + k <= Z.of_nat (List.length s) ->
  Py.slice a (a + k) s = firstn (Z.to_nat k) (skipn (Z.to_nat a) s).
Proof.
  intros Ha Hk Hn. unfold Py.slice. rewrite !slice_bound_id by lia.
  now replace (a + k - a) with k by lia.
Qed.

Lemma slice_all {A : Type} (n : Z) (s : list A) :
  Z.of_nat (List.length s) = n -> Py.slice 0 (0 + n) s = s.
Proof.
  intro Hn. rewrite slice_window by lia. simpl skipn.
  replace (Z.to_nat n) with (List.length s) by lia. apply firstn_all.
Qed.

Lemma slice_map {A B : Type} (f : A -> B) (a b : Z) (s : list A) :
  Py.slice a b (map f s) = map f (Py.slice a b s).
Proof. unfold Py.slice. now rewrite length_map, skipn_map, firstn_map. Qed.

Lemma slice_slice {A : Type} (a k b m : Z) (s : list A) :
  0 <= a -> 0 <= k -> a + k <= Z.of_nat (List.length s) ->
  0 <= b -> 0 <= m -> b + m <= k ->
  Py.slice b (b + m) (Py.slice a (a + k) s) = Py.slice (a + b) (a + b + m) s.
Proof.
  intros Ha Hk Hn Hb Hm Hbm.
  assert (Hlen : Z.of_nat (List.length (Py.slice a (a + k) s)) = k).
  { rewrite slice_length. apply slice_len_window; lia. }
  rewrite (slice_window b m) by lia.
  rewrite (slice_window a k) by lia.
  rewrite (slice_window (a + b) m) by lia.
  rewrite skipn_firstn_comm, skipn_skipn, firstn_firstn.
  f_equal; [lia | f_equal; lia].
Qed.

Section CropTwice.

Variable A : Type.
Variable layer : Tensor.t A.
Variables B C H W : Z.
Hypothesis Hsize : Tensor.size layer = (B, C, H, W).
Hypothesis Hwf : Tensor.wf layer.

(** Two nested windows of the two spatial axes are one window. *)
Lemma index_hw_twice (a k c l a' k' c' l' : Z) :
  0 <= a -> 0 <= k -> a + k <= H -> 0 <= c -> 0 <= l -> c + l <= W ->
  0 <= a' -> 0 <= k' -> a' + k' <= k -> 0 <= c' -> 0 <= l' -> c' + l' <= l ->
  Tensor.index_hw (Tensor.index_hw layer a (a + k) c (c + l))
                  a' (a' + k') c' (c' + l')
  = Tensor.index_hw layer (a + a') (a + a' + k') (c + c') (c + c' + l').
Proof.
  intros. unfold Tensor.index_hw at 1 2. rewrite Hsize.
  cbn [Tensor.size Tensor.data]. unfold Tensor.index_hw. rewrite Hsize.
  rewrite (slice_len_window H a k), (slice_len_window W c l) by lia.
  rewrite !slice_len_window by lia.
  f_equal. rewrite map_map.
  unfold Tensor.wf in Hwf. rewrite Hsize in Hwf. destruct Hwf as [_ Himgs].
  rewrite Forall_forall in Himgs.
  apply map_ext_in. intros img Himg. rewrite map_map.
  destruct (Himgs img Himg) as [_ Hplanes]. rewrite Forall_forall in Hplanes.
  apply map_ext_in. intros plane Hplane.
  destruct (Hplanes plane Hplane) as [Hrows Hcols].
  unfold Tensor.has_len in *. rewrite Forall_forall in Hcols.
  rewrite slice_map, map_map, slice_slice by lia.
  apply map_ext_in. intros row Hrow. apply In_slice in Hrow.
  apply slice_slice; try lia. rewrite (Hcols row Hrow). lia.
Qed.

End CropTwice.

(** X6. Cropping a well-formed tensor to its own height and width
    returns it unchanged. *)
Theorem X6_center_crop_to_own_size
        (A : Type) (layer : Tensor.t A) (B C H W : Z) :
  Tensor.size layer = (B, C, H, W) ->
  Tensor.wf layer ->
  0 <= H -> 0 <= W ->
  Tensor.center_crop layer H W = layer.
Proof.
  intros Hsize Hwf HH HW.
  unfold Tensor.center_crop, center_crop, Py.floordiv. rewrite Hsize.
  rewrite !Z.sub_diag. change (0 / 2) with 0.
  unfold Tensor.index_hw. rewrite Hsize.
  rewrite !slice_len_window by lia.
  destruct layer as [sz dat]. cbn [Tensor.size Tensor.data] in *.
  subst sz. f_equal.
  unfold Tensor.wf in Hwf. cbn [Tensor.size Tensor.data] in Hwf.
  destruct Hwf as [_ Himgs]. rewrite Forall_forall in Himgs.
  rewrite <- (map_id dat) at 2. apply map_ext_in. intros img Himg.
  destruct (Himgs img Himg) as [_ Hplanes]. rewrite Forall_forall in Hplanes.
  rewrite <- (map_id img) at 2. apply map_ext_in. intros plane Hplane.
  destruct (Hplanes plane Hplane) as [Hrows Hcols].
  rewrite Forall_forall in Hcols. unfold Tensor.has_len in *.
  rewrite (slice_all H plane Hrows).
  rewrite <- (map_id plane) at 2. apply map_ext_in. intros row Hrow.
  apply slice_all. now apply Hcols.
Qed.

Lemma X6_witness :
  (Tensor.size sample_layer = (1, 1, 4, 5) /\ 0 <= 4 /\ 0 <= 5) /\
  Tensor.center_crop sample_layer 4 5 = sample_layer.
Proof.
  split; [repeat split; lia|].
  apply (X6_center_crop_to_own_size Z sample_layer 1 1 4 5 eq_refl);
    [unfold Tensor.wf, Tensor.has_len; simpl; repeat (split || constructor)
    | lia ..].
Defined.

(** X7. Cropping to [(h1, w1)] and then to [(h2, w2)] is cropping to
    [(h2, w2)] at once, provided that along each axis one of the two
    amounts cut away is even. *)
Theorem X7_center_crop_twice
        (A : Type) (layer : Tensor.t A) (B C H W h1 w1 h2 w2 : Z) :
  Tensor.size layer = (B, C, H, W) ->
  Tensor.wf layer ->
  0 <= h2 <= h1 -> h1 <= H -> 0 <= w2 <= w1 -> w1 <= W ->
  (H - h1) mod 2 = 0 \/ (h1 - h2) mod 2 = 0 ->
  (W - w1) mod 2 = 0 \/ (w1 - w2) mod 2 = 0 ->
  Tensor.center_crop (Tensor.center_crop layer h1 w1) h2 w2
  = Tensor.center_crop layer h2 w2.
Proof.
  intros Hsize Hwf Hh2 Hh1 Hw2 Hw1 Ph Pw.
  assert (E1 : Tensor.center_crop layer h1 w1
               = Tensor.index_hw layer ((H - h1) / 2) ((H - h1) / 2 + h1)
                                       ((W - w1) / 2) ((W - w1) / 2 + w1)).
  { unfold Tensor.center_crop, center_crop, Py.floordiv. now rewrite Hsize. }
  assert (E2 : Tensor.center_crop layer h2 w2
               = Tensor.index_hw layer ((H - h2) / 2) ((H - h2) / 2 + h2)
                                       ((W - w2) / 2) ((W - w2) / 2 + w2)).
  { unfold Tensor.center_crop, center_crop, Py.floordiv. now rewrite Hsize. }
  destruct (center_offset H h1) as [? ?]; [lia|].
  destruct (center_offset W w1) as [? ?]; [lia|].
  destruct (center_offset h1 h2) as [? ?]; [lia|].
  destruct (center_offset w1 w2) as [? ?]; [lia|].
  assert (S1 : Tensor.size (Tensor.center_crop layer h1 w1) = (B, C, h1, w1)).
  { rewrite E1, (index_hw_size A layer B C H W Hsize).
    now rewrite !slice_len_window by lia. }
  unfold Tensor.center_crop at 1. unfold center_crop, Py.floordiv.
  rewrite S1, E1, E2.
  rewrite (index_hw_twice A layer B C H W Hsize Hwf) by lia.
  replace ((H - h1) / 2 + (h1 - h2) / 2) with ((H - h2) / 2)
    by (Z.to_euclidean_division_equations; lia).
  replace ((W - w1) / 2 + (w1 - w2) / 2) with ((W - w2) / 2)
    by (Z.to_euclidean_division_equations; lia).
  reflexivity.
Qed.

Lemma X7_witness :
  (Tensor.size sample_layer = (1, 1, 4, 5)
   /\ 0 <= 1 <= 3 /\ 3 <= 4 /\ 0 <= 1 <= 3 /\ 3 <= 5
   /\ ((4 - 3) mod 2 = 0 \/ (3 - 1) mod 2 = 0)
   /\ ((5 - 3) mod 2 = 0 \/ (3 - 1) mod 2 = 0)) /\
  Tensor.center_crop (Tensor.center_crop sample_layer 3 3) 1 1
  = Tensor.center_crop sample_layer 1 1.
Proof.
  split; [repeat split; try lia; right; reflexivity|].
  apply (X7_center_crop_twice Z sample_layer 1 1 4 5 3 3 1 1 eq_refl);
    [unfold Tensor.wf, Tensor.has_len; simpl; repeat (split || constructor)
    | lia | lia | lia | lia | right; reflexivity | right; reflexivity].
Defined.

(** ** Transition-up: when it raises *)

Lemma TransitionUp_forward_steps
      (T : Type) (leaf : nn.module -> T -> option T)
      (cat : T -> T -> option T) (dropout : Q -> bool -> T -> option T)
      (size : T -> Z * Z * Z * Z) (index_hw : T -> Z -> Z -> Z -> Z -> T)
      (training : bool) (nin nout : Z) (x skip : T) :
  TransitionUp_forward T leaf cat dropout size index_hw training
                       (_TransitionUp nin nout) x skip
  = (halved <- call T leaf cat dropout training
                    (_Transition nin (nin / 2)) x ;;
     upsampled <- leaf (UpsampleBlock (nin / 2) (nin / 2)) halved ;;
     joined <- cat (center_crop T size index_hw upsampled
                                (size2 T size skip) (size3 T size skip))
                   skip ;;
     projected <- call T leaf cat dropout training
                       (_Transition nin nout) joined ;;
     Some ([size2 T size upsampled; size2 T size skip], projected)).
Proof.
  unfold TransitionUp_forward.
  change (transition_upsample (_TransitionUp nin nout))
    with (nn.Sequential
            [ ("d_transition1", _Transition nin (nin / 2));
              ("upsample", UpsampleBlock (nin / 2) (nin / 2)) ]).
  change (last_transition (_TransitionUp nin nout))
    with (nn.Sequential [ ("d_transition2", _Transition nin nout) ]).
  rewrite call_Sequential. cbn [Sequential_forward].
  unfold bind at 1 2.
  destruct (call T leaf cat dropout training _ x) as [halved|];
    [|reflexivity].
  cbn [bind].
  change (call T leaf cat dropout training
               (UpsampleBlock (nin / 2) (nin / 2)) halved)
    with (leaf (UpsampleBlock (nin / 2) (nin / 2)) halved).
  destruct (leaf _ halved) as [upsampled|]; [|reflexivity].
  cbn [bind]. destruct (cat _ skip) as [joined|]; [|reflexivity].
  cbn [bind]. rewrite call_Sequential. cbn [Sequential_forward].
  unfold bind.
  destruct (call T leaf cat dropout training _ joined); reflexivity.
Qed.

Lemma Transition_shape_inv
      (training : bool)
      (foreign : string -> list Z -> list bool -> Shape.t -> option Shape.t)
      (n m B C' H W : Z) (y : Shape.t) :
  Shape.call training foreign (_Transition n m) (B, C', H, W) = Some y ->
  C' = n /\ 1 <= H /\ 1 <= W /\ y = (B, m, H, W).
Proof.
  intro E.
  assert (Hpre : C' = n /\ 1 <= H /\ 1 <= W).
  { revert E. unfold Shape.call, _Transition. rewrite call_Sequential.
    cbn [Sequential_forward add_module String.eqb Ascii.eqb Bool.eqb
         call Shape.leaf Shape.batch_norm].
    destruct (Z.eqb_spec C' n) as [->|Hne]; [|discriminate].
    destruct (training && (B * H * W =? 1)); [discriminate|].
    cbn [bind Shape.leaf Shape.conv2d]. rewrite Z.eqb_refl.
    destruct (Shape.window_out H 1 1 0) as [h|] eqn:Eh; [|discriminate].
    destruct (Shape.window_out W 1 1 0) as [w|] eqn:Ew; [|discriminate].
    apply window_out_Some in Eh, Ew. intros _. lia. }
  destruct Hpre as (-> & HH & HW).
  rewrite Transition_shape_exact in E by assumption.
  destruct (Shape.single_value training B H W); [discriminate E|].
  injection E as <-. auto.
Qed.

(** X8. On shapes, with an upsampling block that returns sizes that are
    not negative: whenever transition-up returns, [x] has [nin]
    channels, the upsampled tensor has the batch size of [skip] and is
    at least as high and as wide as [skip], its channels and those of
    [skip] add up to [nin], and the result has [nout] channels at
    exactly the height and width of [skip].  In every other case
    (a shorter or narrower upsampled tensor included) the call raises.
    This holds in training mode and in inference mode. *)
Theorem X8_transition_up_returns_only_if
        (training : bool)
        (foreign : string -> list Z -> list bool -> Shape.t -> option Shape.t)
        (nin nout B Cx H W Bs Cs Hs Ws : Z) (printed : list Z)
        (result : Shape.t) :
  (forall b c h w,
      foreign "UpsampleBlock" [nin / 2; nin / 2] [] (B, nin / 2, H, W)
      = Some (b, c, h, w) -> 0 <= h /\ 0 <= w) ->
  Shape.TransitionUp_forward training foreign (_TransitionUp nin nout)
                             (B, Cx, H, W) (Bs, Cs, Hs, Ws)
  = Some (printed, result) ->
  exists Cu Hu Wu : Z,
    Cx = nin
    /\ foreign "UpsampleBlock" [nin / 2; nin / 2] [] (B, nin / 2, H, W)
       = Some (Bs, Cu, Hu, Wu)
    /\ 1 <= Hs <= Hu /\ 1 <= Ws <= Wu
    /\ Cu + Cs = nin
    /\ printed = [Hu; Hs]
    /\ result = (Bs, nout, Hs, Ws).
Proof.
  intros Hforeign E. unfold Shape.TransitionUp_forward in E.
  rewrite TransitionUp_forward_steps in E.
  fold (Shape.call training foreign) in E. split_run E.
  apply Transition_shape_inv in E0. destruct E0 as (-> & HH & HW & ->).
  unfold UpsampleBlock in E1. cbn [Shape.leaf] in E1.
  destruct v0 as [[[Bu Cu] Hu] Wu].
  destruct (Hforeign _ _ _ _ E1) as [HHu HWu].
  unfold size2, size3 in *. cbn [Shape.size] in *.
  unfold center_crop, Shape.size, Shape.index_hw, Py.floordiv in E2.
  apply cat_shape_inv in E2. cbv beta iota in E2.
  destruct E2 as (-> & Eh & Ew & ->).
  apply Transition_shape_inv in E3. destruct E3 as (EC & HHs & HWs & ->).
  injection E as <- <-.
  pose proof (slice_len_bounds Hu ((Hu - Hs) / 2) ((Hu - Hs) / 2 + Hs) HHu).
  pose proof (slice_len_bounds Wu ((Wu - Ws) / 2) ((Wu - Ws) / 2 + Ws) HWu).
  exists Cu, Hu, Wu. rewrite Eh, Ew in *.
  repeat split; try assumption; try lia.
Qed.

Lemma X8_witness :
  Shape.TransitionUp_forward true Shape.conv_blocks (_TransitionUp 64 24)
                             (1, 64, 8, 8) (1, 32, 15, 13)
  = Some ([16; 15], (1, 24, 15, 13))
  /\ Shape.TransitionUp_forward true Shape.conv_blocks (_TransitionUp 64 24)
                                (1, 64, 8, 8) (1, 32, 17, 13)
     = None
  /\ exists Cu Hu Wu : Z,
       Shape.conv_blocks "UpsampleBlock" [64 / 2; 64 / 2] []
                         (1, 64 / 2, 8, 8) = Some (1, Cu, Hu, Wu)
       /\ 1 <= 15 <= Hu /\ 1 <= 13 <= Wu.
Proof.
  split; [reflexivity|]. split; [reflexivity|].
  destruct (X8_transition_up_returns_only_if
              true Shape.conv_blocks 64 24 1 64 8 8 1 32 15 13
              [16; 15] (1, 24, 15, 13))
    as (Cu & Hu & Wu & _ & Hup & Hh & Hw & _); [| reflexivity |].
  - intros b c h w E. vm_compute in E. injection E as <- <- <- <-. lia.
  - exists Cu, Hu, Wu. auto.
Defined.

(** ** The encoder for any [block_config] *)

Lemma string_forall_app (p : ascii -> bool) (s t : string) :
  string_forall p (s ++ t)%string
  = string_forall p s && string_forall p t.
Proof.
  induction s as [|c s IH]; simpl; [reflexivity|].
  now rewrite IH, andb_assoc.
Qed.

Lemma string_of_uint_digits (d : uint) :
  string_forall is_digit_or_minus (NilEmpty.string_of_uint d) = true.
Proof. induction d; simpl; auto. Qed.

Lemma str_digits (n : Z) : string_forall is_digit_or_minus (Py.str n) = true.
Proof.
  unfold Py.str, NilZero.string_of_int.
  destruct (Z.to_int n) as [d|d]; unfold NilZero.string_of_uint.
  - destruct d; try apply string_of_uint_digits; reflexivity.
  - destruct d; simpl; try apply string_of_uint_digits; reflexivity.
Qed.

Lemma str_not_pool (a b : Z) : Py.str a <> (Py.str b ++ "pool")%string.
Proof.
  intro E. pose proof (str_digits a) as Ha.
  rewrite E, string_forall_app in Ha.
  apply andb_true_iff in Ha. destruct Ha as [_ Ha]. discriminate Ha.
Qed.

Lemma length_append (s t : string) :
  String.length (s ++ t)%string = (String.length s + String.length t)%nat.
Proof. induction s as [|c s IH]; simpl; [reflexivity | now rewrite IH]. Qed.

Lemma append_inv_tail (s s' t : string) :
  (s ++ t)%string = (s' ++ t)%string -> s = s'.
Proof.
  intro E.
  assert (L : String.length s = String.length s').
  { apply (f_equal String.length) in E.
    rewrite !length_append in E. lia. }
  revert s' E L. induction s as [|c s IH]; intros [|c' s'] E L;
    simpl in *; try discriminate; [reflexivity|].
  injection E as -> E. f_equal. apply IH; [assumption | lia].
Qed.

Lemma stem_name_cases (name : string) :
  In name ["conv0"; "norm0"; "relu0"; "downconv0"; "norm1"; "relu1"] ->
  forall s : string,
    name <> ("denseblock" ++ s)%string /\ name <> ("transition" ++ s)%string.
Proof.
  intros Hin s. simpl in Hin.
  repeat (destruct Hin as [<-|Hin]; [split; intro E; discriminate E|]).
  contradiction.
Qed.

Lemma denseblock_fresh (k : Z) (name : string) :
  encoder_name_below k name ->
  name <> ("denseblock" ++ Py.str (k + 1))%string.
Proof.
  intros [Hstem|(j & Hj & [->|[->| ->]])] E.
  - now apply (proj1 (stem_name_cases name Hstem (Py.str (k + 1)))).
  - simpl in E. injection E as E. apply str_inj in E. lia.
  - discriminate E.
  - discriminate E.
Qed.

Lemma transition_fresh (k : Z) (name : string) :
  encoder_name_below k name
  \/ name = ("denseblock" ++ Py.str (k + 1))%string ->
  name <> ("transition" ++ Py.str (k + 1))%string.
Proof.
  intros [[Hstem|(j & Hj & [->|[->| ->]])]| ->] E.
  - now apply (proj2 (stem_name_cases name Hstem (Py.str (k + 1)))).
  - discriminate E.
  - simpl in E. injection E as E. apply str_inj in E. lia.
  - simpl in E. injection E as E. symmetry in E. now apply str_not_pool in E.
  - discriminate E.
Qed.

Lemma pool_fresh (k : Z) (name : string) :
  encoder_name_below k name
  \/ name = ("denseblock" ++ Py.str (k + 1))%string
  \/ name = ("transition" ++ Py.str (k + 1))%string ->
  name <> ("transition" ++ Py.str (k + 1) ++ "pool")%string.
Proof.
  intros [[Hstem|(j & Hj & [->|[->| ->]])]|[->| ->]] E.
  - now apply (proj2 (stem_name_cases name Hstem
                           (Py.str (k + 1) ++ "pool")%string)).
  - discriminate E.
  - simpl in E. injection E as E. now apply str_not_pool in E.
  - simpl in E. injection E as E. apply append_inv_tail, str_inj in E. lia.
  - discriminate E.
  - simpl in E. injection E as E. now apply str_not_pool in E.
Qed.

Lemma norm5_fresh (k : Z) (name : string) :
  encoder_name_below k name -> name <> "norm5".
Proof.
  intros [Hstem|(j & Hj & [->|[->| ->]])] E; try discriminate E.
  simpl in Hstem.
  repeat (destruct Hstem as [<-|Hstem]; [discriminate E|]). contradiction.
Qed.

Lemma encoder_name_below_mono (k k' : Z) (name : string) :
  k <= k' -> encoder_name_below k name -> encoder_name_below k' name.
Proof.
  intros Hk [Hstem|(j & Hj & Hname)]; [now left|].
  right. exists j. split; [lia | assumption].
Qed.

Lemma encoder_fold (bn g : Z) (dr : Q) (block_config : list Z) :
  forall (k : nat) (acc : list (string * nn.module)) (nf total : Z),
    total = Z.of_nat (k + List.length block_config) ->
    (forall name, In name (map fst acc) ->
                  encoder_name_below (Z.of_nat k) name) ->
    let plan := encoder_plan bn g dr (Z.of_nat k) nf block_config in
    fold_left (encoder_step total bn g dr)
              (combine (map Z.of_nat (seq k (List.length block_config)))
                       block_config)
              (acc, nf)
    = (acc ++ fst plan, snd plan)
    /\ forall name, In name (map fst (acc ++ fst plan)) ->
                    encoder_name_below total name.
Proof.
  induction block_config as [|n rest IH]; intros k acc nf total Htotal Hacc.
  - simpl. rewrite app_nil_r. split; [reflexivity|].
    intros name Hin. apply (encoder_name_below_mono (Z.of_nat k)); [lia|auto].
  - cbn [List.length seq map combine fold_left].
    unfold encoder_step at 2. unfold Py.floordiv.
    assert (A1 : add_module acc ("denseblock" ++ Py.str (Z.of_nat k + 1))
                            (_DenseBlock n nf bn g dr)
                 = acc ++ [(("denseblock" ++ Py.str (Z.of_nat k + 1))%string,
                            _DenseBlock n nf bn g dr)]).
    { apply add_module_fresh. intro Hin.
      exact (denseblock_fresh _ _ (Hacc _ Hin) eq_refl). }
    rewrite !A1.
    destruct rest as [|r rs].
    + (* the last block: no transition *)
      replace (Z.of_nat k =? total - 1) with true
        by (symmetry; apply Z.eqb_eq; simpl in Htotal; lia).
      cbn [negb combine fold_left List.length seq map encoder_plan fst snd].
      split; [reflexivity|].
      intros name Hin. rewrite map_app, in_app_iff in Hin.
      destruct Hin as [Hin|[<-|[]]].
      * apply (encoder_name_below_mono (Z.of_nat k)); [lia|auto].
      * right. exists (Z.of_nat k). split; [simpl in Htotal; lia|auto].
    + replace (Z.of_nat k =? total - 1) with false
        by (symmetry; apply Z.eqb_neq; simpl in Htotal; lia).
      cbn [negb].
      rewrite (add_module_fresh
                 (acc ++ [(("denseblock" ++ Py.str (Z.of_nat k + 1))%string,
                           _DenseBlock n nf bn g dr)])).
      2:{ intro Hin. rewrite map_app, in_app_iff in Hin.
          apply (transition_fresh (Z.of_nat k) _) with (2 := eq_refl).
          destruct Hin as [Hin|[<-|[]]]; [left; auto | now right]. }
      rewrite add_module_fresh.
      2:{ intro Hin. rewrite !map_app, !in_app_iff in Hin.
          apply (pool_fresh (Z.of_nat k) _) with (2 := eq_refl).
          destruct Hin as [[Hin|[<-|[]]]|[<-|[]]]; auto. }
      match goal with
      | |- context [fold_left _ _ (?a, ?f)] => specialize (IH (S k) a f total)
      end.
      destruct IH as [IHfold IHnames].
      * simpl in *. lia.
      * intros name Hin. rewrite !map_app, !in_app_iff in Hin.
        destruct Hin as [[[Hin|[<-|[]]]|[<-|[]]]|[<-|[]]].
        -- apply (encoder_name_below_mono (Z.of_nat k)); [lia|auto].
        -- right. exists (Z.of_nat k). split; [lia|auto].
        -- right. exists (Z.of_nat k). split; [lia|auto].
        -- right. exists (Z.of_nat k). split; [lia|auto].
      * change (encoder_plan bn g dr (Z.of_nat k) nf (n :: r :: rs))
          with (let '(more, out) :=
                  encoder_plan bn g dr (Z.of_nat k + 1) ((nf + n * g) / 2)
                               (r :: rs) in
                ((("denseblock" ++ Py.str (Z.of_nat k + 1))%string,
                  _DenseBlock n nf bn g dr)
                   :: (("transition" ++ Py.str (Z.of_nat k + 1))%string,
                       _Transition (nf + n * g) ((nf + n * g) / 2))
                   :: (("transition" ++ Py.str (Z.of_nat k + 1) ++ "pool")
                         %string, nn.AvgPool2d 2 2)
                   :: more, out)).
        replace (Z.of_nat (S k)) with (Z.of_nat k + 1) in IHfold, IHnames
          by lia.
        destruct (encoder_plan bn g dr (Z.of_nat k + 1) ((nf + n * g) / 2)
                               (r :: rs)) as [more out].
        cbn [fst snd] in *. rewrite IHfold.
        rewrite <- !app_assoc in *. cbn [app] in *. split; [reflexivity|].
        exact IHnames.
Qed.

Lemma encoder_loop
      (input_nc g nif bn : Z) (dr : Q) (block_config : list Z) :
  let plan := encoder_plan bn g dr 0 nif block_config in
  fold_left (encoder_step (Z.of_nat (List.length block_config)) bn g dr)
            (Py.enumerate block_config) (stem input_nc nif, nif)
  = (stem input_nc nif ++ fst plan, snd plan)
  /\ forall name, In name (map fst (stem input_nc nif ++ fst plan)) ->
                  name <> "norm5".
Proof.
  intro plan. unfold Py.enumerate, Py.range. rewrite Nat2Z.id.
  destruct (encoder_fold bn g dr block_config 0 (stem input_nc nif) nif
                         (Z.of_nat (List.length block_config)) eq_refl)
    as [Hfold Hnames].
  - intros name Hin. left. exact Hin.
  - split; [exact Hfold|].
    intros name Hin. exact (norm5_fresh _ _ (Hnames name Hin)).
Qed.

(** X9. For every [block_config], of any length, [self.features] is the
    stem, then each dense block in turn, with a transition to half the
    channels (rounded down) and a 2x2 pooling after every block except
    the last, then [norm5] over the channels that leave the last
    block. *)
Theorem X9_features_for_any_block_config
        (d_block : Z -> Z -> bool -> bool -> nn.module)
        (input_nc output_nc g : Z) (block_config : list Z) (nif bn : Z)
        (dr : Q) (num_classes : Z) (dropout skips trick : bool)
        (outputSize : Z * Z) (semantics : bool) :
  let plan := encoder_plan bn g dr 0 nif block_config in
  features (DenseUNet_init d_block input_nc output_nc g block_config nif bn
                           dr num_classes dropout skips trick outputSize
                           semantics)
  = stem input_nc nif ++ fst plan
      ++ [("norm5", nn.BatchNorm2d (snd plan))].
Proof.
  intro plan. unfold DenseUNet_init.
  destruct (encoder_loop input_nc g nif bn dr block_config)
    as [Hfold Hfresh].
  fold plan in Hfold, Hfresh. unfold stem in Hfold at 1.
  rewrite Hfold. cbn [features].
  rewrite add_module_fresh; [now rewrite app_assoc|].
  intro Hin. exact (Hfresh _ Hin eq_refl).
Qed.

(** ** What [forward] needs from the constructor *)

Lemma forward_encoder_without_denseblock4
      (M T : Type) (call : M -> T -> option T) (self : DenseUNet M) (x : T) :
  getattr (features self) "denseblock4" = None ->
  forward_encoder call self x = None.
Proof.
  intro Hnone.
  assert (H4 : forall y, call_attr call (features self) "denseblock4" y = None)
    by (intro y; unfold call_attr; now rewrite Hnone).
  unfold forward_encoder.
  repeat match goal with
         | |- bind (call_attr _ _ "denseblock4" _) _ = None =>
             rewrite H4; reflexivity
         | |- bind ?c _ = None => destruct c; cbn [bind]; [|reflexivity]
         end.
Qed.

(** X10. A model built from a [block_config] of fewer than four entries
    cannot run: [forward] raises on every input, whatever the modules
    compute, because it asks [self.features] for [denseblock4]. *)
Theorem X10_forward_needs_four_blocks
        (d_block : Z -> Z -> bool -> bool -> nn.module)
        (input_nc output_nc g : Z) (block_config : list Z) (nif bn : Z)
        (dr : Q) (num_classes : Z) (dropout skips trick : bool)
        (outputSize : Z * Z) (semantics : bool)
        (T : Type) (call : nn.module -> T -> option T)
        (cat : T -> T -> option T) (x : T) :
  (List.length block_config < 4)%nat ->
  forward call cat
          (DenseUNet_init d_block input_nc output_nc g block_config nif bn dr
                          num_classes dropout skips trick outputSize
                          semantics) x
  = None.
Proof.
  intro Hlen. unfold forward.
  rewrite forward_encoder_without_denseblock4; [reflexivity|].
  destruct block_config as [|n1 [|n2 [|n3 [|n4 rest]]]];
    [reflexivity .. | simpl in Hlen; lia].
Qed.

Lemma X10_witness :
  (List.length [6; 12; 24] < 4)%nat /\
  Shape.forward true Shape.conv_blocks
    (DenseUNet_init (get_decoder_block "basic") 3 1 32 [6; 12; 24] 64 4 0
                    1000 false true false (427, 571) false)
    (1, 3, 256, 256)
  = None.
Proof.
  split; [simpl; lia|].
  apply (X10_forward_needs_four_blocks
           (get_decoder_block "basic") 3 1 32 [6; 12; 24] 64 4 0 1000
           false true false (427, 571) false
           Shape.t (Shape.call true Shape.conv_blocks) Shape.cat
           (1, 3, 256, 256)).
  simpl; lia.
Defined.

(** X11. Of the five blocks of [self.decoder_sem], [forward] calls only
    [d_block2] and [d_block1]: replacing [self.decoder_sem] by any other
    container with the same two blocks changes no result, so
    [decoder_sem.d_block5], [d_block4] and [d_block3] never contribute
    to an output. *)
Theorem X11_decoder_sem_uses_two_blocks
        (M T : Type) (call : M -> T -> option T) (cat : T -> T -> option T)
        (self : DenseUNet M) (ds ds' : list (string * M)) (x : T) :
  decoder_sem self = Some ds ->
  getattr ds' "d_block2" = getattr ds "d_block2" ->
  getattr ds' "d_block1" = getattr ds "d_block1" ->
  forward call cat (set_decoder_sem (Some ds') self) x
  = forward call cat self x.
Proof.
  intros Hds H2 H1. unfold forward.
  change (forward_encoder call (set_decoder_sem (Some ds') self) x)
    with (forward_encoder call self x).
  destruct (forward_encoder call self x) as [e|]; [|reflexivity].
  cbn [bind]. unfold forward_decoder, get_decoder_input, call_attr.
  cbn [set_decoder_sem use_skips bilinear_trick use_semantics decoder
       decoder_sem last_conv last_conv_sem upsample Tanh].
  rewrite Hds. cbn [bind]. now rewrite H2, H1.
Qed.

Lemma X11_witness :
  decoder_sem (Toy.net (Toy.blocks 1 1 1 1 1)) = Some (Toy.blocks 1 1 1 1 1)
  /\ Fn.forward Toy.cat
       (set_decoder_sem (Some (Toy.blocks 7 8 9 1 1))
                        (Toy.net (Toy.blocks 1 1 1 1 1))) [1]
     = Fn.forward Toy.cat (Toy.net (Toy.blocks 1 1 1 1 1)) [1].
Proof.
  split; [reflexivity|].
  apply (X11_decoder_sem_uses_two_blocks
           (Toy.T -> option Toy.T) Toy.T Fn.call Toy.cat
           (Toy.net (Toy.blocks 1 1 1 1 1))
           (Toy.blocks 1 1 1 1 1) (Toy.blocks 7 8 9 1 1) [1]);
    reflexivity.
Defined.

(** X12. [self.upsample] exists exactly when [bilinear_trick] is set, and
    its target size is always the smaller entry of [outputSize] as
    height and the larger as width: a size given as (larger, smaller)
    is silently swapped.  Its refinement convolution maps [output_nc]
    channels to [output_nc] channels. *)
Theorem X12_upsample_target_is_landscape
        (d_block : Z -> Z -> bool -> bool -> nn.module)
        (input_nc output_nc g : Z) (block_config : list Z) (nif bn : Z)
        (dr : Q) (num_classes : Z) (dropout skips trick : bool)
        (a b : Z) (semantics : bool) :
  upsample (DenseUNet_init d_block input_nc output_nc g block_config nif bn
                           dr num_classes dropout skips trick (a, b)
                           semantics)
  = if trick
    then Some (nn.Sequential
                 [ ("up_tranf", nn.Upsample (Z.min a b, Z.max a b));
                   ("conv", conv3x3 output_nc output_nc) ])
    else None.
Proof.
  unfold DenseUNet_init.
  destruct (fold_left _ (Py.enumerate block_config) _) as [fs nf].
  cbn [upsample fst snd]. destruct trick; [|reflexivity].
  destruct (Z.ltb_spec b a).
  - now rewrite Z.min_r, Z.max_l by lia.
  - now rewrite Z.min_l, Z.max_r by lia.
Qed.

(** X13. Setting [bilinear_trick] can make [forward] raise and can do
    nothing else: on every input, for every kind of tensor, [forward]
    either raises or returns exactly what it returns with the flag
    cleared. *)
Theorem X13_bilinear_trick_only_adds_failure
        (M T : Type) (call : M -> T -> option T) (cat : T -> T -> option T)
        (self : DenseUNet M) (x : T) :
  forward call cat self x = None
  \/ forward call cat self x
     = forward call cat (set_bilinear_trick false self) x.
Proof.
  destruct (forward call cat self x) as [r|] eqn:E; [right | now left].
  symmetry. now apply bilinear_trick_changes_no_output.
Qed.

(** ** Shapes from end to end

    The decoder block class and [conv3x3] are not part of the file.
    What is proved here about whole runs holds for every decoder block
    that maps [inplanes] channels to [outplanes] channels at twice the
    height and width and rejects any other input, and for [conv3x3] as a
    3x3 convolution of stride 1 and padding 1.  The channel counts of
    the decoder are below 2^53, so that [int(num_features / 2)] is
    exact. *)

Lemma encoder_runs_iff (training : bool) (dr : Q) (n1 n2 n3 n4 B h w : Z) :
  Shape.encoder_runs training dr n1 n2 n3 n4 B h w = true
  <-> (training = true -> B * h * w <> 1)
      /\ ((dr <= 1)%Q \/ n1 = 0 /\ n2 = 0 /\ n3 = 0 /\ n4 = 0).
Proof.
  unfold Shape.encoder_runs.
  rewrite andb_true_iff, negb_true_iff, single_value_false, orb_true_iff,
    Qle_bool_iff, !andb_true_iff, !Z.eqb_eq.
  tauto.
Qed.

(** X14. Without skip connections every four-block configuration with
    layer counts that are not negative runs on shapes: for any growth
    rate and widths, an input of [input_nc] channels and at least 31 by
    31 pixels gives a regression output of [output_nc] channels (and,
    with the semantic head, logits of [num_classes] channels) whose
    height and width are the input's plus one, rounded down to a
    multiple of 32.  This holds in inference mode and in training mode,
    there provided the encoder output has more than one value per
    channel, for a dropout rate of at most one. *)
Theorem X14_without_skips_every_configuration_runs
        (training : bool)
        (foreign : string -> list Z -> list bool -> Shape.t -> option Shape.t)
        (kind : string)
        (input_nc output_nc g n1 n2 n3 n4 nif bn : Z) (dr : Q) (num_classes : Z)
        (dropout : bool) (outputSize : Z * Z) (semantics : bool)
        (B H W : Z) :
  (forall (i o : Z) (d : bool) (B C H W : Z),
      foreign kind [i; o] [true; d] (B, C, H, W)
      = if C =? i then Some (B, o, 2 * H, 2 * W) else None) ->
  (forall (i o : Z) (x : Shape.t),
      foreign "conv3x3" [i; o] [] x = Shape.conv2d i o 3 1 1 x) ->
  0 <= n1 -> 0 <= n2 -> 0 <= n3 -> 0 <= n4 -> 31 <= H -> 31 <= W ->
  Py.exact_float ((((nif + n1 * g) / 2 + n2 * g) / 2 + n3 * g) / 2 + n4 * g) ->
  (training = true -> B * ((H + 1) / 32) * ((W + 1) / 32) <> 1) ->
  (dr <= 1)%Q ->
  let self := DenseUNet_init (get_decoder_block kind) input_nc output_nc g
                             [n1; n2; n3; n4] nif bn dr num_classes dropout
                             false false outputSize semantics in
  let out_h := 32 * ((H + 1) / 32) in
  let out_w := 32 * ((W + 1) / 32) in
  Shape.forward training foreign self (B, input_nc, H, W)
  = Some (if semantics
          then Pair (B, output_nc, out_h, out_w) (B, num_classes, out_h, out_w)
          else Single (B, output_nc, out_h, out_w)).
Proof.
  intros Hblock Hconv Hn1 Hn2 Hn3 Hn4 HH HW Hexact HS HD self out_h out_w.
  destruct (encoder_bottleneck H HH) as (Eh2 & Eh5 & Hh5).
  destruct (encoder_bottleneck W HW) as (Ew2 & Ew5 & Hw5).
  unfold Shape.forward, forward.
  unfold self. rewrite forward_encoder_shapes;
    [| assumption .. | now rewrite Eh2, Ew2, Eh5, Ew5 | assumption].
  fold self. cbn [bind]. rewrite Eh2, Ew2, Eh5, Ew5.
  set (h := (H + 1) / 32) in *. set (w := (W + 1) / 32) in *.
  unfold forward_decoder, get_decoder_input, call_attr.
  destruct (decoder_four_blocks (get_decoder_block kind) input_nc output_nc
              g n1 n2 n3 n4 nif bn dr num_classes dropout false false
              outputSize semantics) as (Ed & Es & El & Els & Et & Esk).
  cbv zeta in Ed, Es, El, Els, Et, Esk. fold self in Ed, Es, El, Els, Et, Esk.
  rewrite Ed, El, Et, Esk, Els, Es, Ed.
  change (bilinear_trick self) with false.
  change (use_semantics self) with semantics.
  cbn [out getattr String.eqb Ascii.eqb Bool.eqb bind].
  rewrite !Z.mul_1_r.
  repeat (rewrite (block_call training foreign kind Hblock), Z.eqb_refl;
          cbn [bind]).
  rewrite (conv3x3_call training foreign Hconv), Z.eqb_refl by lia.
  cbn [bind].
  change (Shape.call training foreign nn.Tanh ?x)
    with (Shape.leaf training foreign nn.Tanh x).
  cbn [Shape.leaf bind].
  destruct semantics.
  - cbn [bind getattr String.eqb Ascii.eqb Bool.eqb].
    repeat (rewrite (block_call training foreign kind Hblock), Z.eqb_refl;
            cbn [bind]).
    rewrite (conv3x3_call training foreign Hconv), Z.eqb_refl by lia.
    cbn [bind].
    replace (2 * (2 * (2 * (2 * (2 * h))))) with (32 * h) by lia.
    now replace (2 * (2 * (2 * (2 * (2 * w))))) with (32 * w) by lia.
  - replace (2 * (2 * (2 * (2 * (2 * h))))) with (32 * h) by lia.
    now replace (2 * (2 * (2 * (2 * (2 * w))))) with (32 * w) by lia.
Qed.

Lemma X14_witness :
  (0 <= 6 /\ 0 <= 12 /\ 0 <= 32 /\ 0 <= 32 /\ 31 <= 250 /\ 31 <= 300
   /\ Py.exact_float
        ((((64 + 6 * 32) / 2 + 12 * 32) / 2 + 32 * 32) / 2 + 32 * 32)
   /\ (true = true -> 1 * ((250 + 1) / 32) * ((300 + 1) / 32) <> 1)
   /\ (0 <= 1)%Q) /\
  Shape.forward true Shape.conv_blocks
    (DenseUNet_init (get_decoder_block "basic") 3 1 32 [6; 12; 32; 32] 64 4
                    0 1000 false false false (427, 571) true)
    (1, 3, 250, 300)
  = Some (Pair (1, 1, 32 * ((250 + 1) / 32), 32 * ((300 + 1) / 32))
               (1, 1000, 32 * ((250 + 1) / 32), 32 * ((300 + 1) / 32))).
Proof.
  assert (Hexact : Py.exact_float
            ((((64 + 6 * 32) / 2 + 12 * 32) / 2 + 32 * 32) / 2 + 32 * 32))
    by (vm_compute; reflexivity).
  assert (HS : true = true -> 1 * ((250 + 1) / 32) * ((300 + 1) / 32) <> 1)
    by (intros _; vm_compute; discriminate).
  assert (HD : (0 <= 1)%Q) by discriminate.
  split; [repeat split; try lia; assumption|].
  apply (X14_without_skips_every_configuration_runs
           true Shape.conv_blocks "basic" 3 1 32 6 12 32 32 64 4 0 1000 false
           (427, 571) true 1 250 300);
    try lia; try assumption.
  - intros. now apply conv_blocks_block.
  - intros. apply conv_blocks_conv3x3.
Defined.

(** The decoder doubles the resolution at each block; it meets the four
    skip tensors exactly when the input's size plus one leaves a
    remainder of at most one modulo 32. *)
Lemma alignment (n : Z) :
  0 <= n ->
  ((n + 1) / 16 = 2 * ((n + 1) / 32)
   /\ (n + 1) / 8 = 2 * ((n + 1) / 16)
   /\ (n + 1) / 4 = 2 * ((n + 1) / 8)
   /\ (n + 1) / 2 = 2 * ((n + 1) / 4))
  <-> (n + 1) mod 32 <= 1.
Proof. intro H. Z.to_euclidean_division_equations. lia. Qed.

(** Decide the test at the head of a run of binds; a failed test ends
    the run. *)
Ltac head_test fail_tac :=
  match goal with
  | |- (bind (if (?a =? ?a) && _ && _ then _ else _) _ = _ <-> _) =>
      rewrite (Z.eqb_refl a); cbn [bind andb]
  | |- (bind (if ?a =? ?a then _ else _) _ = _ <-> _) =>
      rewrite (Z.eqb_refl a); cbn [bind andb]
  | |- (bind (if (?a =? ?b) && _ then _ else _) _ = _ <-> _) =>
      destruct (Z.eqb_spec a b); cbn [bind andb]; [|fail_tac]
  | |- (bind (if ?a =? ?b then _ else _) _ = _ <-> _) =>
      destruct (Z.eqb_spec a b); cbn [bind andb]; [|fail_tac]
  end.

(** X15. With skip connections a four-block model with layer counts
    that are not negative returns on shapes, for an input of [input_nc]
    channels and at least 31 by 31 pixels, exactly when (a) each skip
    tensor has as many channels as the decoder output it is
    concatenated with, that is the halved widths of the encoder equal
    the halved widths of the decoder, (b) the input's height plus one
    and width plus one leave a remainder of at most one modulo 32,
    (c) in training mode the encoder output has more than one value per
    channel, and (d) the dropout rate is at most one or no dense block
    has a layer.  The outputs then have the size of (b) rounded down to
    a multiple of 32; in every other case [forward] raises. *)
Theorem X15_with_skips_runs_exactly_when
        (training : bool)
        (foreign : string -> list Z -> list bool -> Shape.t -> option Shape.t)
        (kind : string)
        (input_nc output_nc g n1 n2 n3 n4 nif bn : Z) (dr : Q) (num_classes : Z)
        (dropout : bool) (outputSize : Z * Z) (semantics : bool)
        (B H W : Z) (r : output Shape.t) :
  (forall (i o : Z) (d : bool) (B C H W : Z),
      foreign kind [i; o] [true; d] (B, C, H, W)
      = if C =? i then Some (B, o, 2 * H, 2 * W) else None) ->
  (forall (i o : Z) (x : Shape.t),
      foreign "conv3x3" [i; o] [] x = Shape.conv2d i o 3 1 1 x) ->
  0 <= n1 -> 0 <= n2 -> 0 <= n3 -> 0 <= n4 -> 31 <= H -> 31 <= W ->
  let self := DenseUNet_init (get_decoder_block kind) input_nc output_nc g
                             [n1; n2; n3; n4] nif bn dr num_classes dropout
                             true false outputSize semantics in
  let f1 := nif + n1 * g in
  let f2 := f1 / 2 + n2 * g in
  let f3 := f2 / 2 + n3 * g in
  let f4 := f3 / 2 + n4 * g in
  Py.exact_float f4 ->
  let c5 := Py.int_truediv2 f4 in
  let c4 := Py.int_truediv2 c5 in
  let c3 := Py.int_truediv2 c4 in
  let c2 := Py.int_truediv2 c3 in
  let out_h := 32 * ((H + 1) / 32) in
  let out_w := 32 * ((W + 1) / 32) in
  Shape.forward training foreign self (B, input_nc, H, W) = Some r
  <-> (f3 / 2 = c5 /\ f2 / 2 = c4 /\ f1 / 2 = c3 /\ nif = c2)
      /\ (H + 1) mod 32 <= 1 /\ (W + 1) mod 32 <= 1
      /\ (training = true -> B * ((H + 1) / 32) * ((W + 1) / 32) <> 1)
      /\ ((dr <= 1)%Q \/ n1 = 0 /\ n2 = 0 /\ n3 = 0 /\ n4 = 0)
      /\ r = (if semantics
              then Pair (B, output_nc, out_h, out_w)
                        (B, num_classes, out_h, out_w)
              else Single (B, output_nc, out_h, out_w)).
Proof.
  intros Hblock Hconv Hn1 Hn2 Hn3 Hn4 HH HW self f1 f2 f3 f4 Hexact
         c5 c4 c3 c2 out_h out_w.
  destruct (encoder_heights H HH) as (Eh1 & Eh2 & Eh3 & Eh4 & Eh5 & Hh5).
  destruct (encoder_heights W HW) as (Ew1 & Ew2 & Ew3 & Ew4 & Ew5 & Hw5).
  pose proof (alignment H ltac:(lia)) as AH.
  pose proof (alignment W ltac:(lia)) as AW.
  unfold Shape.forward, forward.
  unfold self. rewrite forward_encoder_exact by assumption.
  fold self. fold f1 f2 f3 f4.
  rewrite Eh2, Ew2, Eh5, Ew5, Eh4, Ew4, Eh3, Ew3, Eh1, Ew1.
  pose proof (encoder_runs_iff training dr n1 n2 n3 n4 B
                               ((H + 1) / 32) ((W + 1) / 32)) as Runs.
  destruct (Shape.encoder_runs training dr n1 n2 n3 n4 B
                               ((H + 1) / 32) ((W + 1) / 32)).
  2:{ cbn [bind]. split; [discriminate|].
      intros (_ & _ & _ & KS & KD & _).
      assert (X : false = true) by (apply Runs; now split).
      discriminate X. }
  destruct (proj1 Runs eq_refl) as [KS KD]. clear Runs.
  cbn [bind].
  unfold forward_decoder, get_decoder_input, call_attr.
  destruct (decoder_four_blocks (get_decoder_block kind) input_nc output_nc
              g n1 n2 n3 n4 nif bn dr num_classes dropout true false
              outputSize semantics) as (Ed & Es & El & Els & Et & Esk).
  cbv zeta in Ed, Es, El, Els, Et, Esk.
  fold self f1 f2 f3 f4 in Ed, Es, El, Els, Et, Esk.
  fold c5 c4 c3 c2 in Ed, Es, El, Els, Et, Esk.
  rewrite Ed, El, Et, Esk, Els, Es, Ed.
  change (bilinear_trick self) with false.
  change (use_semantics self) with semantics.
  cbn [out out_conv1 tb_denseblock1 tb_denseblock2 tb_denseblock3
       getattr String.eqb Ascii.eqb Bool.eqb bind].
  rewrite !Z.mul_1_r.
  change (Shape.call training foreign nn.Tanh)
    with (Shape.leaf training foreign nn.Tanh).
  destruct semantics;
    cbn [bind getattr String.eqb Ascii.eqb Bool.eqb];
    repeat first
      [ rewrite (block_call training foreign kind Hblock)
      | rewrite (conv3x3_call training foreign Hconv) by lia
      | progress cbn [Shape.cat Shape.leaf bind]
      | head_test
          ltac:(split;
                [ discriminate
                | intros ((K1 & K2 & K3 & K4) & KH & KW & _);
                  apply (proj2 AH) in KH; apply (proj2 AW) in KW;
                  exfalso; lia ]) ];
    assert (KH : (H + 1) mod 32 <= 1) by (apply (proj1 AH); lia);
    assert (KW : (W + 1) mod 32 <= 1) by (apply (proj1 AW); lia);
    replace (2 * ((H + 1) / 2)) with out_h by (subst out_h; lia);
    replace (2 * ((W + 1) / 2)) with out_w by (subst out_w; lia);
    (split;
     [ intro E; injection E as <-;
       split; [repeat split; lia|];
       split; [exact KH|]; split; [exact KW|];
       split; [exact KS|]; split; [exact KD | reflexivity]
     | intros (_ & _ & _ & _ & _ & ->); reflexivity ]).
Qed.

Lemma X15_witness :
  (0 <= 6 /\ 0 <= 12 /\ 0 <= 24 /\ 0 <= 16 /\ 31 <= 255 /\ 31 <= 512
   /\ Py.exact_float
        ((((64 + 6 * 32) / 2 + 12 * 32) / 2 + 24 * 32) / 2 + 16 * 32)) /\
  Shape.forward true Shape.conv_blocks (unet121 1 true false true)
                (2, 3, 255, 512)
  = Some (Pair (2, 1, 256, 512) (2, 1000, 256, 512))
  /\ Shape.forward true Shape.conv_blocks (unet121 1 true false true)
                   (2, 3, 250, 512)
     = None
  /\ Shape.forward true Shape.conv_blocks (unet121 1 true false false)
                   (1, 3, 31, 31)
     = None
  /\ Shape.forward false Shape.conv_blocks (unet121 1 true false false)
                   (1, 3, 31, 31)
     = Some (Single (1, 1, 32, 32))
  /\ (255 + 1) mod 32 <= 1
  /\ (true = true -> 2 * ((255 + 1) / 32) * ((512 + 1) / 32) <> 1).
Proof.
  assert (Hexact : Py.exact_float
            ((((64 + 6 * 32) / 2 + 12 * 32) / 2 + 24 * 32) / 2 + 16 * 32))
    by (vm_compute; reflexivity).
  split; [repeat split; try lia; assumption|].
  split; [vm_compute; reflexivity|].
  split; [vm_compute; reflexivity|].
  split; [vm_compute; reflexivity|].
  split; [vm_compute; reflexivity|].
  destruct (proj1 (X15_with_skips_runs_exactly_when
                     true Shape.conv_blocks "basic" 3 1 32 6 12 24 16 64 4 0
                     1000 false (427, 571) true 2 255 512
                     (Pair (2, 1, 256, 512) (2, 1000, 256, 512))
                     ltac:(intros; now apply conv_blocks_block)
                     ltac:(intros; apply conv_blocks_conv3x3)
                     ltac:(lia) ltac:(lia) ltac:(lia) ltac:(lia)
                     ltac:(lia) ltac:(lia) Hexact))
    as (_ & KH & _ & KS & _).
  - vm_compute. reflexivity.
  - split; [exact KH | exact KS].
Defined.

Lemma upsample_call
      (training : bool)
      (foreign : string -> list Z -> list bool -> Shape.t -> option Shape.t)
      (size : Z * Z) (i o B C H W : Z) :
  Shape.call training foreign
    (nn.Sequential [("up_tranf", nn.Upsample size); ("conv", conv3x3 i o)])
    (B, C, H, W) = None
  \/ Shape.call training foreign
       (nn.Sequential [("up_tranf", nn.Upsample size); ("conv", conv3x3 i o)])
       (B, C, H, W)
     = Shape.call training foreign (conv3x3 i o) (B, C, fst size, snd size).
Proof.
  unfold Shape.call. rewrite call_Sequential.
  cbn [Sequential_forward call Shape.leaf bind].
  destruct ((0 <? C) && (0 <? H) && (0 <? W) && (0 <? fst size)
            && (0 <? snd size)); [right | now left].
  cbn [bind]. now destruct (call _ _ _ _ _ (conv3x3 i o) _).
Qed.

(** The same for a run that is to be shown to raise. *)
Ltac head_test_none :=
  match goal with
  | |- bind (if (?a =? ?a) && _ && _ then _ else _) _ = None =>
      rewrite (Z.eqb_refl a); cbn [bind andb]
  | |- bind (if ?a =? ?a then _ else _) _ = None =>
      rewrite (Z.eqb_refl a); cbn [bind andb]
  | |- bind (if (?a =? ?b) && _ then _ else _) _ = None =>
      destruct (Z.eqb_spec a b); cbn [bind andb]; [|reflexivity]
  | |- bind (if ?a =? ?b then _ else _) _ = None =>
      destruct (Z.eqb_spec a b); cbn [bind andb]; [|reflexivity]
  end.

(** X16. With [bilinear_trick] set, a four-block model raises on every
    input of at least 31 by 31 pixels, in either mode, unless
    [output_nc] happens to equal the number of channels that leave
    [d_block4]: [forward] hands that tensor, not the regression output,
    to the refinement convolution of [self.upsample], which is built
    over [output_nc] channels.  The channel counts are below 2^53, so
    that the two [int(num_features / 2)] are exact. *)
Theorem X16_bilinear_trick_raises
        (training : bool)
        (foreign : string -> list Z -> list bool -> Shape.t -> option Shape.t)
        (kind : string)
        (input_nc output_nc g n1 n2 n3 n4 nif bn : Z) (dr : Q) (num_classes : Z)
        (dropout skips : bool) (outputSize : Z * Z) (semantics : bool)
        (B H W : Z) :
  (forall (i o : Z) (d : bool) (B C H W : Z),
      foreign kind [i; o] [true; d] (B, C, H, W)
      = if C =? i then Some (B, o, 2 * H, 2 * W) else None) ->
  (forall (i o : Z) (x : Shape.t),
      foreign "conv3x3" [i; o] [] x = Shape.conv2d i o 3 1 1 x) ->
  0 <= n1 -> 0 <= n2 -> 0 <= n3 -> 0 <= n4 -> 31 <= H -> 31 <= W ->
  let f4 := ((nif + n1 * g) / 2 + n2 * g) / 2 in
  let f4 := (f4 + n3 * g) / 2 + n4 * g in
  Py.exact_float f4 ->
  output_nc <> Py.int_truediv2 (Py.int_truediv2 f4) ->
  Shape.forward training foreign
    (DenseUNet_init (get_decoder_block kind) input_nc output_nc g
                    [n1; n2; n3; n4] nif bn dr num_classes dropout skips true
                    outputSize semantics)
    (B, input_nc, H, W)
  = None.
Proof.
  intros Hblock Hconv Hn1 Hn2 Hn3 Hn4 HH HW f4' f4 Hexact Hnc.
  set (self := DenseUNet_init _ _ _ _ _ _ _ _ _ _ _ _ _ _).
  destruct (encoder_heights H HH) as (Eh1 & Eh2 & Eh3 & Eh4 & Eh5 & Hh5).
  destruct (encoder_heights W HW) as (Ew1 & Ew2 & Ew3 & Ew4 & Ew5 & Hw5).
  unfold Shape.forward, forward.
  unfold self. rewrite forward_encoder_exact by assumption.
  fold self.
  destruct (Shape.encoder_runs _ _ _ _ _ _ _ _ _); [|reflexivity].
  cbn [bind].
  rewrite Eh2, Ew2, Eh5, Ew5, Eh4, Ew4, Eh3, Ew3, Eh1, Ew1.
  unfold forward_decoder, get_decoder_input, call_attr.
  destruct (decoder_four_blocks (get_decoder_block kind) input_nc output_nc
              g n1 n2 n3 n4 nif bn dr num_classes dropout skips true
              outputSize semantics) as (Ed & Es & El & Els & Et & Esk).
  cbv zeta in Ed, Es, El, Els, Et, Esk.
  fold self in Ed, Es, El, Els, Et, Esk.
  rewrite Ed, El, Et, Esk.
  change (bilinear_trick self) with true.
  change (upsample self)
    with (Some (nn.Sequential
                  [ ("up_tranf",
                     nn.Upsample (if snd outputSize <? fst outputSize
                                  then (snd outputSize, fst outputSize)
                                  else outputSize));
                    ("conv", conv3x3 output_nc output_nc) ])).
  cbn [out out_conv1 tb_denseblock1 tb_denseblock2 tb_denseblock3
       getattr String.eqb Ascii.eqb Bool.eqb bind].
  rewrite !Z.mul_1_r.
  destruct skips;
    repeat first
      [ rewrite (block_call training foreign kind Hblock)
      | rewrite (conv3x3_call training foreign Hconv) by lia
      | progress cbn [Shape.cat Shape.leaf bind]
      | head_test_none ];
    match goal with
    | |- context [Shape.call training foreign
                    (nn.Sequential [("up_tranf", nn.Upsample ?sz); _])
                    (?b, ?c, ?h, ?w)] =>
        destruct (upsample_call training foreign sz output_nc output_nc
                                b c h w) as [U|U];
        rewrite U;
        [ reflexivity
        | rewrite (conv3x3_rejects training foreign Hconv) by auto;
          reflexivity ]
    end.
Qed.

Lemma X16_witness :
  (0 <= 6 /\ 0 <= 12 /\ 0 <= 24 /\ 0 <= 16 /\ 31 <= 256 /\ 31 <= 256
   /\ Py.exact_float
        ((((64 + 6 * 32) / 2 + 12 * 32) / 2 + 24 * 32) / 2 + 16 * 32)) /\
  Shape.forward true Shape.conv_blocks (unet121 3 true true false)
                (1, 3, 256, 256)
  = None.
Proof.
  assert (Hexact : Py.exact_float
            ((((64 + 6 * 32) / 2 + 12 * 32) / 2 + 24 * 32) / 2 + 16 * 32))
    by (vm_compute; reflexivity).
  split; [repeat split; try lia; assumption|].
  apply (X16_bilinear_trick_raises
           true Shape.conv_blocks "basic" 3 3 32 6 12 24 16 64 4 0 1000 false
           true (427, 571) false 1 256 256);
    try lia; try assumption.
  - intros. now apply conv_blocks_block.
  - intros. apply conv_blocks_conv3x3.
  - vm_compute. discriminate.
Defined.

(** ** The key pattern *)

Lemma strip_Some (t s s' : string) :
  re.strip t s = Some s' <-> s = (t ++ s')%string.
Proof.
  revert s. induction t as [|a t IH]; intros s; simpl.
  - split; [now intros [= ->] | now intros ->].
  - destruct s as [|b s]; [split; discriminate|].
    destruct (Ascii.eqb_spec a b) as [->|N].
    + rewrite IH. split; [now intros -> | now intros [= ->]].
    + split; [discriminate | intros [= -> _]; now elim N].
Qed.

Lemma star_sound (f : ascii -> bool) (s : string)
      (k : string -> option re.Match) (r : re.Match) :
  re.star f s k = Some r ->
  exists a b, s = (a ++ b)%string /\ string_forall f a = true /\ k b = Some r.
Proof.
  induction s as [|c s IH]; simpl; intro H.
  - exists EmptyString, EmptyString. auto.
  - destruct (f c) eqn:Fc.
    + destruct (re.star f s k) as [r'|] eqn:E.
      * injection H as <-.
        destruct (IH eq_refl) as (a & b & -> & Fa & Kb).
        exists (String c a), b. simpl. rewrite Fc. auto.
      * exists EmptyString, (String c s). auto.
    + exists EmptyString, (String c s). auto.
Qed.

Lemma star_complete (f : ascii -> bool) (a b : string)
      (k : string -> option re.Match) :
  string_forall f a = true -> re.star f (a ++ b) k = None -> k b = None.
Proof.
  induction a as [|c a IH]; simpl; intros Fa H.
  - destruct b as [|c b]; simpl in H; [assumption|].
    destruct (f c); [|assumption].
    destruct (re.star f b k); [discriminate | assumption].
  - apply andb_true_iff in Fa. destruct Fa as [Fc Fa]. rewrite Fc in H.
    destruct (re.star f (a ++ b) k) eqn:E; [discriminate|].
    now apply IH.
Qed.

Lemma run_sound (whole : string) (p : re.regex) :
  forall s g k r,
    re.run whole p s g k = Some r ->
    exists s' g', re.matches whole p s g s' g' /\ k s' g' = Some r.
Proof.
  induction p as [| | t | i | i | i | p IHp q IHq | p IHp q IHq | n p IHp];
    intros s g k r H; simpl in H.
  - destruct (Nat.eqb_spec (String.length s) (String.length whole));
      [|discriminate].
    exists s, g. split; [now constructor | assumption].
  - destruct (String.eqb_spec s EmptyString) as [->|N1]; simpl in H.
    + eexists _, g. split; [constructor; auto | assumption].
    + destruct (String.eqb_spec s (String re.newline EmptyString))
        as [->|N2]; [|discriminate].
      eexists _, g. split; [constructor; auto | assumption].
  - destruct (re.strip t s) as [s'|] eqn:E; [|discriminate].
    apply strip_Some in E. subst s.
    exists s', g. split; [constructor | assumption].
  - destruct s as [|c s]; [discriminate|].
    destruct (re.item_ok i c) eqn:E; [|discriminate].
    exists s, g. split; [now constructor | assumption].
  - apply star_sound in H. destruct H as (a & b & -> & Fa & Kb).
    exists b, g. split; [now constructor | assumption].
  - destruct s as [|c s]; [discriminate|].
    destruct (re.item_ok i c) eqn:E; [|discriminate].
    apply star_sound in H. destruct H as (a & b & -> & Fa & Kb).
    exists b, g. split; [now constructor | assumption].
  - apply IHp in H. destruct H as (s1 & g1 & M1 & H).
    apply IHq in H. destruct H as (s2 & g2 & M2 & H).
    exists s2, g2. split; [econstructor; eassumption | assumption].
  - destruct (re.run whole p s g k) as [r'|] eqn:E.
    + injection H as <-. apply IHp in E. destruct E as (s' & g' & M & K).
      exists s', g'. split; [now apply re.m_alt_l | assumption].
    + apply IHq in H. destruct H as (s' & g' & M & K).
      exists s', g'. split; [now apply re.m_alt_r | assumption].
  - apply IHp in H. destruct H as (s' & g' & M & K).
    eexists _, _. split; [constructor; eassumption | assumption].
Qed.

Lemma run_complete (whole : string) (p : re.regex) (s : string)
      (g : re.Match) (s' : string) (g' : re.Match) :
  re.matches whole p s g s' g' ->
  forall k, re.run whole p s g k = None -> k s' g' = None.
Proof.
  induction 1 as [s g L | s g E | t s g | i c s g Ic | i a s g Fa
                  | i c a s g Ic Fa | p q s g s1 g1 s2 g2 M1 IH1 M2 IH2
                  | p q s g s' g' M IH | p q s g s' g' M IH
                  | n p s g s' g' M IH];
    intros k H; simpl in H.
  - rewrite L, Nat.eqb_refl in H. assumption.
  - destruct E as [-> | ->]; simpl in H; assumption.
  - assert (E : re.strip t (t ++ s) = Some s) by now apply strip_Some.
    rewrite E in H. assumption.
  - rewrite Ic in H. assumption.
  - apply (star_complete _ _ _ _ Fa H).
  - rewrite Ic in H. apply (star_complete _ _ _ _ Fa H).
  - apply IH2. apply (IH1 _ H).
  - destruct (re.run whole p s g k) eqn:E; [discriminate|]. now apply IH.
  - destruct (re.run whole p s g k) eqn:E; [discriminate|]. now apply IH.
  - apply (IH _ H).
Qed.

Lemma substring_prefix (x s : string) :
  substring 0 (String.length x) (x ++ s) = x.
Proof.
  induction x as [|c x IH]; simpl.
  - now destruct s.
  - now rewrite IH.
Qed.

Lemma consumed_app (x s : string) : re.consumed (x ++ s) s = x.
Proof.
  unfold re.consumed. rewrite length_append.
  replace (String.length x + String.length s - String.length s)%nat
    with (String.length x) by lia.
  apply substring_prefix.
Qed.

Lemma append_assoc (a b c : string) :
  ((a ++ b) ++ c)%string = (a ++ b ++ c)%string.
Proof. induction a as [|x a IH]; simpl; [reflexivity | now rewrite IH]. Qed.

Lemma consumed_eq (x s s0 : string) :
  s0 = (x ++ s)%string -> re.consumed s0 s = x.
Proof. intros ->. apply consumed_app. Qed.

Lemma matches_lit (whole t s : string) (g : re.Match) (s' : string)
      (g' : re.Match) :
  re.matches whole (re.Lit t) s g s' g' -> s = (t ++ s')%string /\ g' = g.
Proof. inversion 1; subst; auto. Qed.

Lemma matches_kind (whole s : string) (g : re.Match) (s' : string)
      (g' : re.Match) :
  re.matches whole
             (re.Alt (re.Lit "norm") (re.Alt (re.Lit "relu") (re.Lit "conv")))
             s g s' g' ->
  exists kind, In kind ["norm"; "relu"; "conv"]
               /\ s = (kind ++ s')%string /\ g' = g.
Proof.
  intro M.
  repeat match goal with
         | H : re.matches _ (re.Alt _ _) _ _ _ _ |- _ =>
             inversion H; subst; clear H
         end;
    match goal with
    | H : re.matches _ (re.Lit ?t) _ _ _ _ |- _ =>
        apply matches_lit in H; destruct H as [-> ->]; exists t
    end; simpl; auto 10.
Qed.

Lemma matches_name (whole s : string) (g : re.Match) (s' : string)
      (g' : re.Match) :
  re.matches whole
             (re.Alt (re.Lit "weight")
             (re.Alt (re.Lit "bias")
             (re.Alt (re.Lit "running_mean") (re.Lit "running_var"))))
             s g s' g' ->
  exists name, In name ["weight"; "bias"; "running_mean"; "running_var"]
               /\ s = (name ++ s')%string /\ g' = g.
Proof.
  intro M.
  repeat match goal with
         | H : re.matches _ (re.Alt _ _) _ _ _ _ |- _ =>
             inversion H; subst; clear H
         end;
    match goal with
    | H : re.matches _ (re.Lit ?t) _ _ _ _ |- _ =>
        apply matches_lit in H; destruct H as [-> ->]; exists t
    end; simpl; auto 10.
Qed.

Lemma mem_char_12 (c : ascii) :
  re.mem_char c "12" = true ->
  In (String c EmptyString) ["1"; "2"].
Proof.
  unfold re.mem_char. intro H.
  destruct (Ascii.eqb_spec c "1"%char) as [E|_]; [left; now rewrite E|].
  destruct (Ascii.eqb_spec c "2"%char) as [E|_]; [right; left; now rewrite E|].
  discriminate.
Qed.

Lemma matches_seq (whole : string) (p q : re.regex) (s : string)
      (g : re.Match) (s2 : string) (g2 : re.Match) :
  re.matches whole (re.Seq p q) s g s2 g2 ->
  exists s1 g1, re.matches whole p s g s1 g1 /\ re.matches whole q s1 g1 s2 g2.
Proof. inversion 1; subst; eauto. Qed.

Lemma matches_group (whole : string) (n : nat) (p : re.regex) (s : string)
      (g : re.Match) (s' : string) (g' : re.Match) :
  re.matches whole (re.Group n p) s g s' g' ->
  exists g1, re.matches whole p s g s' g1 /\ g' = (n, re.consumed s s') :: g1.
Proof. inversion 1; subst; eauto. Qed.

Lemma matches_star (whole : string) (i : re.item) (s : string)
      (g : re.Match) (s' : string) (g' : re.Match) :
  re.matches whole (re.Star i) s g s' g' ->
  exists a, string_forall (re.item_ok i) a = true
            /\ s = (a ++ s')%string /\ g' = g.
Proof. inversion 1; subst; eauto. Qed.

Lemma matches_plus (whole : string) (i : re.item) (s : string)
      (g : re.Match) (s' : string) (g' : re.Match) :
  re.matches whole (re.Plus i) s g s' g' ->
  exists a, a <> EmptyString /\ string_forall (re.item_ok i) a = true
            /\ s = (a ++ s')%string /\ g' = g.
Proof.
  inversion 1 as [| | | | | ? c a ? ? Ic Fa | | | |]; subst.
  exists (String c a). simpl. rewrite Ic, Fa. repeat split. discriminate.
Qed.

Lemma matches_one (whole : string) (i : re.item) (s : string)
      (g : re.Match) (s' : string) (g' : re.Match) :
  re.matches whole (re.One i) s g s' g' ->
  exists c, re.item_ok i c = true /\ s = String c s' /\ g' = g.
Proof. inversion 1; subst; eauto. Qed.

Lemma matches_eol (whole s : string) (g : re.Match) (s' : string)
      (g' : re.Match) :
  re.matches whole re.Eol s g s' g' ->
  In s' [EmptyString; String re.newline EmptyString] /\ s = s' /\ g' = g.
Proof. inversion 1 as [| ? ? [E|E] | | | | | | | |]; subst; simpl; auto. Qed.

Lemma matches_bol (whole s : string) (g : re.Match) (s' : string)
      (g' : re.Match) :
  re.matches whole re.Bol s g s' g' -> s = s' /\ g' = g.
Proof. inversion 1; subst; auto. Qed.

(** Whatever way the pattern matches a key, the key is of the old
    format and the groups are its two parts. *)
Lemma pattern_matches_inv (key s' : string) (res : re.Match) :
  re.matches key pattern key [] s' res ->
  exists g1 g2, old_format key g1 g2 /\ res = [(2%nat, g2); (1%nat, g1)].
Proof.
  unfold pattern. intro M.
  apply matches_seq in M. destruct M as (s1 & r1 & Mbol & M).
  apply matches_bol in Mbol. destruct Mbol as [<- ->].
  apply matches_seq in M. destruct M as (s2 & r2 & Mg1 & M).
  apply matches_seq in M. destruct M as (s3 & r3 & Mdot & M).
  apply matches_lit in Mdot. destruct Mdot as [-> ->].
  apply matches_seq in M. destruct M as (s4 & r4 & Mg2 & Meol).
  apply matches_eol in Meol. destruct Meol as (Inl & -> & ->).
  apply matches_group in Mg2. destruct Mg2 as (r5 & Mg2 & ->).
  apply matches_seq in Mg2. destruct Mg2 as (s5 & r6 & Mn & Mg2).
  apply matches_one in Mn. destruct Mn as (n & Fn & -> & ->).
  apply matches_seq in Mg2. destruct Mg2 as (s6 & r7 & Mdot & Mname).
  apply matches_lit in Mdot. destruct Mdot as [-> ->].
  apply matches_name in Mname. destruct Mname as (name & Iname & -> & ->).
  apply matches_group in Mg1. destruct Mg1 as (r8 & Mg1 & ->).
  apply matches_seq in Mg1. destruct Mg1 as (s7 & r9 & Mstar & Mg1).
  apply matches_star in Mstar. destruct Mstar as (p & Fp & -> & ->).
  apply matches_seq in Mg1. destruct Mg1 as (s8 & r10 & Mlit & Mg1).
  apply matches_lit in Mlit. destruct Mlit as [-> ->].
  apply matches_seq in Mg1. destruct Mg1 as (s9 & r11 & Mplus & Mg1).
  apply matches_plus in Mplus. destruct Mplus as (ds & Nds & Fds & -> & ->).
  apply matches_seq in Mg1. destruct Mg1 as (s10 & r12 & Mdot & Mkind).
  apply matches_lit in Mdot. destruct Mdot as [-> ->].
  apply matches_kind in Mkind. destruct Mkind as (kind & Ikind & -> & ->).
  exists (p ++ "denselayer" ++ ds ++ "." ++ kind)%string,
         (String n EmptyString ++ "." ++ name)%string.
  split.
  - exists p, ds, kind, (String n EmptyString), name, s'.
    repeat split; auto using mem_char_12.
    now rewrite !append_assoc.
  - f_equal; [f_equal | f_equal; f_equal]; apply consumed_eq;
      now rewrite !append_assoc.
Qed.

Lemma kind_matches (whole kind s : string) (g : re.Match) :
  In kind ["norm"; "relu"; "conv"] ->
  re.matches whole
             (re.Alt (re.Lit "norm") (re.Alt (re.Lit "relu") (re.Lit "conv")))
             (kind ++ s) g s g.
Proof.
  intros [<-|[<-|[<-|[]]]].
  - apply re.m_alt_l. apply re.m_lit.
  - apply re.m_alt_r, re.m_alt_l. apply re.m_lit.
  - apply re.m_alt_r, re.m_alt_r. apply re.m_lit.
Qed.

Lemma name_matches (whole name s : string) (g : re.Match) :
  In name ["weight"; "bias"; "running_mean"; "running_var"] ->
  re.matches whole
             (re.Alt (re.Lit "weight")
             (re.Alt (re.Lit "bias")
             (re.Alt (re.Lit "running_mean") (re.Lit "running_var"))))
             (name ++ s) g s g.
Proof.
  intros [<-|[<-|[<-|[<-|[]]]]].
  - apply re.m_alt_l. apply re.m_lit.
  - apply re.m_alt_r, re.m_alt_l. apply re.m_lit.
  - apply re.m_alt_r, re.m_alt_r, re.m_alt_l. apply re.m_lit.
  - apply re.m_alt_r, re.m_alt_r, re.m_alt_r. apply re.m_lit.
Qed.

(** Every key of the old format is matched by the pattern in some way,
    with its two parts as groups. *)
Lemma pattern_matches_intro (key g1 g2 : string) :
  old_format key g1 g2 ->
  exists nl, re.matches key pattern key [] nl [(2%nat, g2); (1%nat, g1)].
Proof.
  intros (p & ds & kind & n & name & nl & Fp & Nds & Fds & Ik & In_ & Iname
          & Inl & -> & -> & ->).
  exists nl.
  set (g1 := (p ++ "denselayer" ++ ds ++ "." ++ kind)%string).
  set (g2 := (n ++ "." ++ name)%string).
  set (key := (g1 ++ "." ++ g2 ++ nl)%string).
  assert (E1 : re.consumed key ("." ++ g2 ++ nl) = g1)
    by now apply consumed_eq.
  assert (E2 : re.consumed (g2 ++ nl) nl = g2) by now apply consumed_eq.
  replace [(2%nat, g2); (1%nat, g1)]
    with [(2%nat, re.consumed (g2 ++ nl) nl);
          (1%nat, re.consumed key ("." ++ g2 ++ nl))]
    by now rewrite E1, E2.
  unfold pattern.
  apply re.m_seq with (s1 := key) (g1 := []); [now constructor|].
  apply re.m_seq with (s1 := ("." ++ g2 ++ nl)%string)
                      (g1 := [(1%nat, re.consumed key ("." ++ g2 ++ nl))]).
  - apply re.m_group.
    unfold key, g1. rewrite !append_assoc.
    eapply re.m_seq; [now apply re.m_star|].
    eapply re.m_seq; [apply re.m_lit|].
    destruct ds as [|c ds]; [now elim Nds|].
    simpl in Fds. apply andb_true_iff in Fds. destruct Fds as [Fc Fds].
    eapply re.m_seq; [now apply (re.m_plus _ re.Digit)|].
    eapply re.m_seq; [apply re.m_lit|].
    now apply kind_matches.
  - eapply re.m_seq; [apply re.m_lit|].
    apply re.m_seq with (s1 := nl)
                        (g1 := [(2%nat, re.consumed (g2 ++ nl) nl);
                                (1%nat, re.consumed key ("." ++ g2 ++ nl))]).
    + apply re.m_group. unfold g2. rewrite !append_assoc.
      assert (Fn : exists c, n = String c EmptyString
                             /\ re.item_ok (re.OneOf "12") c = true).
      { destruct In_ as [<-|[<-|[]]]; eexists; split; reflexivity. }
      destruct Fn as (c & -> & Fc).
      eapply re.m_seq; [now apply re.m_one|].
      eapply re.m_seq; [apply re.m_lit|].
      now apply name_matches.
    + constructor. destruct Inl as [<-|[<-|[]]]; auto.
Qed.

Lemma suffixb_app (u t : string) : suffixb t (u ++ t) = true.
Proof.
  induction u as [|c u IH]; simpl.
  - destruct t; cbn [suffixb]; now rewrite String.eqb_refl.
  - cbn [suffixb]. rewrite IH. apply orb_true_r.
Qed.

Lemma app_eq_suffix (a t a' t' : string) :
  (a ++ t)%string = (a' ++ t')%string ->
  suffixb t t' || suffixb t' t = true.
Proof.
  revert a'. induction a as [|c a IH]; intros a' E; simpl in E.
  - subst t. rewrite suffixb_app. apply orb_true_r.
  - destruct a' as [|c' a']; simpl in E.
    + subst t'. change (String c (a ++ t)) with (String c a ++ t)%string.
      now rewrite suffixb_app.
    + injection E as _ E. now apply IH in E.
Qed.

Lemma key_ends_suffix_free :
  forallb (fun x =>
             forallb (fun y =>
                        implb (suffixb (key_end x) (key_end y)) (pair_eqb x y))
                     key_ends)
          key_ends = true.
Proof. vm_compute. reflexivity. Qed.

Lemma new_key_ends_differ :
  forallb (fun t =>
             forallb (fun y =>
                        negb (suffixb t (key_end y) || suffixb (key_end y) t))
                     key_ends)
          new_key_ends = true.
Proof. vm_compute. reflexivity. Qed.

Lemma old_format_end (key g1 g2 : string) :
  old_format key g1 g2 ->
  exists nl, In (g2, nl) key_ends /\ key = (g1 ++ key_end (g2, nl))%string.
Proof.
  intros (p & ds & kind & n & name & nl & _ & _ & _ & _ & In_ & Iname
          & Inl & _ & -> & ->).
  exists nl. split; [|reflexivity].
  unfold key_ends, second_groups.
  apply in_flat_map. exists (n ++ "." ++ name)%string. split.
  - apply in_flat_map. exists n. split; [assumption|].
    now apply (in_map (fun name => (n ++ "." ++ name)%string)).
  - now apply (in_map (fun nl => ((n ++ "." ++ name)%string, nl))).
Qed.

Lemma old_format_new_key_end (key g1 g2 : string) :
  old_format key g1 g2 ->
  exists a t, In t new_key_ends /\ (g1 ++ g2)%string = (a ++ t)%string.
Proof.
  intros (p & ds & kind & n & name & nl & _ & _ & _ & Ik & In_ & Iname
          & _ & -> & -> & _).
  exists (p ++ "denselayer" ++ ds ++ ".")%string,
         (kind ++ n ++ "." ++ name)%string.
  split; [|now rewrite !append_assoc].
  unfold new_key_ends, second_groups.
  apply in_flat_map. exists kind. split; [assumption|].
  apply (in_map (fun g2 => (kind ++ g2)%string)).
  apply in_flat_map. exists n. split; [assumption|].
  now apply (in_map (fun name => (n ++ "." ++ name)%string)).
Qed.

(** A key is of the old format in one way only. *)
Lemma old_format_unique (key g1 g2 g1' g2' : string) :
  old_format key g1 g2 -> old_format key g1' g2' -> g1 = g1' /\ g2 = g2'.
Proof.
  intros O O'.
  apply old_format_end in O, O'.
  destruct O as (nl & I & E), O' as (nl' & I' & E').
  assert (X : pair_eqb (g2, nl) (g2', nl') = true).
  { pose proof key_ends_suffix_free as F.
    rewrite forallb_forall in F.
    pose proof (F _ I) as F1. pose proof (F _ I') as F2.
    rewrite forallb_forall in F1, F2.
    specialize (F1 _ I'). specialize (F2 _ I).
    rewrite E in E'. apply app_eq_suffix in E'.
    apply orb_true_iff in E'. destruct E' as [S|S]; rewrite S in *.
    - exact F1.
    - simpl in F2. unfold pair_eqb in *. simpl in *.
      now rewrite (String.eqb_sym g2), (String.eqb_sym nl).
  }
  unfold pair_eqb in X. simpl in X. apply andb_true_iff in X.
  destruct X as [X1 X2]. apply String.eqb_eq in X1, X2. subst g2' nl'.
  split; [|reflexivity].
  rewrite E in E'. now apply append_inv_tail in E'.
Qed.

(** The new key of an old-format key is not of the old format. *)
Lemma old_format_new_key (key g1 g2 g1' g2' : string) :
  old_format key g1 g2 -> ~ old_format (g1 ++ g2) g1' g2'.
Proof.
  intros O O'.
  apply old_format_new_key_end in O. destruct O as (a & t & I & E).
  apply old_format_end in O'. destruct O' as (nl & I' & E').
  pose proof new_key_ends_differ as F.
  rewrite forallb_forall in F. specialize (F _ I).
  rewrite forallb_forall in F. specialize (F _ I').
  rewrite E in E'. apply app_eq_suffix in E'.
  rewrite E' in F. discriminate.
Qed.

Lemma match_inv (key : string) (res : re.Match) :
  re.match_ pattern key = Some res ->
  exists g1 g2, old_format key g1 g2 /\ res = [(2%nat, g2); (1%nat, g1)].
Proof.
  unfold re.match_. intro H.
  apply run_sound in H. destruct H as (s' & g' & M & [= <-]).
  now apply pattern_matches_inv in M.
Qed.

Lemma match_intro (key g1 g2 : string) :
  old_format key g1 g2 ->
  re.match_ pattern key = Some [(2%nat, g2); (1%nat, g1)].
Proof.
  intro O.
  destruct (re.match_ pattern key) as [res|] eqn:E.
  - apply match_inv in E. destruct E as (g1' & g2' & O' & ->).
    destruct (old_format_unique _ _ _ _ _ O O') as [-> ->]. reflexivity.
  - apply pattern_matches_intro in O. destruct O as (nl & M).
    unfold re.match_ in E.
    pose proof (run_complete _ _ _ _ _ _ M _ E) as C. discriminate.
Qed.

Lemma new_key_of_Some (key k' : string) :
  new_key_of key = Some k' <->
  exists g1 g2, old_format key g1 g2 /\ k' = (g1 ++ g2)%string.
Proof.
  unfold new_key_of. split.
  - destruct (re.match_ pattern key) as [res|] eqn:E; [|discriminate].
    apply match_inv in E. destruct E as (g1 & g2 & O & ->).
    simpl. intros [= <-]. eauto.
  - intros (g1 & g2 & O & ->). now rewrite (match_intro _ _ _ O).
Qed.

Lemma new_key_of_None (key : string) :
  new_key_of key = None <-> re.match_ pattern key = None.
Proof.
  unfold new_key_of. split.
  - destruct (re.match_ pattern key) as [res|] eqn:E; [|reflexivity].
    apply match_inv in E. destruct E as (g1 & g2 & O & ->). discriminate.
  - now intros ->.
Qed.

Lemma new_key_of_new_key (key k' : string) :
  new_key_of key = Some k' -> new_key_of k' = None.
Proof.
  intro H. apply new_key_of_Some in H. destruct H as (g1 & g2 & O & ->).
  destruct (new_key_of (g1 ++ g2)) as [k2|] eqn:E; [|reflexivity].
  apply new_key_of_Some in E. destruct E as (g1' & g2' & O' & _).
  now elim (old_format_new_key _ _ _ _ _ O O').
Qed.

(** ** Dictionaries *)

Section DictFacts.

Context {V : Type}.

Lemma getitem_None (d : dict.t V) (k : string) :
  dict.getitem d k = None <-> ~ In k (dict.keys d).
Proof.
  induction d as [|[n v] d IH]; simpl; [tauto|].
  destruct (String.eqb_spec n k) as [->|N].
  - split; [discriminate | intro H; elim H; now left].
  - rewrite IH. split; [intros H [E|I]; auto | intros H I; apply H; now right].
Qed.

Lemma getitem_setitem (d : dict.t V) (k : string) (v : V) (q : string) :
  dict.getitem (dict.setitem d k v) q
  = if String.eqb k q then Some v else dict.getitem d q.
Proof.
  induction d as [|[n v'] d IH]; simpl.
  - reflexivity.
  - destruct (String.eqb_spec n k) as [->|N]; simpl.
    + now destruct (String.eqb_spec k q).
    + destruct (String.eqb_spec n q) as [->|N'].
      * destruct (String.eqb_spec k q); [congruence | reflexivity].
      * apply IH.
Qed.

Lemma keys_setitem (d : dict.t V) (k : string) (v : V) :
  dict.keys (dict.setitem d k v)
  = if dict.contains d k then dict.keys d else dict.keys d ++ [k].
Proof.
  unfold dict.contains.
  induction d as [|[n v'] d IH]; simpl; [reflexivity|].
  destruct (String.eqb_spec n k) as [->|N]; simpl; [reflexivity|].
  rewrite IH. now destruct (dict.getitem d k).
Qed.

Lemma wf_setitem (d : dict.t V) (k : string) (v : V) :
  dict.wf d -> dict.wf (dict.setitem d k v).
Proof.
  unfold dict.wf. rewrite keys_setitem. unfold dict.contains.
  destruct (dict.getitem d k) eqn:E; [auto|].
  intro W. apply getitem_None in E.
  apply NoDup_app; auto.
  - constructor; [intros [] | constructor].
  - intros x Ix [<-|[]]. contradiction.
Qed.

Lemma delitem_spec (d : dict.t V) (k : string) :
  dict.wf d -> dict.getitem d k <> None ->
  exists d', dict.delitem d k = Some d'
             /\ dict.wf d'
             /\ (forall x, In x (dict.keys d') -> In x (dict.keys d))
             /\ forall q, dict.getitem d' q
                          = if String.eqb k q then None else dict.getitem d q.
Proof.
  unfold dict.wf.
  induction d as [|[n v] d IH]; simpl; intros W H; [congruence|].
  inversion W as [|? ? Nn Wd]; subst.
  destruct (String.eqb_spec n k) as [->|N].
  - exists d. repeat split; auto.
    intro q. destruct (String.eqb_spec k q) as [<-|_]; [|reflexivity].
    now apply getitem_None.
  - destruct (IH Wd H) as (d' & -> & Wd' & Sub & G).
    exists ((n, v) :: d'). simpl. repeat split.
    + constructor; auto.
    + intros x [<-|I]; auto.
    + intro q. destruct (String.eqb_spec n q) as [<-|_].
      * now destruct (String.eqb_spec k n) as [<-|_].
      * apply G.
Qed.

Lemma In_keys (d : dict.t V) (k : string) :
  In k (dict.keys d) -> dict.getitem d k <> None.
Proof. intros I E. now apply getitem_None in E. Qed.

Lemma getitem_Some_In (d : dict.t V) (k : string) (v : V) :
  dict.getitem d k = Some v -> In k (dict.keys d).
Proof.
  induction d as [|[n v'] d IH]; simpl; [discriminate|].
  destruct (String.eqb_spec n k) as [->|_]; auto.
Qed.

End DictFacts.

(** ** The renaming loop *)

Lemma last_source_app (ks : list string) (k q : string) :
  last_source (ks ++ [k]) q
  = match new_key_of k with
    | Some k' => if String.eqb k' q then Some k else last_source ks q
    | None => last_source ks q
    end.
Proof.
  induction ks as [|k0 ks IH]; simpl.
  - destruct (new_key_of k) as [k'|]; [|reflexivity].
    now destruct (String.eqb k' q).
  - rewrite IH.
    destruct (new_key_of k) as [k'|]; [|reflexivity].
    now destruct (String.eqb k' q).
Qed.

Lemma last_source_Some (ks : list string) (q k : string) :
  last_source ks q = Some k -> In k ks /\ new_key_of k = Some q.
Proof.
  induction ks as [|k0 ks IH]; simpl; [discriminate|].
  destruct (last_source ks q) as [k1|].
  - intros [= <-]. destruct (IH eq_refl). auto.
  - destruct (new_key_of k0) as [k'|] eqn:E; [|discriminate].
    destruct (String.eqb_spec k' q) as [->|_]; [|discriminate].
    intros [= <-]. auto.
Qed.

Lemma existsb_eqb_In (q : string) (ks : list string) :
  existsb (String.eqb q) ks = true <-> In q ks.
Proof.
  rewrite existsb_exists. split.
  - intros (x & I & E). apply String.eqb_eq in E. now subst.
  - intro I. exists q. split; [assumption | apply String.eqb_refl].
Qed.

Section Rename.

Context {V : Type}.

Lemma rename_step_eq (d : dict.t V) (key : string) :
  rename_step d key
  = match new_key_of key with
    | Some k' =>
        v <- dict.getitem d key ;; dict.delitem (dict.setitem d k' v) key
    | None => Some d
    end.
Proof.
  unfold rename_step, new_key_of.
  destruct (re.match_ pattern key) as [res|] eqn:E; [|reflexivity].
  apply match_inv in E. destruct E as (g1 & g2 & _ & ->). reflexivity.
Qed.

Lemma rename_noop (ks : list string) (c : dict.t V) :
  (forall k, In k ks -> new_key_of k = None) ->
  fold_left (fun d key => d <- d ;; rename_step d key) ks (Some c) = Some c.
Proof.
  induction ks as [|k ks IH]; simpl; intro H; [reflexivity|].
  rewrite rename_step_eq, (H k) by now left.
  apply IH. intros k' I. apply H. now right.
Qed.

Lemma rename_loop (d : dict.t V) :
  dict.wf d ->
  forall todo done c,
    dict.keys d = done ++ todo ->
    dict.wf c ->
    (forall k, In k todo -> new_key_of k <> None ->
               dict.getitem c k = dict.getitem d k) ->
    (forall q, dict.getitem c q = renamed d done q) ->
    exists d',
      fold_left (fun d key => d <- d ;; rename_step d key) todo (Some c)
      = Some d'
      /\ dict.wf d'
      /\ forall q, dict.getitem d' q = renamed d (done ++ todo) q.
Proof.
  intro Wd. induction todo as [|k todo IH]; intros done c K Wc T R.
  - exists c. rewrite app_nil_r. auto.
  - assert (K' : dict.keys d = (done ++ [k]) ++ todo)
      by now rewrite <- app_assoc.
    assert (Nk : ~ In k done /\ ~ In k todo).
    { unfold dict.wf in Wd. rewrite K in Wd.
      apply NoDup_remove_2 in Wd. rewrite in_app_iff in Wd. tauto. }
    destruct Nk as [Nd Nt].
    assert (Ik : dict.getitem d k <> None).
    { apply In_keys. rewrite K, in_app_iff. right. now left. }
    cbn [fold_left bind]. rewrite rename_step_eq.
    replace (done ++ k :: todo) with ((done ++ [k]) ++ todo)
      by now rewrite <- app_assoc.
    destruct (new_key_of k) as [k'|] eqn:E.
    + (* the key is renamed *)
      pose proof (new_key_of_new_key _ _ E) as E'.
      assert (Nkk : k' <> k) by (intros ->; congruence).
      rewrite (T k) by (try (now left); congruence).
      destruct (dict.getitem d k) as [v|] eqn:G; [|congruence].
      cbn [bind].
      destruct (delitem_spec (dict.setitem c k' v) k) as (c2 & D & W2 & _ & G2).
      { now apply wf_setitem. }
      { rewrite getitem_setitem.
        destruct (String.eqb_spec k' k); [congruence|].
        rewrite (T k) by (try (now left); congruence). congruence. }
      rewrite D. apply IH; auto.
      * intros k2 I2 M2. rewrite G2, getitem_setitem.
        destruct (String.eqb_spec k k2) as [<-|_]; [contradiction|].
        destruct (String.eqb_spec k' k2) as [<-|_]; [congruence|].
        apply T; [now right | assumption].
      * intro q. rewrite G2, getitem_setitem. unfold renamed.
        rewrite last_source_app, E, existsb_app. cbn [existsb].
        rewrite orb_false_r.
        destruct (String.eqb_spec k' q) as [<-|Nq].
        -- destruct (String.eqb_spec k k'); [congruence | now rewrite G].
        -- specialize (R q). unfold renamed in R.
           destruct (last_source done q) as [k0|] eqn:L.
           ++ apply last_source_Some in L. destruct L as [_ L].
              apply new_key_of_new_key in L.
              destruct (String.eqb_spec k q) as [<-|_]; [congruence|].
              exact R.
           ++ destruct (String.eqb_spec k q) as [<-|Nkq].
              ** rewrite E. rewrite String.eqb_refl, orb_true_r. reflexivity.
              ** destruct (new_key_of q); [|exact R].
                 destruct (String.eqb_spec q k); [congruence|].
                 now rewrite orb_false_r.
    + (* the key stays *)
      apply IH; auto.
      * intros k2 I2. apply T. now right.
      * intro q. rewrite R. unfold renamed.
        rewrite last_source_app, E, existsb_app. cbn [existsb].
        rewrite orb_false_r.
        destruct (last_source done q); [reflexivity|].
        destruct (new_key_of q) eqn:Eq; [|reflexivity].
        destruct (String.eqb_spec q k) as [->|_]; [congruence|].
        now rewrite orb_false_r.
Qed.

Lemma rename_keys_spec (d : dict.t V) :
  dict.wf d ->
  exists d',
    rename_keys d = Some d'
    /\ dict.wf d'
    /\ forall q, dict.getitem d' q = renamed d (dict.keys d) q.
Proof.
  intro W. unfold rename_keys.
  apply (rename_loop d W (dict.keys d) [] d); auto.
  intro q. unfold renamed. simpl. now destruct (new_key_of q).
Qed.

Lemma renamed_keys_stay (d d' : dict.t V) :
  dict.wf d -> rename_keys d = Some d' ->
  forall k, In k (dict.keys d') -> new_key_of k = None.
Proof.
  intros W E k I.
  destruct (rename_keys_spec d W) as (d2 & E2 & _ & G).
  rewrite E in E2. injection E2 as <-.
  apply In_keys in I. rewrite G in I. unfold renamed in I.
  destruct (last_source (dict.keys d) k) as [k0|] eqn:L.
  - apply last_source_Some in L. destruct L as [_ L].
    now apply new_key_of_new_key in L.
  - destruct (new_key_of k) eqn:Ek; [|reflexivity].
    destruct (existsb (String.eqb k) (dict.keys d)) eqn:X; [congruence|].
    elim I. apply getitem_None. intro Ik.
    apply existsb_eqb_In in Ik. congruence.
Qed.

End Rename.

(** ** Filtering and updating *)

Section Loading.

Context {V : Type}.

Lemma keys_filter_In (f : string * V -> bool) (d : dict.t V) (k : string) :
  In k (dict.keys (filter f d)) -> In k (dict.keys d).
Proof.
  unfold dict.keys. rewrite !in_map_iff.
  intros (x & E & I). apply filter_In in I. exists x. tauto.
Qed.

Lemma wf_filter (f : string * V -> bool) (d : dict.t V) :
  dict.wf d -> dict.wf (filter f d).
Proof.
  unfold dict.wf. induction d as [|[n v] d IH]; simpl; intro W; [constructor|].
  inversion W as [|? ? Nn Wd]; subst.
  destruct (f (n, v)); simpl; auto.
  constructor; auto. intro I. apply Nn. now apply keys_filter_In in I.
Qed.

Lemma getitem_filter (f : string * V -> bool) (d : dict.t V) (q : string) :
  dict.wf d ->
  dict.getitem (filter f d) q
  = match dict.getitem d q with
    | Some v => if f (q, v) then Some v else None
    | None => None
    end.
Proof.
  unfold dict.wf. induction d as [|[n v] d IH]; simpl; intro W; [reflexivity|].
  inversion W as [|? ? Nn Wd]; subst.
  destruct (String.eqb_spec n q) as [->|N].
  - destruct (f (q, v)) eqn:F; simpl.
    + now rewrite String.eqb_refl.
    + apply getitem_None. intro I. apply Nn. now apply keys_filter_In in I.
  - destruct (f (n, v)); simpl; auto.
    destruct (String.eqb_spec n q); [contradiction | auto].
Qed.

Lemma getitem_In (d : dict.t V) (k : string) (v : V) :
  dict.wf d -> In (k, v) d -> dict.getitem d k = Some v.
Proof.
  unfold dict.wf. induction d as [|[n v'] d IH]; simpl; intros W I; [easy|].
  inversion W as [|? ? Nn Wd]; subst.
  destruct I as [[= -> ->]|I].
  - now rewrite String.eqb_refl.
  - destruct (String.eqb_spec n k) as [->|_]; [|auto].
    elim Nn. apply in_map_iff. now exists (k, v).
Qed.

Lemma getitem_update (d o : dict.t V) (q : string) :
  dict.wf o ->
  dict.getitem (dict.update d o) q
  = match dict.getitem o q with
    | Some v => Some v
    | None => dict.getitem d q
    end.
Proof.
  unfold dict.update, dict.wf. revert d.
  induction o as [|[k v] o IH]; simpl; intros d W; [reflexivity|].
  inversion W as [|? ? Nk Wo]; subst.
  rewrite IH by assumption. rewrite getitem_setitem.
  destruct (String.eqb_spec k q) as [->|_]; [|reflexivity].
  apply getitem_None in Nk. now rewrite Nk.
Qed.

Lemma keys_update (d o : dict.t V) :
  (forall k, In k (dict.keys o) -> In k (dict.keys d)) ->
  dict.keys (dict.update d o) = dict.keys d.
Proof.
  unfold dict.update. revert d.
  induction o as [|[k v] o IH]; simpl; intros d H; [reflexivity|].
  assert (E : dict.keys (dict.setitem d k v) = dict.keys d).
  { rewrite keys_setitem. unfold dict.contains.
    destruct (dict.getitem d k) eqn:G; [reflexivity|].
    apply getitem_None in G. elim G. apply H. now left. }
  rewrite IH; [assumption|].
  intros k' I. rewrite E. apply H. now right.
Qed.

Lemma excluded (g : string * V -> bool) (d : dict.t V) (k : string) (v : V) :
  dict.wf d -> dict.getitem d k = Some v ->
  existsb (String.eqb k) (map fst (filter g d)) = g (k, v).
Proof.
  intros W G.
  destruct (g (k, v)) eqn:E.
  - apply existsb_eqb_In.
    change (In k (dict.keys (filter g d))).
    apply (getitem_Some_In _ _ v). now rewrite getitem_filter, G, E.
  - destruct (existsb (String.eqb k) (map fst (filter g d))) eqn:X;
      [|reflexivity].
    apply existsb_eqb_In in X.
    change (In k (dict.keys (filter g d))) in X.
    apply In_keys in X. rewrite getitem_filter, G, E in X by assumption.
    congruence.
Qed.

End Loading.

(** ** Properties of the pretrained branch *)

(** X17. [pattern.match(key)] succeeds exactly on the keys of the old
    format: anything without a newline, then [denselayer], one or more
    digits, a dot, one of [norm], [relu], [conv], a dot, [1] or [2], a
    dot, one of the four tensor names, and at most one newline at the
    very end.  The match object then holds exactly two groups: group 1
    is the key up to the sub-module name, group 2 is the index with the
    tensor name; the dot between them and a final newline belong to
    neither. *)
Theorem X17_pattern_matches_old_format (key : string) (res : re.Match) :
  re.match_ pattern key = Some res
  <-> exists g1 g2,
        old_format key g1 g2 /\ res = [(2%nat, g2); (1%nat, g1)].
Proof.
  split.
  - apply match_inv.
  - intros (g1 & g2 & O & ->). now apply match_intro.
Qed.

(** X18. A key that the loop has produced is never matched by the
    pattern: renaming is not applied twice. *)
Theorem X18_new_key_is_not_matched (key k' : string) :
  new_key_of key = Some k' -> re.match_ pattern k' = None.
Proof.
  intro H. apply new_key_of_None. now apply (new_key_of_new_key key).
Qed.

Lemma X18_witness :
  new_key_of "features.denseblock1.denselayer1.norm.1.weight"
  = Some "features.denseblock1.denselayer1.norm1.weight"
  /\ re.match_ pattern "features.denseblock1.denselayer1.norm1.weight" = None.
Proof.
  split; [vm_compute; reflexivity|].
  apply (X18_new_key_is_not_matched
           "features.denseblock1.denselayer1.norm.1.weight").
  vm_compute. reflexivity.
Defined.

Lemma second_groups_suffix_free :
  forallb (fun x =>
             forallb (fun y => implb (suffixb x y) (String.eqb x y))
                     second_groups)
          second_groups = true.
Proof. vm_compute. reflexivity. Qed.

Lemma append_nil_r (s : string) : (s ++ EmptyString)%string = s.
Proof. induction s as [|c s IH]; simpl; [reflexivity | now rewrite IH]. Qed.

Lemma old_format_parts (key g1 g2 : string) :
  old_format key g1 g2 ->
  In g2 second_groups
  /\ (key = (g1 ++ "." ++ g2)%string
      \/ key = ((g1 ++ "." ++ g2) ++ String re.newline EmptyString)%string).
Proof.
  intros (p & ds & kind & n & name & nl & _ & _ & _ & _ & In_ & Iname
          & Inl & _ & -> & ->).
  split.
  - unfold second_groups.
    apply in_flat_map. exists n. split; [assumption|].
    now apply (in_map (fun name => (n ++ "." ++ name)%string)).
  - destruct Inl as [<-|[<-|[]]]; [left | right].
    + now rewrite append_nil_r.
    + now rewrite !append_assoc.
Qed.

(** X19. Two keys get the same new key only if they are equal or one
    of them is the other followed by a newline: apart from that, the
    loop never writes two entries to one key. *)
Theorem X19_new_keys_collide_only_by_newline (k1 k2 q : string) :
  new_key_of k1 = Some q -> new_key_of k2 = Some q ->
  k1 = k2
  \/ k1 = (k2 ++ String re.newline EmptyString)%string
  \/ k2 = (k1 ++ String re.newline EmptyString)%string.
Proof.
  intros H1 H2.
  apply new_key_of_Some in H1, H2.
  destruct H1 as (g1 & g2 & O1 & E1), H2 as (g1' & g2' & O2 & E2).
  apply old_format_parts in O1, O2.
  destruct O1 as [I1 K1], O2 as [I2 K2].
  assert (X : g2 = g2').
  { pose proof second_groups_suffix_free as F.
    rewrite forallb_forall in F.
    pose proof (F _ I1) as F1. pose proof (F _ I2) as F2.
    rewrite forallb_forall in F1, F2.
    specialize (F1 _ I2). specialize (F2 _ I1).
    rewrite E1 in E2. apply app_eq_suffix in E2.
    apply orb_true_iff in E2. destruct E2 as [S|S]; rewrite S in *.
    - now apply String.eqb_eq in F1.
    - apply String.eqb_eq in F2. now symmetry. }
  subst g2'. rewrite E1 in E2. apply append_inv_tail in E2. subst g1'.
  destruct K1 as [-> | ->], K2 as [-> | ->]; auto.
Qed.

Lemma X19_witness :
  let k := "denselayer1.conv.2.weight" in
  let k_nl := (k ++ String re.newline EmptyString)%string in
  (new_key_of k_nl = Some "denselayer1.conv2.weight"
   /\ new_key_of k = Some "denselayer1.conv2.weight")
  /\ (k_nl = k \/ k_nl = (k ++ String re.newline EmptyString)%string
      \/ k = (k_nl ++ String re.newline EmptyString)%string).
Proof.
  split; [split; vm_compute; reflexivity|].
  apply (X19_new_keys_collide_only_by_newline _ _ "denselayer1.conv2.weight");
    vm_compute; reflexivity.
Defined.

(** X20. On every dictionary the renaming loop runs to its end without
    a [KeyError].  Afterwards a key [q] holds: the value of the last
    key of the original dictionary whose new key is [q], if there is
    one; otherwise nothing if [q] itself is matched by the pattern;
    otherwise what it held before.  So a value that was already stored
    under the new name is overwritten by the renamed one. *)
Theorem X20_rename_loop_result {V : Type} (d : dict.t V) :
  dict.wf d ->
  exists d',
    rename_keys d = Some d'
    /\ dict.wf d'
    /\ forall q,
         dict.getitem d' q
         = match last_source (dict.keys d) q with
           | Some k => dict.getitem d k
           | None =>
               match re.match_ pattern q with
               | Some _ => None
               | None => dict.getitem d q
               end
           end.
Proof.
  intro W. destruct (rename_keys_spec d W) as (d' & E & W' & G).
  exists d'. repeat split; auto.
  intro q. rewrite G. unfold renamed.
  destruct (last_source (dict.keys d) q); [reflexivity|].
  destruct (new_key_of q) as [k'|] eqn:N.
  - assert (M : re.match_ pattern q <> None)
      by (rewrite <- new_key_of_None; congruence).
    destruct (re.match_ pattern q); [|congruence].
    destruct (existsb (String.eqb q) (dict.keys d)) eqn:X; [reflexivity|].
    apply getitem_None. intro I. apply existsb_eqb_In in I. congruence.
  - apply new_key_of_None in N. now rewrite N.
Qed.

Lemma X20_witness :
  let d := [ ("denselayer1.norm1.weight", 10);
             ("denselayer1.norm.1.weight", 20);
             ("classifier.bias", 30) ] in
  dict.wf d
  /\ exists d',
       rename_keys d = Some d'
       /\ dict.getitem d' "denselayer1.norm1.weight" = Some 20
       /\ dict.getitem d' "denselayer1.norm.1.weight" = None
       /\ dict.getitem d' "classifier.bias" = Some 30.
Proof.
  intro d.
  assert (W : dict.wf d).
  { unfold dict.wf. simpl.
    repeat constructor; simpl; intuition discriminate. }
  split; [exact W|].
  destruct (X20_rename_loop_result d W) as (d' & E & _ & G).
  exists d'. split; [exact E|].
  rewrite !G. repeat split; vm_compute; reflexivity.
Defined.

(** X21. After the loop no key of the dictionary is matched by the
    pattern, and running the loop once more changes nothing. *)
Theorem X21_rename_loop_idempotent {V : Type} (d d' : dict.t V) :
  dict.wf d -> rename_keys d = Some d' ->
  (forall k, In k (dict.keys d') -> re.match_ pattern k = None)
  /\ rename_keys d' = Some d'.
Proof.
  intros W E.
  pose proof (renamed_keys_stay d d' W E) as S.
  split.
  - intros k I. apply new_key_of_None. now apply S.
  - unfold rename_keys. now apply rename_noop.
Qed.

Lemma X21_witness :
  let d := [ ("denselayer1.norm1.weight", 10);
             ("denselayer1.norm.1.weight", 20);
             ("classifier.bias", 30) ] in
  let d' := [ ("denselayer1.norm1.weight", 20); ("classifier.bias", 30) ] in
  (dict.wf d /\ rename_keys d = Some d')
  /\ (forall k, In k (dict.keys d') -> re.match_ pattern k = None)
  /\ rename_keys d' = Some d'.
Proof.
  intros d d'.
  assert (W : dict.wf d).
  { unfold dict.wf. simpl.
    repeat constructor; simpl; intuition discriminate. }
  assert (E : rename_keys d = Some d') by (vm_compute; reflexivity).
  split; [split; assumption|].
  exact (X21_rename_loop_idempotent d d' W E).
Defined.

Lemma pretrained_state_dict_spec {V : Type} (shape : V -> list Z)
      (model_dict pretrained_dict : dict.t V) :
  dict.wf model_dict -> dict.wf pretrained_dict ->
  exists d',
    pretrained_state_dict shape model_dict pretrained_dict = Some d'
    /\ ((forall k, In k (dict.keys model_dict) ->
                   re.match_ pattern k = None) ->
        dict.keys d' = dict.keys model_dict
        /\ forall k,
             dict.getitem d' k
             = match dict.getitem pretrained_dict k with
               | Some v =>
                   if dict.contains model_dict k
                      && shape_in (shape v)
                                  (map (fun kv => shape (snd kv)) model_dict)
                   then Some v
                   else dict.getitem model_dict k
               | None => dict.getitem model_dict k
               end).
Proof.
  intros Wm Wp. unfold pretrained_state_dict.
  set (model_shapes := map (fun kv => shape (snd kv)) model_dict).
  set (g := fun kv : string * V =>
              negb (shape_in (shape (snd kv)) model_shapes)).
  set (f := fun kv : string * V =>
              dict.contains model_dict (fst kv)
              && negb (existsb (String.eqb (fst kv))
                               (map fst (filter g pretrained_dict)))).
  assert (Wf : dict.wf (filter f pretrained_dict)) by now apply wf_filter.
  assert (Gf : forall k,
             dict.getitem (filter f pretrained_dict) k
             = match dict.getitem pretrained_dict k with
               | Some v =>
                   if dict.contains model_dict k
                      && shape_in (shape v) model_shapes
                   then Some v else None
               | None => None
               end).
  { intro k. rewrite getitem_filter by assumption.
    destruct (dict.getitem pretrained_dict k) as [v|] eqn:G; [|reflexivity].
    unfold f. cbn [fst].
    rewrite (excluded g pretrained_dict k v Wp G).
    unfold g. cbn [snd]. now rewrite negb_involutive. }
  assert (Sub : forall k, In k (dict.keys (filter f pretrained_dict)) ->
                          In k (dict.keys model_dict)).
  { intros k I. apply In_keys in I. rewrite Gf in I.
    destruct (dict.getitem pretrained_dict k) as [v|]; [|congruence].
    unfold dict.contains in I.
    destruct (dict.getitem model_dict k) as [m|] eqn:Gm; [|now elim I].
    now apply (getitem_Some_In _ _ m). }
  destruct (rename_keys_spec _ Wf) as (d1 & E1 & W1 & G1).
  rewrite E1. cbn [bind]. eexists. split; [reflexivity|].
  intro Hm.
  assert (E2 : rename_keys (filter f pretrained_dict)
               = Some (filter f pretrained_dict)).
  { unfold rename_keys. apply rename_noop.
    intros k I. apply new_key_of_None. apply Hm. now apply Sub. }
  rewrite E1 in E2. injection E2 as ->.
  split.
  - now apply keys_update.
  - intro k. rewrite getitem_update, Gf by assumption.
    destruct (dict.getitem pretrained_dict k) as [v|]; [|reflexivity].
    now destruct (dict.contains model_dict k && shape_in (shape v) model_shapes).
Qed.

(** X22. The dictionary code of the branch never raises.  If no key of
    the model's own state dictionary is matched by the pattern, the
    renaming loop has nothing to rename, because only keys of the model
    pass the filter before it: the dictionary handed to
    [load_state_dict] then has the model's keys in the model's order,
    and a key holds the pretrained tensor if there is one under the
    same key whose shape is the shape of some tensor of the model (not
    necessarily of the one under this key), and the model's own tensor
    otherwise. *)
Theorem X22_pretrained_state_dict {V : Type} (shape : V -> list Z)
        (model_dict pretrained_dict : dict.t V) :
  dict.wf model_dict -> dict.wf pretrained_dict ->
  exists d',
    pretrained_state_dict shape model_dict pretrained_dict = Some d'
    /\ ((forall k, In k (dict.keys model_dict) ->
                   re.match_ pattern k = None) ->
        dict.keys d' = dict.keys model_dict
        /\ forall k,
             dict.getitem d' k
             = match dict.getitem pretrained_dict k with
               | Some v =>
                   if dict.contains model_dict k
                      && shape_in (shape v)
                                  (map (fun kv => shape (snd kv)) model_dict)
                   then Some v
                   else dict.getitem model_dict k
               | None => dict.getitem model_dict k
               end).
Proof. apply pretrained_state_dict_spec. Qed.

Lemma X22_witness :
  let model_dict :=
    [ ("features.conv0.weight", [64; 3; 7; 7]);
      ("features.norm0.weight", [64]);
      ("last_conv.weight", [1; 4; 3; 3]) ] in
  let pretrained_dict :=
    [ ("features.conv0.weight", [64; 3; 7; 7]);
      ("features.norm0.weight", [1; 4; 3; 3]);
      ("classifier.weight", [1000; 1024]) ] in
  (dict.wf model_dict /\ dict.wf pretrained_dict)
  /\ exists d',
       pretrained_state_dict (fun v => v) model_dict pretrained_dict = Some d'
       /\ dict.keys d' = dict.keys model_dict
       /\ dict.getitem d' "features.norm0.weight" = Some [1; 4; 3; 3].
Proof.
  intros model_dict pretrained_dict.
  assert (Wm : dict.wf model_dict).
  { unfold dict.wf. simpl.
    repeat constructor; simpl; intuition discriminate. }
  assert (Wp : dict.wf pretrained_dict).
  { unfold dict.wf. simpl.
    repeat constructor; simpl; intuition discriminate. }
  split; [split; assumption|].
  destruct (X22_pretrained_state_dict (fun v => v) model_dict pretrained_dict
                                      Wm Wp) as (d' & E & H).
  exists d'. split; [exact E|].
  destruct H as [K G].
  - intros k [<-|[<-|[<-|[]]]]; vm_compute; reflexivity.
  - split; [exact K|]. rewrite G. vm_compute. reflexivity.
Defined.

Lemma string_of_uint_is_digit (d : uint) :
  string_forall re.is_digit (NilEmpty.string_of_uint d) = true.
Proof. induction d; simpl; auto. Qed.

Lemma str_nonneg (n : Z) :
  0 <= n ->
  Py.str n <> EmptyString /\ string_forall re.is_digit (Py.str n) = true.
Proof.
  intro H. unfold Py.str.
  destruct n as [|p|p]; [split; [discriminate | reflexivity] | | lia].
  simpl. unfold NilZero.string_of_uint.
  destruct (Pos.to_uint p) as [|d|d|d|d|d|d|d|d|d|d] eqn:E;
    try (split; [discriminate | rewrite <- E; apply string_of_uint_is_digit]).
  split; [discriminate | reflexivity].
Qed.

Lemma dense_block_layer (N C0 bn g : Z) (dr : Q) (i : Z) :
  0 <= i < N ->
  getattr (_DenseBlock_children N C0 bn g dr)
          ("denselayer" ++ Py.str (i + 1))%string
  = Some (_DenseLayer (C0 + i * g) g bn dr).
Proof.
  intro H. rewrite DenseBlock_children_spec.
  apply (getattr_map_inj (dense_child C0 bn g dr) (Py.range N) i).
  - intros j _ Hj. now apply (dense_child_name_inj C0 bn g dr C0 bn g dr).
  - now apply In_range.
Qed.

(** X23. The pattern fits the names that this file gives to modules.
    For the layer [denselayer(i+1)] of a dense block and every
    sub-module name [norm], [relu] or [conv] with index [1] or [2], the
    key with a dot before the index is renamed to the key without it,
    and the name without the dot is the name of a sub-module that
    [_DenseLayer.__init__] adds to that layer. *)
Theorem X23_renaming_targets_dense_layer_names
        (N C0 bn g : Z) (dr : Q) (i : Z) (prefix kind n name : string) :
  0 <= i < N ->
  string_forall (re.item_ok re.Dot) prefix = true ->
  In kind ["norm"; "relu"; "conv"] ->
  In n ["1"; "2"] ->
  In name ["weight"; "bias"; "running_mean"; "running_var"] ->
  let layer := ("denselayer" ++ Py.str (i + 1))%string in
  new_key_of (prefix ++ layer ++ "." ++ kind ++ "." ++ n ++ "." ++ name)
  = Some (prefix ++ layer ++ "." ++ (kind ++ n) ++ "." ++ name)%string
  /\ exists children drop_rate m,
       getattr (_DenseBlock_children N C0 bn g dr) layer
       = Some (nn.DenseLayer children drop_rate)
       /\ getattr children (kind ++ n)%string = Some m.
Proof.
  intros Hi Hp Hk Hn Hname layer. split.
  - apply new_key_of_Some.
    exists (prefix ++ layer ++ "." ++ kind)%string, (n ++ "." ++ name)%string.
    split.
    + destruct (str_nonneg (i + 1)) as [Ne Dg]; [lia|].
      exists prefix, (Py.str (i + 1)), kind, n, name, EmptyString.
      repeat split; auto.
      * now left.
      * now rewrite !append_assoc, append_nil_r.
    + now rewrite !append_assoc.
  - unfold layer. rewrite dense_block_layer by assumption.
    unfold _DenseLayer.
    destruct Hk as [<-|[<-|[<-|[]]]]; destruct Hn as [<-|[<-|[]]];
      eexists _, _, _; split; reflexivity.
Qed.

Lemma X23_witness :
  (0 <= 5 < 6)
  /\ new_key_of "features.denseblock1.denselayer6.conv.2.weight"
     = Some "features.denseblock1.denselayer6.conv2.weight"
  /\ exists children drop_rate m,
       getattr (_DenseBlock_children 6 64 4 32 0) "denselayer6"
       = Some (nn.DenseLayer children drop_rate)
       /\ getattr children "conv2" = Some m.
Proof.
  split; [lia|].
  apply (X23_renaming_targets_dense_layer_names
           6 64 4 32 0 5 "features.denseblock1." "conv" "2" "weight");
    simpl; auto; lia.
Defined.

Lemma excluded_without {V : Type} (g : string * V -> bool) (d : dict.t V)
      (k n : string) :
  n <> k ->
  existsb (String.eqb n) (map fst (filter g (without d k)))
  = existsb (String.eqb n) (map fst (filter g d)).
Proof.
  intro N. unfold without.
  induction d as [|[n' v] d IH]; simpl; [reflexivity|].
  destruct (String.eqb_spec n' k) as [->|N']; simpl.
  - destruct (g (k, v)); simpl; [|assumption].
    destruct (String.eqb_spec n k); [contradiction | assumption].
  - destruct (g (n', v)); simpl; [now rewrite IH | assumption].
Qed.

Lemma filter_without {V : Type} (f : string * V -> bool) (d : dict.t V)
      (k : string) :
  (forall kv, fst kv = k -> f kv = false) ->
  filter f d = filter f (without d k).
Proof.
  intro H. unfold without.
  induction d as [|[n v] d IH]; simpl; [reflexivity|].
  destruct (String.eqb_spec n k) as [->|N]; simpl.
  - now rewrite (H (k, v)).
  - now rewrite IH.
Qed.

(** X24. An entry of the pretrained dictionary whose key is not a key
    of the model has no effect whatever: the branch computes the same
    as without the entry.  The filter comes before the renaming loop,
    so a tensor stored under an old-format key is dropped rather than
    moved to its new key whenever the model itself uses the new
    names. *)
Theorem X24_keys_outside_the_model_are_ignored {V : Type}
        (shape : V -> list Z) (model_dict pretrained_dict : dict.t V)
        (k : string) :
  dict.contains model_dict k = false ->
  pretrained_state_dict shape model_dict pretrained_dict
  = pretrained_state_dict shape model_dict (without pretrained_dict k).
Proof.
  intro C. unfold pretrained_state_dict.
  set (model_shapes := map (fun kv => shape (snd kv)) model_dict).
  set (g := fun kv : string * V =>
              negb (shape_in (shape (snd kv)) model_shapes)).
  set (f := fun kv : string * V =>
              dict.contains model_dict (fst kv)
              && negb (existsb (String.eqb (fst kv))
                               (map fst (filter g pretrained_dict)))).
  set (f' := fun kv : string * V =>
               dict.contains model_dict (fst kv)
               && negb (existsb (String.eqb (fst kv))
                                (map fst (filter g (without pretrained_dict k))))).
  assert (E : filter f pretrained_dict = filter f' (without pretrained_dict k)).
  { rewrite (filter_without f pretrained_dict k).
    - apply filter_ext_in. intros [n v] I.
      unfold without in I. apply filter_In in I. destruct I as [_ I].
      cbn [fst] in I. unfold f, f'. cbn [fst].
      destruct (String.eqb_spec n k) as [->|N]; [discriminate|].
      now rewrite excluded_without.
    - intros [n v] N. cbn [fst] in N. subst n.
      unfold f. cbn [fst]. now rewrite C. }
  now rewrite E.
Qed.

Lemma X24_witness :
  let model_dict := [ ("denselayer1.norm1.weight", [64]) ] in
  let pretrained_dict :=
    [ ("denselayer1.norm.1.weight", [64]) ] in
  dict.contains model_dict "denselayer1.norm.1.weight" = false
  /\ new_key_of "denselayer1.norm.1.weight" = Some "denselayer1.norm1.weight"
  /\ pretrained_state_dict (fun v => v) model_dict pretrained_dict
     = pretrained_state_dict (fun v => v) model_dict [].
Proof.
  intros model_dict pretrained_dict.
  split; [reflexivity|]. split; [vm_compute; reflexivity|].
  apply (X24_keys_outside_the_model_are_ignored
           (fun v => v) model_dict pretrained_dict "denselayer1.norm.1.weight").
  reflexivity.
Defined.
